(** * The Python binding of SCS ([src/python/scsmodule.c])

    A shallow embedding of the C extension module that sits between Python
    and the native solver: argument validation, cone and option parsing,
    warm-start loading, result packaging and the release of every
    intermediate resource.

    Conventions of the embedding.
    - A C out-parameter is returned next to the function's return value.
    - What a call does to the outside world (text on stderr, the pending
      Python exception, releases, the call of the native solver) is kept in a
      log, in program order; undefined behaviour of the C program is an
      outcome of its own.
    - An allocation of a size that is not negative is assumed to succeed, as
      the source assumes it. *)

From Stdlib Require Import ZArith List Bool Lia Ascii PrimFloat FloatOps SpecFloat.
From Stdlib Require Import FloatAxioms.
From stdpp Require Import gmap strings list.

Set Warnings "-register-all,-inexact-float,-notation-for-abbreviation".
Local Open Scope string_scope.
Local Open Scope Z_scope.
Local Open Scope list_scope.

(** ** Native scalar types *)

(** [idxint] and [pfloat] are typedefs of [glbopts.h]. The width of a C [long]
    and of [idxint] are parameters of the build: [idxint] is [long] when
    [DLONG] is defined (format ["(ll)"]) and [int] otherwise (["(ii)"]).

    [va_arg_long z] is the [long] that [va_arg (ap, long)] reads where the
    [idxint] [z] was passed to a variadic function, as [Py_BuildValue] does
    for its format [l]. Where [idxint] is [long] it is [z]; where it is not,
    C leaves the read undefined and the calling convention of the platform
    decides what arrives. *)
Class Build := {
  LONG_BITS : Z;
  IDXINT_BITS : Z;
  LONG_BITS_pos : 0 < LONG_BITS;
  IDXINT_BITS_pos : 0 < IDXINT_BITS;
  va_arg_long : Z -> Z;
  va_arg_long_same : IDXINT_BITS = LONG_BITS -> forall z, va_arg_long z = z
}.

(** The default build on x86-64: 64-bit [long], [idxint] is [int]. An [int]
    argument travels in the low half of a 64-bit register whose high half is
    cleared, so [va_arg (ap, long)] reads its 32 bits as an unsigned
    number. *)
Definition build_int : Build.
Proof.
  refine {| LONG_BITS := 64; IDXINT_BITS := 32; va_arg_long := fun z => z mod 2 ^ 32 |};
    [lia | lia | intros H; discriminate H].
Defined.

(** The [DLONG] build on x86-64: [idxint] is the 64-bit [long]. *)
Definition build_DLONG : Build.
Proof.
  refine {| LONG_BITS := 64; IDXINT_BITS := 64; va_arg_long := fun z => z |};
    [lia | lia | reflexivity].
Defined.

(** Conversion to a signed [w]-bit integer: the value modulo [2^w], as the
    compilers the module is built with define the narrowing cast. *)
Definition wrap (w z : Z) : Z := (z + 2 ^ (w - 1)) mod 2 ^ w - 2 ^ (w - 1).

Definition fits (w z : Z) : bool := (- 2 ^ (w - 1) <=? z) && (z <? 2 ^ (w - 1)).

(** [pfloat] is [double] (see [getDoubleType]). *)
Definition pfloat : Set := float.

(** [(pfloat) z] for an integer [z]: the nearest binary64 value. *)
Definition Z2pfloat (z : Z) : pfloat := SF2Prim (binary_normalize 53 1024 z 0 false).

(** A C cast of a double to an integer: truncation toward zero. *)
Definition pfloat_trunc (f : pfloat) : Z :=
  match Prim2SF f with
  | S754_finite s m e =>
      let v := if 0 <=? e then Z.pos m * 2 ^ e else Z.pos m / 2 ^ (- e) in
      if s then - v else v
  | _ => 0
  end.

Definition newline : string := String "010"%char EmptyString.

(** ** Python and numpy values *)

(** The elements of a numpy array, by the kind of its dtype:
    floating point, integer, or anything else (bool, complex, object, ...). *)
Inductive NpyData :=
| NpyFloats (xs : list pfloat)
| NpyInts (zs : list Z)
| NpyOther.

(** The fields of [struct ScsPyData]: the arrays the module owns during a
    call of [csolve]. *)
Inductive PsField := Ax_ | Ai_ | Ap_ | b_ | c_ | x0_ | y0_ | s0_.

(** Where the memory behind a [pfloat *] lives: in a block of the C heap that
    no array owns, or in the data of the array that a field of
    [struct ScsPyData] owns. *)
Inductive Place := in_heap | in_data_of (f : PsField).

(** An array owns its data, or it borrows them from memory it does not
    manage (the flag [NPY_ARRAY_OWNDATA] is clear). The elements shown for a
    borrowing array are what that memory held when the array was made; they
    can be read for as long as the memory is not released. *)
Inductive Base := owns_data | borrows (p : Place).

Record PyArrayObject := mkArrayOver {
  dimensions : list Z;
  elements : NpyData;
  base : Base
}.

(** An array that owns its data. *)
Notation mkArray d e := (mkArrayOver d e owns_data).

Inductive PyObject :=
| PyInt (z : Z)                       (* int (and Python 2's long) *)
| PyFloat (f : pfloat)
| PyString (s : string)
| PyNone
| PyList (l : list PyObject)
| PyTuple (l : list PyObject)
| PyDict (d : gmap string PyObject)
| PyArray (a : PyArrayObject).

Inductive PyExc := PyExc_ValueError | PyExc_OverflowError | PyExc_TypeError.

Definition PyArray_ISFLOAT (a : PyArrayObject) : bool :=
  match elements a with NpyFloats _ => true | _ => false end.

Definition PyArray_ISINTEGER (a : PyArrayObject) : bool :=
  match elements a with NpyInts _ => true | _ => false end.

Definition PyArray_NDIM (a : PyArrayObject) : Z := Z.of_nat (length (dimensions a)).

Definition PyArray_DIM (a : PyArrayObject) (i : nat) : Z := nth i (dimensions a) 0.

(** With Python 3 the source defines [PyInt_Check] as [PyLong_Check]; under
    Python 2 the two tests tell [int] from [long] objects, and every place
    that uses them converts both in the same way. *)
Definition PyLong_Check (o : PyObject) : bool :=
  match o with PyInt _ => true | _ => false end.

Definition PyInt_Check := PyLong_Check.

Definition PyFloat_Check (o : PyObject) : bool :=
  match o with PyFloat _ => true | _ => false end.

Definition PyList_Check (o : PyObject) : bool :=
  match o with PyList _ => true | _ => false end.

Definition PyFloat_AsDouble (o : PyObject) : pfloat :=
  match o with PyFloat f => f | _ => (-1)%float end.

(** numpy type numbers the module asks for. *)
Inductive typenum := NPY_INT8 | NPY_INT16 | NPY_INT32 | NPY_INT64 | NPY_DOUBLE.

Definition typenum_bits (t : typenum) : Z :=
  match t with
  | NPY_INT8 => 8 | NPY_INT16 => 16 | NPY_INT32 => 32 | NPY_INT64 => 64
  | NPY_DOUBLE => 64
  end.

(** [PyArray_Cast] of numpy: a new array that owns its data, the elements
    converted as C casts convert them. *)
Definition PyArray_Cast (a : PyArrayObject) (t : typenum) : PyArrayObject :=
  mkArray (dimensions a)
    match t, elements a with
    | NPY_DOUBLE, NpyFloats xs => NpyFloats xs
    | NPY_DOUBLE, NpyInts zs => NpyFloats (map Z2pfloat zs)
    | _, NpyInts zs => NpyInts (map (wrap (typenum_bits t)) zs)
    | _, NpyFloats xs => NpyInts (map (fun x => wrap (typenum_bits t) (pfloat_trunc x)) xs)
    | _, NpyOther => NpyOther
    end.

(** [PyArray_DATA] read as a [pfloat *] and as an [idxint *]. *)
Definition PyArray_DATA_pfloat (a : PyArrayObject) : list pfloat :=
  match elements a with NpyFloats xs => xs | _ => [] end.

Definition PyArray_DATA_idxint (a : PyArrayObject) : list Z :=
  match elements a with NpyInts zs => zs | _ => [] end.

(** ** The native structures ([scs.h], [cones.h], [linsys/amatrix.h]) *)

Record AMatrix := mkAMatrix {
  A_x : list pfloat;
  A_i : list Z;
  A_p : list Z
}.

(** A pointer field is [None] when it is [NULL]. *)
Record Data := mkData {
  d_m : Z;
  d_n : Z;
  d_A : option AMatrix;
  d_b : option (list pfloat);
  d_c : option (list pfloat);
  MAX_ITERS : Z;
  VERBOSE : Z;
  NORMALIZE : Z;
  SCALE : pfloat;
  EPS : pfloat;
  CG_RATE : pfloat;
  ALPHA : pfloat;
  RHO_X : pfloat;
  WARM_START : Z
}.

Record Cone := mkCone {
  k_f : Z;
  k_l : Z;
  k_q : option (list Z);
  k_qsize : Z;
  k_s : option (list Z);
  k_ssize : Z;
  k_ep : Z;
  k_ed : Z
}.

(** A buffer of [sol] is the values it holds and the place where it lives;
    the place of a [NULL] pointer is of no account. *)
Record Sol := mkSolAt {
  sol_x : option (list pfloat);
  sol_y : option (list pfloat);
  sol_s : option (list pfloat);
  sol_x_at : Place;
  sol_y_at : Place;
  sol_s_at : Place
}.

(** A solution whose buffers live on the heap. *)
Notation mkSol x y s := (mkSolAt x y s in_heap in_heap in_heap).

Record Info := mkInfo {
  statusVal : Z;
  iter : Z;
  pobj : pfloat;
  dobj : pfloat;
  resPri : pfloat;
  resDual : pfloat;
  relGap : pfloat;
  solveTime : pfloat;
  setupTime : pfloat;
  status : string
}.

Record ScsPyData := mkPs {
  ps_Ax : option PyArrayObject;
  ps_Ai : option PyArrayObject;
  ps_Ap : option PyArrayObject;
  ps_b : option PyArrayObject;
  ps_c : option PyArrayObject;
  ps_x0 : option PyArrayObject;
  ps_y0 : option PyArrayObject;
  ps_s0 : option PyArrayObject
}.

(** What [scs_calloc(sizeof(Data), 1)] and [scs_calloc(sizeof(Cone), 1)]
    hand back, and the initialisers [{ NULL, ... }] and [{ 0 }]. *)
Definition Data_zero : Data :=
  mkData 0 0 None None None 0 0 0 0%float 0%float 0%float 0%float 0%float 0.

Definition Cone_zero : Cone := mkCone 0 0 None 0 None 0 0 0.

Definition Sol_zero : Sol := mkSol None None None.

Definition ps_NULL : ScsPyData := mkPs None None None None None None None None.

Definition set_m (v : Z) (d : Data) : Data :=
  mkData v (d_n d) (d_A d) (d_b d) (d_c d) (MAX_ITERS d) (VERBOSE d) (NORMALIZE d)
    (SCALE d) (EPS d) (CG_RATE d) (ALPHA d) (RHO_X d) (WARM_START d).
Definition set_n (v : Z) (d : Data) : Data :=
  mkData (d_m d) v (d_A d) (d_b d) (d_c d) (MAX_ITERS d) (VERBOSE d) (NORMALIZE d)
    (SCALE d) (EPS d) (CG_RATE d) (ALPHA d) (RHO_X d) (WARM_START d).
Definition set_A (v : option AMatrix) (d : Data) : Data :=
  mkData (d_m d) (d_n d) v (d_b d) (d_c d) (MAX_ITERS d) (VERBOSE d) (NORMALIZE d)
    (SCALE d) (EPS d) (CG_RATE d) (ALPHA d) (RHO_X d) (WARM_START d).
Definition set_b (v : option (list pfloat)) (d : Data) : Data :=
  mkData (d_m d) (d_n d) (d_A d) v (d_c d) (MAX_ITERS d) (VERBOSE d) (NORMALIZE d)
    (SCALE d) (EPS d) (CG_RATE d) (ALPHA d) (RHO_X d) (WARM_START d).
Definition set_c (v : option (list pfloat)) (d : Data) : Data :=
  mkData (d_m d) (d_n d) (d_A d) (d_b d) v (MAX_ITERS d) (VERBOSE d) (NORMALIZE d)
    (SCALE d) (EPS d) (CG_RATE d) (ALPHA d) (RHO_X d) (WARM_START d).
Definition set_MAX_ITERS (v : Z) (d : Data) : Data :=
  mkData (d_m d) (d_n d) (d_A d) (d_b d) (d_c d) v (VERBOSE d) (NORMALIZE d)
    (SCALE d) (EPS d) (CG_RATE d) (ALPHA d) (RHO_X d) (WARM_START d).
Definition set_VERBOSE (v : Z) (d : Data) : Data :=
  mkData (d_m d) (d_n d) (d_A d) (d_b d) (d_c d) (MAX_ITERS d) v (NORMALIZE d)
    (SCALE d) (EPS d) (CG_RATE d) (ALPHA d) (RHO_X d) (WARM_START d).
Definition set_NORMALIZE (v : Z) (d : Data) : Data :=
  mkData (d_m d) (d_n d) (d_A d) (d_b d) (d_c d) (MAX_ITERS d) (VERBOSE d) v
    (SCALE d) (EPS d) (CG_RATE d) (ALPHA d) (RHO_X d) (WARM_START d).
Definition set_SCALE (v : pfloat) (d : Data) : Data :=
  mkData (d_m d) (d_n d) (d_A d) (d_b d) (d_c d) (MAX_ITERS d) (VERBOSE d) (NORMALIZE d)
    v (EPS d) (CG_RATE d) (ALPHA d) (RHO_X d) (WARM_START d).
Definition set_EPS (v : pfloat) (d : Data) : Data :=
  mkData (d_m d) (d_n d) (d_A d) (d_b d) (d_c d) (MAX_ITERS d) (VERBOSE d) (NORMALIZE d)
    (SCALE d) v (CG_RATE d) (ALPHA d) (RHO_X d) (WARM_START d).
Definition set_CG_RATE (v : pfloat) (d : Data) : Data :=
  mkData (d_m d) (d_n d) (d_A d) (d_b d) (d_c d) (MAX_ITERS d) (VERBOSE d) (NORMALIZE d)
    (SCALE d) (EPS d) v (ALPHA d) (RHO_X d) (WARM_START d).
Definition set_ALPHA (v : pfloat) (d : Data) : Data :=
  mkData (d_m d) (d_n d) (d_A d) (d_b d) (d_c d) (MAX_ITERS d) (VERBOSE d) (NORMALIZE d)
    (SCALE d) (EPS d) (CG_RATE d) v (RHO_X d) (WARM_START d).
Definition set_RHO_X (v : pfloat) (d : Data) : Data :=
  mkData (d_m d) (d_n d) (d_A d) (d_b d) (d_c d) (MAX_ITERS d) (VERBOSE d) (NORMALIZE d)
    (SCALE d) (EPS d) (CG_RATE d) (ALPHA d) v (WARM_START d).
Definition set_WARM_START (v : Z) (d : Data) : Data :=
  mkData (d_m d) (d_n d) (d_A d) (d_b d) (d_c d) (MAX_ITERS d) (VERBOSE d) (NORMALIZE d)
    (SCALE d) (EPS d) (CG_RATE d) (ALPHA d) (RHO_X d) v.

Definition set_f (v : Z) (k : Cone) : Cone :=
  mkCone v (k_l k) (k_q k) (k_qsize k) (k_s k) (k_ssize k) (k_ep k) (k_ed k).
Definition set_l (v : Z) (k : Cone) : Cone :=
  mkCone (k_f k) v (k_q k) (k_qsize k) (k_s k) (k_ssize k) (k_ep k) (k_ed k).
Definition set_q (v : option (list Z)) (size : Z) (k : Cone) : Cone :=
  mkCone (k_f k) (k_l k) v size (k_s k) (k_ssize k) (k_ep k) (k_ed k).
Definition set_s (v : option (list Z)) (size : Z) (k : Cone) : Cone :=
  mkCone (k_f k) (k_l k) (k_q k) (k_qsize k) v size (k_ep k) (k_ed k).
Definition set_ep (v : Z) (k : Cone) : Cone :=
  mkCone (k_f k) (k_l k) (k_q k) (k_qsize k) (k_s k) (k_ssize k) v (k_ed k).
Definition set_ed (v : Z) (k : Cone) : Cone :=
  mkCone (k_f k) (k_l k) (k_q k) (k_qsize k) (k_s k) (k_ssize k) (k_ep k) v.

(** ** Effects *)

(** The heap blocks [freePyData] frees. *)
Inductive Block := blk_k_q | blk_k_s | blk_k | blk_d_A | blk_d.

Inductive Event :=
| Stderr (text : string)                  (* PySys_WriteStderr *)
| SetErr (exc : PyExc) (msg : string)     (* the pending exception is replaced *)
| Enter_freePyData                        (* a call of freePyData begins *)
| Py_DECREF (f : PsField)                 (* Py_DECREF(ps->f) *)
| scs_free (p : Block)
| Call_scs (d : Data) (k : Cone) (sol : Sol).

(** The outcome of running a piece of the module: a value and the log of
    what it did, or undefined behaviour. *)
Inductive Res (A : Type) :=
| Done (a : A) (log : list Event)
| Undefined.
Arguments Done {A} a log.
Arguments Undefined {A}.

Definition ret {A} (a : A) : Res A := Done a [].

Definition bind {A B} (r : Res A) (f : A -> Res B) : Res B :=
  match r with
  | Done a l1 =>
      match f a with
      | Done b l2 => Done b (l1 ++ l2)
      | Undefined => Undefined
      end
  | Undefined => Undefined
  end.

Notation "'do' x <- c1 ; c2" := (bind c1 (fun x => c2))
  (at level 10, x name, c1 at level 100, c2 at level 200).
Notation "'do' ' pat <- c1 ; c2" := (bind c1 (fun pat => c2))
  (at level 10, pat pattern, c1 at level 100, c2 at level 200).
Notation "'run' c1 ; c2" := (bind c1 (fun _ => c2))
  (at level 10, c1 at level 100, c2 at level 200).

Definition emit (e : Event) : Res unit := Done tt [e].

(** The value a run returned, if it is defined. *)
Definition returned {A} (r : Res A) : option A :=
  match r with Done a _ => Some a | Undefined => None end.

(** The exception pending after a log: the last one set. *)
Fixpoint PyErr_Occurred (log : list Event) : option (PyExc * string) :=
  match log with
  | [] => None
  | e :: rest =>
      match PyErr_Occurred rest with
      | Some x => Some x
      | None => match e with SetErr exc msg => Some (exc, msg) | _ => None end
      end
  end.

Definition is_freePyData (e : Event) : bool :=
  match e with Enter_freePyData => true | _ => false end.

(** How often [freePyData] was entered. *)
Definition freePyData_calls (log : list Event) : nat :=
  length (filter (fun e => is_freePyData e = true) log).

(** ** The module *)

Section Module.
Context {B : Build}.

Definition to_idxint (z : Z) : Z := wrap IDXINT_BITS z.

(** [PyLong_AsLong] of CPython: the value when it fits a C [long]; otherwise
    -1 with OverflowError pending. *)
Definition PyLong_AsLong (o : PyObject) : Res Z :=
  match o with
  | PyInt z =>
      if fits LONG_BITS z then ret z
      else run emit (SetErr PyExc_OverflowError "Python int too large to convert to C long");
           ret (-1)
  | _ => run emit (SetErr PyExc_TypeError "an integer is required"); ret (-1)
  end.

Definition PyInt_AsLong := PyLong_AsLong.

(** [scs_calloc(n, sizeof(pfloat))]: [n] zeros. A negative [n] converts to a
    [size_t] so large that the size of the request overflows, and [calloc]
    returns [NULL]. For [n = 0] the block is empty (C also lets [calloc]
    return [NULL] then; the C libraries the module is built with do not). *)
Definition scs_calloc_pfloat (n : Z) : option (list pfloat) :=
  if n <? 0 then None else Some (repeat 0%float (Z.to_nat n)).

Definition scs_calloc_idxint (n : Z) : list Z := repeat 0 (Z.to_nat n).

Definition getIntType : typenum :=
  match IDXINT_BITS / 8 with
  | 1 => NPY_INT8
  | 2 => NPY_INT16
  | 4 => NPY_INT32
  | 8 => NPY_INT64
  | _ => NPY_INT32
  end.

Definition getDoubleType : typenum := NPY_DOUBLE.

(** The new owner of a contiguous copy of the requested type. *)
Definition getContiguous (array : PyArrayObject) (t : typenum) : PyArrayObject :=
  PyArray_Cast array t.

Definition printErr (key : string) : Res Z :=
  run emit (Stderr ("error parsing '" ++ key ++ "'")%string); ret (-1).

(** Returns the function's value, [*x] and [*px0]. Reading a dictionary value
    that is no numpy array through [PyArrayObject *] is undefined. *)
Definition getWarmStart (key : string) (px0 : option PyArrayObject) (l : Z)
    (warm : gmap string PyObject) : Res (Z * option (list pfloat) * option PyArrayObject) :=
  let x0 := warm !! key in
  let x := scs_calloc_pfloat l in
  match x0 with
  | Some (PyArray x0) =>
      if negb (PyArray_ISFLOAT x0) || negb (PyArray_NDIM x0 =? 1)
         || negb (PyArray_DIM x0 0 =? l) then
        run emit (Stderr ("Error parsing warm-start input" ++ newline)%string);
        ret (0, x, px0)
      else
        let px0 := getContiguous x0 getDoubleType in
        let x := Some (PyArray_DATA_pfloat px0) in
        ret (1, x, Some px0)
  | Some _ => Undefined
  | None => ret (0, x, px0)
  end.

(** [check(o) && ((v = (idxint) as_long(o)) >= 0)]: the value of the test and
    the content of [v] after it. *)
Definition check_and_store (check : PyObject -> bool) (as_long : PyObject -> Res Z)
    (o : PyObject) (v : Z) : Res (bool * Z) :=
  if check o then
    do z <- as_long o;
    let v := to_idxint z in
    ret (0 <=? v, v)
  else ret (false, v).

(** [(PyInt_Check(o) && ((v = (idxint) PyInt_AsLong(o)) >= 0)) ||
     (PyLong_Check(o) && ((v = (idxint) PyLong_AsLong(o)) >= 0))]. *)
Definition nonneg_int_into (o : PyObject) (v : Z) : Res (bool * Z) :=
  do '(t, v) <- check_and_store PyInt_Check PyInt_AsLong o v;
  if t then ret (true, v)
  else check_and_store PyLong_Check PyLong_AsLong o v.

Definition PyList_items (o : PyObject) : list PyObject :=
  match o with PyList l => l | _ => [] end.

(** The [for] loop of [getConeArrDim] from index [i] on: [Some r] when the
    loop left the function with [return r], and the array [q]. *)
Fixpoint getConeArrDim_loop (key : string) (items : list PyObject) (i : nat)
    (q : list Z) : Res (option Z * list Z) :=
  match items with
  | [] => ret (None, q)
  | qi :: rest =>
      do '(t, v) <- nonneg_int_into qi (nth i q 0);
      let q := <[i := v]> q in
      if negb t then do r <- printErr key; ret (Some r, q)
      else getConeArrDim_loop key rest (S i) q
  end.

(** Returns the function's value, [*varr] and [*vsize]; the latter two come in
    with what the caller's variables hold. A list's length is taken to fit
    [idxint]; the block from [scs_malloc] is read only after it is written. *)
Definition getConeArrDim (key : string) (varr : option (list Z)) (vsize : Z)
    (cone : gmap string PyObject) : Res (Z * option (list Z) * Z) :=
  match cone !! key with
  | Some obj =>
      if PyList_Check obj then
        let n := Z.of_nat (length (PyList_items obj)) in
        do '(r, q) <- getConeArrDim_loop key (PyList_items obj) 0 (scs_calloc_idxint n);
        match r with
        | Some r => ret (r, varr, vsize)
        | None => ret (0, Some q, n)
        end
      else if PyInt_Check obj || PyLong_Check obj then
        do '(t, v) <- nonneg_int_into obj 0;
        if negb t then do r <- printErr key; ret (r, varr, vsize)
        else ret (0, Some [v], 1)
      else do r <- printErr key; ret (r, varr, vsize)
  | None => ret (0, None, 0)
  end.

(** Returns the function's value and [*v]. *)
Definition getPosIntParam (key : string) (defVal : Z)
    (opts : option (gmap string PyObject)) : Res (Z * Z) :=
  let v := defVal in
  match opts with
  | Some opts =>
      match opts !! key with
      | Some obj =>
          do '(t, v) <- nonneg_int_into obj v;
          if negb t then do r <- printErr key; ret (r, v)
          else ret (0, v)
      | None => ret (0, v)
      end
  | None => ret (0, v)
  end.

Definition ought_to_be_nonnegative (key : string) : Event :=
  Stderr ("ERROR: '" ++ key ++ "' ought to be a nonnegative float" ++ newline)%string.

Definition getOptFloatParam (key : string) (defVal : pfloat)
    (opts : option (gmap string PyObject)) : Res (Z * pfloat) :=
  let v := defVal in
  match opts with
  | Some opts =>
      match opts !! key with
      | Some obj =>
          if PyInt_Check obj then
            do z <- PyInt_AsLong obj;
            let v := Z2pfloat z in
            if (v <? 0)%float then run emit (ought_to_be_nonnegative key); ret (-1, v)
            else ret (0, v)
          else if negb (PyFloat_Check obj) then
            run emit (ought_to_be_nonnegative key); ret (-1, v)
          else
            let v := PyFloat_AsDouble obj in
            if negb (0 <=? v)%float then run emit (ought_to_be_nonnegative key); ret (-1, v)
            else ret (0, v)
      | None => ret (0, v)
      end
  | None => ret (0, v)
  end.

(** Returns the function's value and the structure [d] points to. *)
Definition parseOpts (d : Data) (opts : option (gmap string PyObject)) : Res (Z * Data) :=
  do '(r, v) <- getPosIntParam "MAX_ITERS" 2500 opts;
  let d := set_MAX_ITERS v d in
  if r <? 0 then ret (-1, d) else
  do '(r, v) <- getPosIntParam "VERBOSE" 1 opts;
  let d := set_VERBOSE v d in
  if r <? 0 then ret (-1, d) else
  do '(r, v) <- getPosIntParam "NORMALIZE" 1 opts;
  let d := set_NORMALIZE v d in
  if negb (r =? 0) then ret (-1, d) else
  do '(r, v) <- getOptFloatParam "SCALE" 5%float opts;
  let d := set_SCALE v d in
  if r <? 0 then ret (-1, d) else
  do '(r, v) <- getOptFloatParam "EPS" 1e-3%float opts;
  let d := set_EPS v d in
  if r <? 0 then ret (-1, d) else
  do '(r, v) <- getOptFloatParam "CG_RATE" 2%float opts;
  let d := set_CG_RATE v d in
  if r <? 0 then ret (-1, d) else
  do '(r, v) <- getOptFloatParam "ALPHA" 1.8%float opts;
  let d := set_ALPHA v d in
  if r <? 0 then ret (-1, d) else
  do '(r, v) <- getOptFloatParam "RHO_X" 1e-3%float opts;
  let d := set_RHO_X v d in
  if r <? 0 then ret (-1, d) else
  ret (0, d).

Definition when_set {A} (p : option A) (e : Event) : Res unit :=
  match p with Some _ => emit e | None => ret tt end.

Definition freePyData (d : option Data) (k : option Cone) (ps : ScsPyData) : Res unit :=
  run emit Enter_freePyData;
  run when_set (ps_Ax ps) (Py_DECREF Ax_);
  run when_set (ps_Ai ps) (Py_DECREF Ai_);
  run when_set (ps_Ap ps) (Py_DECREF Ap_);
  run when_set (ps_b ps) (Py_DECREF b_);
  run when_set (ps_c ps) (Py_DECREF c_);
  run when_set (ps_x0 ps) (Py_DECREF x0_);
  run when_set (ps_y0 ps) (Py_DECREF y0_);
  run when_set (ps_s0 ps) (Py_DECREF s0_);
  run match k with
      | Some k =>
          run when_set (k_q k) (scs_free blk_k_q);
          run when_set (k_s k) (scs_free blk_k_s);
          emit (scs_free blk_k)
      | None => ret tt
      end;
  match d with
  | Some d =>
      run when_set (d_A d) (scs_free blk_d_A);
      emit (scs_free blk_d)
  | None => ret tt
  end.

(** Returns [NULL] ([None]) with ValueError pending. *)
Definition finishWithErr (d : option Data) (k : option Cone) (ps : ScsPyData)
    (str : string) : Res (option PyObject) :=
  run emit (SetErr PyExc_ValueError str);
  run freePyData d k ps;
  ret None.

(** What a pointer variable without an initialiser holds until it is
    assigned. The value is indeterminate: it may be [NULL], it may point to a
    dictionary that is alive, and it may point to nothing that can be read as
    an object. *)
Inductive Indeterminate :=
| holds_NULL
| holds_dict (o : gmap string PyObject)
| holds_wild.

(** The arguments of [csolve] as [PyArg_ParseTupleAndKeywords] delivers them:
    the ["O!"] formats make [Ax], [Ai], [Ap], [b], [c] numpy arrays and [cone],
    [opts], [warm] dictionaries. The last two are optional and are assigned
    only when they are passed. [warm] starts as [NULL] and stays so otherwise.
    [opts] has no initialiser: when it is not passed, the variable keeps the
    indeterminate value it had on entry, [opts_uninitialised]. *)
Record Args := mkArgs {
  arg_m : Z;
  arg_n : Z;
  arg_Ax : PyArrayObject;
  arg_Ai : PyArrayObject;
  arg_Ap : PyArrayObject;
  arg_b : PyArrayObject;
  arg_c : PyArrayObject;
  arg_cone : gmap string PyObject;
  arg_opts : option (gmap string PyObject);
  arg_warm : option (gmap string PyObject);
  opts_uninitialised : Indeterminate
}.

(** The variable [opts] after [PyArg_ParseTupleAndKeywords]. *)
Definition local_opts (a : Args) : Indeterminate :=
  match arg_opts a with
  | Some opts => holds_dict opts
  | None => opts_uninitialised a
  end.

(** The pointer as the parsers can use it: [Some None] for [NULL],
    [Some (Some o)] for a dictionary. Following a wild pointer is
    undefined. *)
Definition readable (p : Indeterminate) : option (option (gmap string PyObject)) :=
  match p with
  | holds_NULL => Some None
  | holds_dict o => Some (Some o)
  | holds_wild => None
  end.

(** The native solver [scs(d, k, &sol, &info)]: what it leaves in [sol]
    (the pointers, which it may keep or replace, and the values behind them)
    and in [info]. *)
Variable scs : Data -> Cone -> Sol -> Sol * Info.

(** Where [*x] points after [getWarmStart] has returned [r] on [px0 = &ps->f]:
    into the data of the array [ps->f] owns when it returned 1 (line 94), into
    the block from [scs_calloc] otherwise (line 87). *)
Definition data_place (r : Z) (f : PsField) : Place :=
  if r =? 1 then in_data_of f else in_heap.

(** [PyArray_SimpleNewFromData(1, veclen, NPY_DOUBLE, data)]: an array over
    the buffer [data], which it neither copies nor owns. For [NULL] numpy
    allocates memory of its own and leaves it uninitialised; no elements are
    shown then. *)
Definition PyArray_SimpleNewFromData (veclen : Z) (data : option (list pfloat))
    (place : Place) : PyObject :=
  match data with
  | Some xs => PyArray (mkArrayOver [veclen] (NpyFloats xs) (borrows place))
  | None => PyArray (mkArray [veclen] (NpyFloats []))
  end.

(** The [Py_BuildValue] call that makes [infoDict]: [(idxint) info.statusVal]
    and [(idxint) info.iter] are passed for the format [l], which reads a
    [long]. *)
Definition build_infoDict (info : Info) : gmap string PyObject :=
  <["statusVal" := PyInt (va_arg_long (to_idxint (statusVal info)))]>
  (<["iter" := PyInt (va_arg_long (to_idxint (iter info)))]>
  (<["pobj" := PyFloat (pobj info)]>
  (<["dobj" := PyFloat (dobj info)]>
  (<["resPri" := PyFloat (resPri info)]>
  (<["resDual" := PyFloat (resDual info)]>
  (<["relGap" := PyFloat (relGap info)]>
  (<["solveTime" := PyFloat (solveTime info / 1e3)%float]>
  (<["setupTime" := PyFloat (setupTime info / 1e3)%float]>
  (<["status" := PyString (status info)]> ∅))))))))).

(** The [Py_BuildValue] call that makes [returnDict]. *)
Definition build_returnDict (x y s : PyObject) (infoDict : gmap string PyObject)
  : gmap string PyObject :=
  <["x" := x]> (<["y" := y]> (<["s" := s]> (<["info" := PyDict infoDict]> ∅))).

(** The entry point, after [PyArg_ParseTupleAndKeywords] has succeeded. *)
Definition csolve (a : Args) : Res (option PyObject) :=
  let Ax := arg_Ax a in let Ai := arg_Ai a in let Ap := arg_Ap a in
  let c := arg_c a in let b := arg_b a in
  let cone := arg_cone a in let warm := arg_warm a in
  let ps := ps_NULL in
  let d := set_n (arg_n a) (set_m (arg_m a) Data_zero) in
  let k := Cone_zero in
  let sol := Sol_zero in
  if d_m d <? 0 then
    run emit (SetErr PyExc_ValueError "m must be a positive integer"); ret None
  else if d_n d <? 0 then
    run emit (SetErr PyExc_ValueError "n must be a positive integer"); ret None
  else
  let intType := getIntType in
  let pfloatType := getDoubleType in
  if negb (PyArray_ISFLOAT Ax) || negb (PyArray_NDIM Ax =? 1) then
    finishWithErr (Some d) (Some k) ps "Ax must be a numpy array of floats"
  else if negb (PyArray_ISINTEGER Ai) || negb (PyArray_NDIM Ai =? 1) then
    finishWithErr (Some d) (Some k) ps "Ai must be a numpy array of ints"
  else if negb (PyArray_ISINTEGER Ap) || negb (PyArray_NDIM Ap =? 1) then
    finishWithErr (Some d) (Some k) ps "Ap must be a numpy array of ints"
  else
  let pAx := getContiguous Ax pfloatType in
  let pAi := getContiguous Ai intType in
  let pAp := getContiguous Ap intType in
  let ps := mkPs (Some pAx) (Some pAi) (Some pAp) (ps_b ps) (ps_c ps)
                 (ps_x0 ps) (ps_y0 ps) (ps_s0 ps) in
  let A := mkAMatrix (PyArray_DATA_pfloat pAx) (PyArray_DATA_idxint pAi)
                     (PyArray_DATA_idxint pAp) in
  let d := set_A (Some A) d in
  if negb (PyArray_ISFLOAT c) || negb (PyArray_NDIM c =? 1) then
    finishWithErr (Some d) (Some k) ps "c must be a dense numpy array with one dimension"
  else if negb (PyArray_DIM c 0 =? d_n d) then
    finishWithErr (Some d) (Some k) ps "c has incompatible dimension with A"
  else
  let pc := getContiguous c pfloatType in
  let ps := mkPs (ps_Ax ps) (ps_Ai ps) (ps_Ap ps) (ps_b ps) (Some pc)
                 (ps_x0 ps) (ps_y0 ps) (ps_s0 ps) in
  let d := set_c (Some (PyArray_DATA_pfloat pc)) d in
  if negb (PyArray_ISFLOAT b) || negb (PyArray_NDIM b =? 1) then
    finishWithErr (Some d) (Some k) ps "b must be a dense numpy array with one dimension"
  else if negb (PyArray_DIM b 0 =? d_m d) then
    finishWithErr (Some d) (Some k) ps "b has incompatible dimension with A"
  else
  let pb := getContiguous b pfloatType in
  let ps := mkPs (ps_Ax ps) (ps_Ai ps) (ps_Ap ps) (Some pb) (ps_c ps)
                 (ps_x0 ps) (ps_y0 ps) (ps_s0 ps) in
  let d := set_b (Some (PyArray_DATA_pfloat pb)) d in
  do '(r, v) <- getPosIntParam "f" 0 (Some cone);
  let k := set_f v k in
  if r <? 0 then finishWithErr (Some d) (Some k) ps "failed to parse cone field f" else
  do '(r, v) <- getPosIntParam "l" 0 (Some cone);
  let k := set_l v k in
  if r <? 0 then finishWithErr (Some d) (Some k) ps "failed to parse cone field l" else
  do '(r, varr, vsize) <- getConeArrDim "q" (k_q k) (k_qsize k) cone;
  let k := set_q varr vsize k in
  if r <? 0 then finishWithErr (Some d) (Some k) ps "failed to parse cone field q" else
  do '(r, varr, vsize) <- getConeArrDim "s" (k_s k) (k_ssize k) cone;
  let k := set_s varr vsize k in
  if r <? 0 then finishWithErr (Some d) (Some k) ps "failed to parse cone field s" else
  do '(r, v) <- getPosIntParam "ep" 0 (Some cone);
  let k := set_ep v k in
  if r <? 0 then finishWithErr (Some d) (Some k) ps "failed to parse cone field ep" else
  do '(r, v) <- getPosIntParam "ed" 0 (Some cone);
  let k := set_ed v k in
  if r <? 0 then finishWithErr (Some d) (Some k) ps "failed to parse cone field ed" else
  match readable (local_opts a) with
  | None => Undefined
  | Some opts =>
  do '(r, d) <- parseOpts d opts;
  if r <? 0 then finishWithErr (Some d) (Some k) ps "failed to parse opts" else
  let d := set_WARM_START 0 d in
  do '(d, sol, ps) <-
    match warm with
    | Some warm =>
        do '(r, x, px0) <- getWarmStart "x" (ps_x0 ps) (d_n d) warm;
        let x_at := data_place r x0_ in
        let d := set_WARM_START r d in
        do '(r, y, py0) <- getWarmStart "y" (ps_y0 ps) (d_m d) warm;
        let y_at := data_place r y0_ in
        let d := set_WARM_START (Z.lor (WARM_START d) r) d in
        do '(r, s, ps0) <- getWarmStart "s" (ps_s0 ps) (d_m d) warm;
        let s_at := data_place r s0_ in
        let d := set_WARM_START (Z.lor (WARM_START d) r) d in
        ret (d, mkSolAt x y s x_at y_at s_at,
             mkPs (ps_Ax ps) (ps_Ai ps) (ps_Ap ps) (ps_b ps) (ps_c ps) px0 py0 ps0)
    | None => ret (d, sol, ps)
    end;
  run emit (Call_scs d k sol);
  let '(sol, info) := scs d k sol in
  let x := PyArray_SimpleNewFromData (d_n d) (sol_x sol) (sol_x_at sol) in
  let y := PyArray_SimpleNewFromData (d_m d) (sol_y sol) (sol_y_at sol) in
  let s := PyArray_SimpleNewFromData (d_m d) (sol_s sol) (sol_s_at sol) in
  let infoDict := build_infoDict info in
  let returnDict := build_returnDict x y s infoDict in
  run freePyData (Some d) (Some k) ps;
  ret (Some (PyDict returnDict))
  end.

End Module.

(** ** Sample inputs *)

(** A solver that ignores the problem and reports fixed results; it stands for
    the native library where a concrete run of [csolve] is evaluated. *)
Definition scs_reporting (sol : Sol) (info : Info) : Data -> Cone -> Sol -> Sol * Info :=
  fun _ _ _ => (sol, info).

Definition Info_solved (ms : pfloat) : Info :=
  mkInfo 1 10 0%float 0%float 0%float 0%float 0%float ms 2%float "Solved".

(** A well-formed call with [m = 3], [n = 2]: a 3-by-2 matrix with three
    nonzeros, the cone [{'l': 3}] and empty options. As [opts] is passed,
    what the variable held before is of no account. *)
Definition sample_args : Args :=
  mkArgs 3 2
    (mkArray [3] (NpyFloats [1; 1; 1]%float))
    (mkArray [3] (NpyInts [0; 1; 2]))
    (mkArray [3] (NpyInts [0; 2; 3]))
    (mkArray [3] (NpyFloats [1; 1; 1]%float))
    (mkArray [2] (NpyFloats [1; 1]%float))
    {[ "l" := PyInt 3 ]}
    (Some ∅)
    None
    holds_wild.

(** Reports a solve time of 1500 milliseconds. *)
Definition sample_scs : Data -> Cone -> Sol -> Sol * Info :=
  scs_reporting
    (mkSol (Some [0; 0]%float) (Some [0; 0; 0]%float) (Some [0; 0; 0]%float))
    (Info_solved 1500%float).

Definition with_shape (m n : Z) (a : Args) : Args :=
  mkArgs m n (arg_Ax a) (arg_Ai a) (arg_Ap a) (arg_b a) (arg_c a)
    (arg_cone a) (arg_opts a) (arg_warm a) (opts_uninitialised a).
Definition with_c (x : PyArrayObject) (a : Args) : Args :=
  mkArgs (arg_m a) (arg_n a) (arg_Ax a) (arg_Ai a) (arg_Ap a) (arg_b a) x
    (arg_cone a) (arg_opts a) (arg_warm a) (opts_uninitialised a).
Definition with_cone (x : gmap string PyObject) (a : Args) : Args :=
  mkArgs (arg_m a) (arg_n a) (arg_Ax a) (arg_Ai a) (arg_Ap a) (arg_b a) (arg_c a)
    x (arg_opts a) (arg_warm a) (opts_uninitialised a).
Definition with_opts (x : option (gmap string PyObject)) (a : Args) : Args :=
  mkArgs (arg_m a) (arg_n a) (arg_Ax a) (arg_Ai a) (arg_Ap a) (arg_b a) (arg_c a)
    (arg_cone a) x (arg_warm a) (opts_uninitialised a).
Definition with_warm (x : option (gmap string PyObject)) (a : Args) : Args :=
  mkArgs (arg_m a) (arg_n a) (arg_Ax a) (arg_Ai a) (arg_Ap a) (arg_b a) (arg_c a)
    (arg_cone a) (arg_opts a) x (opts_uninitialised a).

Definition warm_x_too_long : gmap string PyObject :=
  {[ "x" := PyArray (mkArray [3] (NpyFloats [1; 2; 3]%float)) ]}.

Definition warm_x_only : gmap string PyObject :=
  {[ "x" := PyArray (mkArray [2] (NpyFloats [1; 2]%float)) ]}.

(** Options with a float that is not a number, and a cone whose [l] is
    negative. *)
Definition opts_nan_eps : gmap string PyObject := {[ "EPS" := PyFloat nan ]}.

Definition cone_negative_l : gmap string PyObject := {[ "l" := PyInt (-3) ]}.

(** A warm-start mapping with a fitting [x] and a [y] that is too short. *)
Definition warm_x_good_y_short : gmap string PyObject :=
  {[ "x" := PyArray (mkArray [2] (NpyFloats [1; 2]%float));
     "y" := PyArray (mkArray [2] (NpyFloats [1; 2]%float)) ]}.

(** A solver that leaves [sol] as it is handed: the buffers stay where they
    are, and what they hold is the solution. *)
Definition scs_in_place (info : Info) : Data -> Cone -> Sol -> Sol * Info :=
  fun _ _ sol => (sol, info).

(** A solver that fails: the status code is -2. *)
Definition Info_failed : Info :=
  mkInfo (-2) 7 0%float 0%float 0%float 0%float 0%float 0%float 0%float "Failure".

(** The call without [opts], the variable holding [u]. *)
Definition without_opts (u : Indeterminate) (a : Args) : Args :=
  mkArgs (arg_m a) (arg_n a) (arg_Ax a) (arg_Ai a) (arg_Ap a) (arg_b a) (arg_c a)
    (arg_cone a) None (arg_warm a) u.

(** * Vocabulary of the properties *)

(** ** Runs and their logs *)

(** [wp r Q]: if the run [r] is defined, its value and log satisfy [Q]. *)
Definition wp {A} (r : Res A) (Q : A -> list Event -> Prop) : Prop :=
  match r with Done a l => Q a l | Undefined => True end.

(** [total r Q]: the run [r] is defined and its value and log satisfy [Q]. *)
Definition total {A} (r : Res A) (Q : A -> list Event -> Prop) : Prop :=
  match r with Done a l => Q a l | Undefined => False end.

(** Events of parsing: text on stderr and exceptions. *)
Definition is_parse_event (e : Event) : Prop :=
  match e with Stderr _ | SetErr _ _ => True | _ => False end.

Definition parse_only (l : list Event) : Prop := Forall is_parse_event l.

(** A run that is defined and logs parse events only. *)
Definition parses {A} (r : Res A) : Prop := total r (fun _ l => parse_only l).

(** ** Releases *)

(** The event [e] when the pointer [p] is set. *)
Definition opt_event {A} (p : option A) (e : Event) : list Event :=
  match p with Some _ => [e] | None => [] end.

(** The releases of one call of [freePyData], in program order. *)
Definition released (d : option Data) (k : option Cone) (ps : ScsPyData) : list Event :=
  opt_event (ps_Ax ps) (Py_DECREF Ax_) ++
  opt_event (ps_Ai ps) (Py_DECREF Ai_) ++
  opt_event (ps_Ap ps) (Py_DECREF Ap_) ++
  opt_event (ps_b ps) (Py_DECREF b_) ++
  opt_event (ps_c ps) (Py_DECREF c_) ++
  opt_event (ps_x0 ps) (Py_DECREF x0_) ++
  opt_event (ps_y0 ps) (Py_DECREF y0_) ++
  opt_event (ps_s0 ps) (Py_DECREF s0_) ++
  match k with
  | Some k =>
      opt_event (k_q k) (scs_free blk_k_q) ++
      opt_event (k_s k) (scs_free blk_k_s) ++ [scs_free blk_k]
  | None => []
  end ++
  match d with
  | Some d => opt_event (d_A d) (scs_free blk_d_A) ++ [scs_free blk_d]
  | None => []
  end.

Definition is_release (e : Event) : Prop :=
  match e with Py_DECREF _ | scs_free _ => True | _ => False end.

(** ** How [csolve] ends *)

(** The messages of the two checks on [m] and [n], and those [csolve] hands
    to [finishWithErr]. *)
Definition shape_messages : list string :=
  ["m must be a positive integer"; "n must be a positive integer"].

Definition finish_messages : list string :=
  ["Ax must be a numpy array of floats";
   "Ai must be a numpy array of ints";
   "Ap must be a numpy array of ints";
   "c must be a dense numpy array with one dimension";
   "c has incompatible dimension with A";
   "b must be a dense numpy array with one dimension";
   "b has incompatible dimension with A";
   "failed to parse cone field f";
   "failed to parse cone field l";
   "failed to parse cone field q";
   "failed to parse cone field s";
   "failed to parse cone field ep";
   "failed to parse cone field ed";
   "failed to parse opts"].

(** The value [getWarmStart] returns for a key, when the call is defined. *)
Definition getWarmStart_flag (key : string) (l : Z) (warm : gmap string PyObject)
  : option Z :=
  match getWarmStart key None l warm with
  | Done (r, _, _) _ => Some r
  | Undefined => None
  end.

(** [d->WARM_START] in terms of what the three calls of [getWarmStart]
    return. *)
Definition warm_flag (a : Args) (d : Data) : Prop :=
  match arg_warm a with
  | None => WARM_START d = 0
  | Some warm =>
      exists rx ry rs,
        getWarmStart_flag "x" (arg_n a) warm = Some rx /\
        getWarmStart_flag "y" (arg_m a) warm = Some ry /\
        getWarmStart_flag "s" (arg_m a) warm = Some rs /\
        WARM_START d = Z.lor (Z.lor rx ry) rs
  end.

Section Vocabulary.
Context {B : Build}.
Variable scs : Data -> Cone -> Sol -> Sol * Info.

(** How a run of [csolve] ends, after whatever its parsers logged. *)
Inductive csolve_tail (a : Args) : option PyObject -> list Event -> Prop :=
| tail_shape msg :
    arg_m a < 0 \/ arg_n a < 0 ->
    In msg shape_messages ->
    csolve_tail a None [SetErr PyExc_ValueError msg]
| tail_finishWithErr msg d k ps :
    In msg finish_messages ->
    csolve_tail a None
      (SetErr PyExc_ValueError msg :: Enter_freePyData :: released (Some d) (Some k) ps)
| tail_solved d k sol ps sol' info :
    scs d k sol = (sol', info) ->
    d_m d = arg_m a -> d_n d = arg_n a ->
    warm_flag a d ->
    csolve_tail a
      (Some (PyDict (build_returnDict
                       (PyArray_SimpleNewFromData (d_n d) (sol_x sol') (sol_x_at sol'))
                       (PyArray_SimpleNewFromData (d_m d) (sol_y sol') (sol_y_at sol'))
                       (PyArray_SimpleNewFromData (d_m d) (sol_s sol') (sol_s_at sol'))
                       (build_infoDict info))))
      (Call_scs d k sol :: Enter_freePyData :: released (Some d) (Some k) ps).

(** A log made of parse events followed by one of the endings. *)
Definition shaped (a : Args) (res : option PyObject) (log : list Event) : Prop :=
  exists pre tl, parse_only pre /\ log = pre ++ tl /\ csolve_tail a res tl.

(** ** Cone fields and options *)

(** A nonnegative integer that a C [long] and an [idxint] both hold. *)
Definition idxint_value (z : Z) : Prop :=
  0 <= z < 2 ^ (IDXINT_BITS - 1) /\ z < 2 ^ (LONG_BITS - 1).

End Vocabulary.

(** ** Set fields and blocks *)

Definition ps_field (f : PsField) (ps : ScsPyData) : option PyArrayObject :=
  match f with
  | Ax_ => ps_Ax ps | Ai_ => ps_Ai ps | Ap_ => ps_Ap ps | b_ => ps_b ps
  | c_ => ps_c ps | x0_ => ps_x0 ps | y0_ => ps_y0 ps | s0_ => ps_s0 ps
  end.

(** Is the block allocated, as [freePyData] can tell from [d] and [k]? *)
Definition block_set (p : Block) (d : option Data) (k : option Cone) : Prop :=
  match p with
  | blk_k_q => exists k', k = Some k' /\ is_Some (k_q k')
  | blk_k_s => exists k', k = Some k' /\ is_Some (k_s k')
  | blk_k => is_Some k
  | blk_d_A => exists d', d = Some d' /\ is_Some (d_A d')
  | blk_d => is_Some d
  end.

(** The full roll of releases, in the order of the source. *)
Definition all_releases : list Event :=
  [Py_DECREF Ax_; Py_DECREF Ai_; Py_DECREF Ap_; Py_DECREF b_; Py_DECREF c_;
   Py_DECREF x0_; Py_DECREF y0_; Py_DECREF s0_;
   scs_free blk_k_q; scs_free blk_k_s; scs_free blk_k;
   scs_free blk_d_A; scs_free blk_d].

(** ** Options, checks and warm start *)

(** The key is not in the mapping, or there is no mapping. *)
Definition missing (key : string) (opts : option (gmap string PyObject)) : Prop :=
  match opts with Some opts => opts !! key = None | None => True end.

(** The checks as the specification lists them, (1) split into its two
    halves, each with the argument it is about. *)
Inductive Check := chk_m | chk_n | chk_Ax | chk_Ai | chk_Ap | chk_c | chk_b.

Definition checks_in_order : list Check :=
  [chk_m; chk_n; chk_Ax; chk_Ai; chk_Ap; chk_c; chk_b].

Definition argument_of (ch : Check) : string :=
  match ch with
  | chk_m => "m" | chk_n => "n" | chk_Ax => "Ax" | chk_Ai => "Ai"
  | chk_Ap => "Ap" | chk_c => "c" | chk_b => "b"
  end.

Definition passes (a : Args) (ch : Check) : bool :=
  match ch with
  | chk_m => 0 <=? arg_m a
  | chk_n => 0 <=? arg_n a
  | chk_Ax => PyArray_ISFLOAT (arg_Ax a) && (PyArray_NDIM (arg_Ax a) =? 1)
  | chk_Ai => PyArray_ISINTEGER (arg_Ai a) && (PyArray_NDIM (arg_Ai a) =? 1)
  | chk_Ap => PyArray_ISINTEGER (arg_Ap a) && (PyArray_NDIM (arg_Ap a) =? 1)
  | chk_c => PyArray_ISFLOAT (arg_c a) && (PyArray_NDIM (arg_c a) =? 1)
             && (PyArray_DIM (arg_c a) 0 =? arg_n a)
  | chk_b => PyArray_ISFLOAT (arg_b a) && (PyArray_NDIM (arg_b a) =? 1)
             && (PyArray_DIM (arg_b a) 0 =? arg_m a)
  end.

Definition first_failing (a : Args) : option Check :=
  List.find (fun ch => negb (passes a ch)) checks_in_order.

(** A message names an argument when it starts with the argument's name. *)
Definition names (arg msg : string) : bool := String.prefix (arg ++ " ")%string msg.

(** Python's [len] of an array: its first dimension, if it has one. *)
Definition len (x : PyArrayObject) : option Z := head (dimensions x).

(** A one-dimensional floating-point array of length exactly [l]. *)
Definition fits_warm_start (x0 : PyArrayObject) (l : Z) : bool :=
  PyArray_ISFLOAT x0 && (PyArray_NDIM x0 =? 1) && (PyArray_DIM x0 0 =? l).

(** What a warm-start mapping may hold under a key for [getWarmStart] to be
    defined. *)
Definition array_or_absent (o : option PyObject) : Prop :=
  match o with Some (PyArray _) | None => True | Some _ => False end.

(** The run returns a result to the caller. *)
Definition succeeds (r : Res (option PyObject)) : Prop :=
  exists ret log, r = Done (Some ret) log.

(** ** What the parsers write and what the solver receives *)

(** The texts written to stderr, in order. *)
Fixpoint stderr_text (log : list Event) : list string :=
  match log with
  | [] => []
  | Stderr text :: rest => text :: stderr_text rest
  | _ :: rest => stderr_text rest
  end.

(** What [printErr] writes for a key. *)
Definition error_parsing (key : string) : string :=
  ("error parsing '" ++ key ++ "'")%string.

(** A cone array and its size as a successful [getConeArrDim] leaves them:
    [NULL] with size 0, or an array of that many nonnegative entries. *)
Definition cone_array_ok (q : option (list Z)) (n : Z) : Prop :=
  match q with
  | None => n = 0
  | Some qs => n = Z.of_nat (length qs) /\ Forall (fun z => 0 <= z) qs
  end.

(** No option of the structure is negative. *)
Definition options_ok (d : Data) : Prop :=
  0 <= MAX_ITERS d /\ 0 <= VERBOSE d /\ 0 <= NORMALIZE d /\
  (SCALE d <? 0)%float = false /\ (EPS d <? 0)%float = false /\
  (CG_RATE d <? 0)%float = false /\ (ALPHA d <? 0)%float = false /\
  (RHO_X d <? 0)%float = false.

(** No scalar field of the cone is negative and both arrays are in order. *)
Definition cone_ok (k : Cone) : Prop :=
  0 <= k_f k /\ 0 <= k_l k /\
  cone_array_ok (k_q k) (k_qsize k) /\ cone_array_ok (k_s k) (k_ssize k) /\
  0 <= k_ep k /\ 0 <= k_ed k.

(** How an element of a cone list and the entry stored for it relate, when
    [getConeArrDim] accepts the element. *)
Definition stored_as {B : Build} (o : PyObject) (v : Z) : Prop :=
  exists z, o = PyInt z /\ fits LONG_BITS z = true /\ v = to_idxint z /\ 0 <= v.

(** The fields of the structure [parseOpts] leaves alone. *)
Definition same_problem (d d' : Data) : Prop :=
  d_m d' = d_m d /\ d_n d' = d_n d /\ d_A d' = d_A d /\ d_b d' = d_b d /\
  d_c d' = d_c d /\ WARM_START d' = WARM_START d.

(** The two structures hold the same options. *)
Definition same_options (d d' : Data) : Prop :=
  MAX_ITERS d' = MAX_ITERS d /\ VERBOSE d' = VERBOSE d /\ NORMALIZE d' = NORMALIZE d /\
  SCALE d' = SCALE d /\ EPS d' = EPS d /\ CG_RATE d' = CG_RATE d /\
  ALPHA d' = ALPHA d /\ RHO_X d' = RHO_X d.

(** Only text on stderr. *)
Definition stderr_only (l : list Event) : Prop :=
  Forall (fun e => exists text, e = Stderr text) l.

(** The line [getWarmStart] writes for a malformed array. *)
Definition warm_start_diagnostic : string :=
  ("Error parsing warm-start input" ++ newline)%string.

(** Nothing but warm-start diagnostics. *)
Definition warm_diagnostics (l : list Event) : Prop :=
  Forall (eq (Stderr warm_start_diagnostic)) l.

Section Solved.
Context {B : Build}.
Variable scs : Data -> Cone -> Sol -> Sol * Info.

(** The problem data of [d] is what the caller's arrays hold after coercion. *)
Definition marshalled (a : Args) (d : Data) : Prop :=
  d_m d = arg_m a /\ d_n d = arg_n a /\
  d_A d = Some (mkAMatrix
                  (PyArray_DATA_pfloat (getContiguous (arg_Ax a) getDoubleType))
                  (PyArray_DATA_idxint (getContiguous (arg_Ai a) getIntType))
                  (PyArray_DATA_idxint (getContiguous (arg_Ap a) getIntType))) /\
  d_c d = Some (PyArray_DATA_pfloat (getContiguous (arg_c a) getDoubleType)) /\
  d_b d = Some (PyArray_DATA_pfloat (getContiguous (arg_b a) getDoubleType)).

(** [ps] owns a coerced copy of each of the five arrays. *)
Definition coerced (a : Args) (ps : ScsPyData) : Prop :=
  ps_Ax ps = Some (getContiguous (arg_Ax a) getDoubleType) /\
  ps_Ai ps = Some (getContiguous (arg_Ai a) getIntType) /\
  ps_Ap ps = Some (getContiguous (arg_Ap a) getIntType) /\
  ps_b ps = Some (getContiguous (arg_b a) getDoubleType) /\
  ps_c ps = Some (getContiguous (arg_c a) getDoubleType).

(** The initial guess in [sol] and the warm-start owners in [ps] are what the
    three calls of [getWarmStart] gave, each buffer in the place the call
    left it, or all [NULL] without a mapping. *)
Definition warm_loaded (a : Args) (sol : Sol) (ps : ScsPyData) : Prop :=
  match arg_warm a with
  | None => sol = Sol_zero /\ ps_x0 ps = None /\ ps_y0 ps = None /\ ps_s0 ps = None
  | Some warm =>
      exists rx ry rs,
        returned (getWarmStart "x" None (arg_n a) warm) = Some (rx, sol_x sol, ps_x0 ps) /\
        returned (getWarmStart "y" None (arg_m a) warm) = Some (ry, sol_y sol, ps_y0 ps) /\
        returned (getWarmStart "s" None (arg_m a) warm) = Some (rs, sol_s sol, ps_s0 ps) /\
        sol_x_at sol = data_place rx x0_ /\ sol_y_at sol = data_place ry y0_ /\
        sol_s_at sol = data_place rs s0_
  end.

(** How a run of [csolve] that returns [ret] ends. *)
Definition solved_tail (a : Args) (ret : PyObject) (tl : list Event) : Prop :=
  exists d k sol ps sol' info,
    tl = Call_scs d k sol :: Enter_freePyData :: released (Some d) (Some k) ps /\
    scs d k sol = (sol', info) /\
    ret = PyDict (build_returnDict
                    (PyArray_SimpleNewFromData (arg_n a) (sol_x sol') (sol_x_at sol'))
                    (PyArray_SimpleNewFromData (arg_m a) (sol_y sol') (sol_y_at sol'))
                    (PyArray_SimpleNewFromData (arg_m a) (sol_s sol') (sol_s_at sol'))
                    (build_infoDict info)) /\
    first_failing a = None /\
    (exists opts d0 d1, readable (local_opts a) = Some opts /\
                        parseOpts d0 opts = Done (0, d1) [] /\ same_options d1 d) /\
    marshalled a d /\ options_ok d /\ cone_ok k /\
    coerced a ps /\ warm_loaded a sol ps.

Definition solved (a : Args) (res : option PyObject) (log : list Event) : Prop :=
  match res with
  | None => True
  | Some ret =>
      exists pre tl,
        warm_diagnostics pre /\ (arg_warm a = None -> pre = []) /\
        log = pre ++ tl /\ solved_tail a ret tl
  end.

End Solved.

(** The warm-start owner [f] was acquired: the mapping was passed and
    [getWarmStart] returned 1 for the field's key. *)
Definition warm_owner (a : Args) (f : PsField) : Prop :=
  exists warm, arg_warm a = Some warm /\
    ((f = x0_ /\ getWarmStart_flag "x" (arg_n a) warm = Some 1) \/
     (f = y0_ /\ getWarmStart_flag "y" (arg_m a) warm = Some 1) \/
     (f = s0_ /\ getWarmStart_flag "s" (arg_m a) warm = Some 1)).

(** ** The options of [parseOpts] *)

(** The options, in the order [parseOpts] reads them. *)
Inductive Opt :=
| opt_MAX_ITERS | opt_VERBOSE | opt_NORMALIZE
| opt_SCALE | opt_EPS | opt_CG_RATE | opt_ALPHA | opt_RHO_X.

Definition options_in_order : list Opt :=
  [opt_MAX_ITERS; opt_VERBOSE; opt_NORMALIZE;
   opt_SCALE; opt_EPS; opt_CG_RATE; opt_ALPHA; opt_RHO_X].

Definition opt_key (o : Opt) : string :=
  match o with
  | opt_MAX_ITERS => "MAX_ITERS" | opt_VERBOSE => "VERBOSE"
  | opt_NORMALIZE => "NORMALIZE" | opt_SCALE => "SCALE" | opt_EPS => "EPS"
  | opt_CG_RATE => "CG_RATE" | opt_ALPHA => "ALPHA" | opt_RHO_X => "RHO_X"
  end.

(** What the option's parser returns on the mapping. *)
Definition opt_code {B : Build} (opts : option (gmap string PyObject)) (o : Opt)
  : option Z :=
  match o with
  | opt_MAX_ITERS => fst <$> returned (getPosIntParam "MAX_ITERS" 2500 opts)
  | opt_VERBOSE => fst <$> returned (getPosIntParam "VERBOSE" 1 opts)
  | opt_NORMALIZE => fst <$> returned (getPosIntParam "NORMALIZE" 1 opts)
  | opt_SCALE => fst <$> returned (getOptFloatParam "SCALE" 5%float opts)
  | opt_EPS => fst <$> returned (getOptFloatParam "EPS" 1e-3%float opts)
  | opt_CG_RATE => fst <$> returned (getOptFloatParam "CG_RATE" 2%float opts)
  | opt_ALPHA => fst <$> returned (getOptFloatParam "ALPHA" 1.8%float opts)
  | opt_RHO_X => fst <$> returned (getOptFloatParam "RHO_X" 1e-3%float opts)
  end.

(** The test [parseOpts] makes on that value: not zero for [NORMALIZE],
    negative for the others. *)
Definition opt_fails {B : Build} (opts : option (gmap string PyObject)) (o : Opt)
  : bool :=
  match opt_code opts o with
  | Some r => match o with opt_NORMALIZE => negb (r =? 0) | _ => r <? 0 end
  | None => false
  end.

(** The line the option's parser writes when it fails. *)
Definition opt_line (o : Opt) : string :=
  match o with
  | opt_MAX_ITERS | opt_VERBOSE | opt_NORMALIZE => error_parsing (opt_key o)
  | _ => ("ERROR: '" ++ opt_key o ++ "' ought to be a nonnegative float" ++ newline)%string
  end.

(** The field of the structure that holds the option. *)
Inductive OptValue := int_option (z : Z) | float_option (f : pfloat).

Definition opt_field (o : Opt) (d : Data) : OptValue :=
  match o with
  | opt_MAX_ITERS => int_option (MAX_ITERS d)
  | opt_VERBOSE => int_option (VERBOSE d)
  | opt_NORMALIZE => int_option (NORMALIZE d)
  | opt_SCALE => float_option (SCALE d)
  | opt_EPS => float_option (EPS d)
  | opt_CG_RATE => float_option (CG_RATE d)
  | opt_ALPHA => float_option (ALPHA d)
  | opt_RHO_X => float_option (RHO_X d)
  end.

(** Every option has the default of [parseOpts]. *)
Definition default_options (d : Data) : Prop :=
  MAX_ITERS d = 2500 /\ VERBOSE d = 1 /\ NORMALIZE d = 1 /\
  SCALE d = 5%float /\ EPS d = 1e-3%float /\ CG_RATE d = 2%float /\
  ALPHA d = 1.8%float /\ RHO_X d = 1e-3%float.

(** ** The vectors of the solution *)

(** The three vectors, each with its key in the warm-start mapping and in
    the result, the field of [ps] that owns its warm start, its length, and
    its buffer in [sol]. *)
Inductive Vector := vec_x | vec_y | vec_s.

Definition vec_key (v : Vector) : string :=
  match v with vec_x => "x" | vec_y => "y" | vec_s => "s" end.

Definition vec_owner (v : Vector) : PsField :=
  match v with vec_x => x0_ | vec_y => y0_ | vec_s => s0_ end.

Definition vec_len (a : Args) (v : Vector) : Z :=
  match v with vec_x => arg_n a | vec_y => arg_m a | vec_s => arg_m a end.

Definition vec_values (v : Vector) (sol : Sol) : option (list pfloat) :=
  match v with vec_x => sol_x sol | vec_y => sol_y sol | vec_s => sol_s sol end.

Definition vec_place (v : Vector) (sol : Sol) : Place :=
  match v with vec_x => sol_x_at sol | vec_y => sol_y_at sol | vec_s => sol_s_at sol end.

(** The solver writes the vector [v] into the buffer it is handed, when it
    is handed one. *)
Definition fills_in_place (scs : Data -> Cone -> Sol -> Sol * Info) (v : Vector) : Prop :=
  forall d k sol,
    is_Some (vec_values v sol) ->
    is_Some (vec_values v (fst (scs d k sol))) /\
    vec_place v (fst (scs d k sol)) = vec_place v sol.

(** ** Elements of cone lists *)

(** A Python integer that is not negative and fits a C [long]. *)
Definition nonneg_long {B : Build} (o : PyObject) : Prop :=
  exists z, o = PyInt z /\ 0 <= z /\ fits LONG_BITS z = true.

(** ** The parsing stages of [csolve] *)

(** The parsing stages of [csolve] after validation, in the order of the
    source, each with the message [csolve] raises when the stage fails. *)
Inductive Stage := st_f | st_l | st_q | st_s | st_ep | st_ed | st_opts.

Definition stages_in_order : list Stage :=
  [st_f; st_l; st_q; st_s; st_ep; st_ed; st_opts].

Definition stage_message (st : Stage) : string :=
  match st with
  | st_f => "failed to parse cone field f"
  | st_l => "failed to parse cone field l"
  | st_q => "failed to parse cone field q"
  | st_s => "failed to parse cone field s"
  | st_ep => "failed to parse cone field ep"
  | st_ed => "failed to parse cone field ed"
  | st_opts => "failed to parse opts"
  end.

(** The cone field a stage parses. *)
Definition stage_key (st : Stage) : option string :=
  match st with
  | st_f => Some "f" | st_l => Some "l" | st_q => Some "q" | st_s => Some "s"
  | st_ep => Some "ep" | st_ed => Some "ed" | st_opts => None
  end.

(** What the stage's parser returns on the call's arguments. *)
Definition stage_code {B : Build} (a : Args) (st : Stage) : option Z :=
  match st with
  | st_f => fst <$> returned (getPosIntParam "f" 0 (Some (arg_cone a)))
  | st_l => fst <$> returned (getPosIntParam "l" 0 (Some (arg_cone a)))
  | st_q => (fun x => fst (fst x)) <$> returned (getConeArrDim "q" None 0 (arg_cone a))
  | st_s => (fun x => fst (fst x)) <$> returned (getConeArrDim "s" None 0 (arg_cone a))
  | st_ep => fst <$> returned (getPosIntParam "ep" 0 (Some (arg_cone a)))
  | st_ed => fst <$> returned (getPosIntParam "ed" 0 (Some (arg_cone a)))
  | st_opts =>
      match readable (local_opts a) with
      | Some opts => fst <$> returned (parseOpts Data_zero opts)
      | None => None
      end
  end.

Definition stage_fails {B : Build} (a : Args) (st : Stage) : bool :=
  match stage_code a st with Some r => r <? 0 | None => false end.

Definition first_failing_stage {B : Build} (a : Args) : option Stage :=
  List.find (stage_fails a) stages_in_order.

(** The run returns NULL with [msg] raised as ValueError, one line on
    stderr and one cleanup. *)
Definition aborts_with (msg : string) (line : string -> Prop)
    (r : Res (option PyObject)) : Prop :=
  exists log, r = Done None log /\
    PyErr_Occurred log = Some (PyExc_ValueError, msg) /\
    (exists text, stderr_text log = [text] /\ line text) /\
    freePyData_calls log = 1%nat.

(** * Properties *)

(** ** Runs and their logs *)

Lemma total_wp {A} (r : Res A) Q : total r Q -> wp r Q.
Proof. destruct r; simpl; tauto. Qed.

Lemma total_inv {A} (r : Res A) Q :
  total r Q -> exists a l, r = Done a l /\ Q a l.
Proof. destruct r as [a l|]; simpl; [eauto | tauto]. Qed.

Lemma wp_inv {A} (r : Res A) Q a l : wp r Q -> r = Done a l -> Q a l.
Proof. intros H ->. exact H. Qed.

Lemma total_mono {A} (r : Res A) (P Q : A -> list Event -> Prop) :
  total r P -> (forall a l, P a l -> Q a l) -> total r Q.
Proof. destruct r; simpl; auto. Qed.

Lemma wp_mono {A} (r : Res A) (P Q : A -> list Event -> Prop) :
  wp r P -> (forall a l, P a l -> Q a l) -> wp r Q.
Proof. destruct r; simpl; auto. Qed.

Lemma total_bind {A B} (r : Res A) (f : A -> Res B) Q :
  total r (fun a l1 => total (f a) (fun b l2 => Q b (l1 ++ l2))) ->
  total (bind r f) Q.
Proof. destruct r as [a l1|]; simpl; [|tauto]. destruct (f a); simpl; tauto. Qed.

Lemma wp_bind {A B} (r : Res A) (f : A -> Res B) Q :
  wp r (fun a l1 => wp (f a) (fun b l2 => Q b (l1 ++ l2))) ->
  wp (bind r f) Q.
Proof. destruct r as [a l1|]; simpl; [|tauto]. destruct (f a); simpl; tauto. Qed.

Lemma bind_Done_inv {A B} (r : Res A) (f : A -> Res B) b log :
  bind r f = Done b log ->
  exists a l1 l2, r = Done a l1 /\ f a = Done b l2 /\ log = l1 ++ l2.
Proof.
  destruct r as [a l1|]; simpl; [|discriminate].
  destruct (f a) as [b' l2|] eqn:E; [|discriminate].
  intros [= <- <-]. eauto 6.
Qed.

Create HintDb scs.

Lemma parse_only_nil : parse_only [].
Proof. constructor. Qed.

Lemma parse_only_app l1 l2 : parse_only l1 -> parse_only l2 -> parse_only (l1 ++ l2).
Proof. intros; apply Forall_app; auto. Qed.

Lemma parse_only_one e : is_parse_event e -> parse_only [e].
Proof. intros; repeat constructor; auto. Qed.

#[local] Hint Resolve parse_only_nil parse_only_app parse_only_one : scs.

Lemma parses_ret {A} (a : A) : parses (ret a).
Proof. simpl. auto with scs. Qed.

Lemma parses_bind {A B} (r : Res A) (f : A -> Res B) :
  parses r -> (forall a, parses (f a)) -> parses (bind r f).
Proof.
  intros Hr Hf. apply total_bind. eapply total_mono; [exact Hr|].
  intros a l Hl. eapply total_mono; [apply Hf|]. simpl. auto with scs.
Qed.

Lemma parses_emit e : is_parse_event e -> parses (emit e).
Proof. simpl. auto with scs. Qed.

#[local] Hint Resolve parses_ret parses_bind parses_emit : scs.

Section Parsing.
Context {B : Build}.

Lemma parses_printErr key : parses (printErr key).
Proof. unfold printErr. apply parses_bind; intros; auto with scs. apply parses_emit. exact I. Qed.

Lemma parses_PyLong_AsLong o : parses (PyLong_AsLong o).
Proof.
  unfold PyLong_AsLong. destruct o; try (apply parses_bind; intros; [apply parses_emit; exact I|apply parses_ret]).
  destruct (fits _ _); [apply parses_ret|].
  apply parses_bind; intros; [apply parses_emit; exact I|apply parses_ret].
Qed.

Lemma parses_check_and_store check o v :
  parses (check_and_store check PyLong_AsLong o v).
Proof.
  unfold check_and_store. destruct (check o); [|apply parses_ret].
  apply parses_bind; [apply parses_PyLong_AsLong|intros; apply parses_ret].
Qed.

Lemma parses_nonneg_int_into o v : parses (nonneg_int_into o v).
Proof.
  unfold nonneg_int_into, PyInt_AsLong.
  apply parses_bind; [apply parses_check_and_store|].
  intros [t v']. destruct t; [apply parses_ret|apply parses_check_and_store].
Qed.

Lemma parses_getConeArrDim_loop key items : forall i q,
  parses (getConeArrDim_loop key items i q).
Proof.
  induction items as [|qi rest IH]; intros i q; cbn [getConeArrDim_loop]; [apply parses_ret|].
  apply parses_bind; [apply parses_nonneg_int_into|].
  intros [t v]. destruct t; cbn [negb]; [apply IH|].
  apply parses_bind; [apply parses_printErr|intros; apply parses_ret].
Qed.

Lemma parses_getConeArrDim key varr vsize cone :
  parses (getConeArrDim key varr vsize cone).
Proof.
  unfold getConeArrDim. destruct (cone !! key) as [obj|]; [|apply parses_ret].
  destruct (PyList_Check obj).
  { apply parses_bind; [apply parses_getConeArrDim_loop|].
    intros [[r|] q]; apply parses_ret. }
  destruct (PyInt_Check obj || PyLong_Check obj).
  { apply parses_bind; [apply parses_nonneg_int_into|].
    intros [t v]. destruct t; cbn [negb]; [apply parses_ret|].
    apply parses_bind; [apply parses_printErr|intros; apply parses_ret]. }
  apply parses_bind; [apply parses_printErr|intros; apply parses_ret].
Qed.

Lemma parses_getPosIntParam key defVal opts : parses (getPosIntParam key defVal opts).
Proof.
  unfold getPosIntParam. destruct opts as [opts|]; [|apply parses_ret].
  destruct (opts !! key) as [obj|]; [|apply parses_ret].
  apply parses_bind; [apply parses_nonneg_int_into|].
  intros [t v]. destruct t; cbn [negb]; [apply parses_ret|].
  apply parses_bind; [apply parses_printErr|intros; apply parses_ret].
Qed.

Lemma parses_getOptFloatParam key defVal opts : parses (getOptFloatParam key defVal opts).
Proof.
  unfold getOptFloatParam, ought_to_be_nonnegative.
  destruct opts as [opts|]; [|apply parses_ret].
  destruct (opts !! key) as [obj|]; [|apply parses_ret].
  destruct (PyInt_Check obj).
  { apply parses_bind; [apply parses_PyLong_AsLong|]. intros z.
    destruct (_ <? _)%float; [|apply parses_ret].
    apply parses_bind; [apply parses_emit; exact I|intros; apply parses_ret]. }
  destruct (negb (PyFloat_Check obj));
    [apply parses_bind; [apply parses_emit; exact I|intros; apply parses_ret]|].
  destruct (negb _); [|apply parses_ret].
  apply parses_bind; [apply parses_emit; exact I|intros; apply parses_ret].
Qed.

End Parsing.

(** ** What [freePyData] releases *)

Lemma when_set_eq {A} (p : option A) e : when_set p e = Done tt (opt_event p e).
Proof. destruct p; reflexivity. Qed.

Lemma freePyData_eq d k ps :
  freePyData d k ps = Done tt (Enter_freePyData :: released d k ps).
Proof.
  unfold freePyData, released, emit. rewrite !when_set_eq.
  destruct k as [k|], d as [d|]; rewrite ?when_set_eq; cbn [bind ret app];
    rewrite ?app_nil_r; reflexivity.
Qed.

Lemma finishWithErr_eq d k ps str :
  finishWithErr d k ps str =
  Done None (SetErr PyExc_ValueError str :: Enter_freePyData :: released d k ps).
Proof.
  unfold finishWithErr, emit. rewrite freePyData_eq. cbn [bind ret app].
  rewrite ?app_nil_r. reflexivity.
Qed.

Lemma Forall_opt_event {A} (P : Event -> Prop) (p : option A) e :
  P e -> Forall P (opt_event p e).
Proof. destruct p; simpl; auto. Qed.

Lemma released_is_release d k ps : Forall is_release (released d k ps).
Proof.
  unfold released.
  repeat (apply Forall_app; split); try (apply Forall_opt_event; exact I).
  - destruct k; [|constructor].
    repeat (apply Forall_app; split); try (apply Forall_opt_event; exact I).
    repeat constructor.
  - destruct d; [|constructor].
    repeat (apply Forall_app; split); try (apply Forall_opt_event; exact I).
    repeat constructor.
Qed.

Lemma PyErr_Occurred_app l1 l2 :
  PyErr_Occurred (l1 ++ l2) =
  match PyErr_Occurred l2 with Some x => Some x | None => PyErr_Occurred l1 end.
Proof.
  induction l1 as [|e l1 IH]; simpl.
  - destruct (PyErr_Occurred l2); reflexivity.
  - rewrite IH. destruct (PyErr_Occurred l2); reflexivity.
Qed.

Lemma PyErr_Occurred_releases l : Forall is_release l -> PyErr_Occurred l = None.
Proof.
  induction 1 as [|e l He _ IH]; simpl; [reflexivity|].
  rewrite IH. destruct e; simpl in He; tauto || reflexivity.
Qed.

Lemma freePyData_calls_app l1 l2 :
  freePyData_calls (l1 ++ l2) = (freePyData_calls l1 + freePyData_calls l2)%nat.
Proof. unfold freePyData_calls. rewrite filter_app, length_app. reflexivity. Qed.

Lemma freePyData_calls_parse l : parse_only l -> freePyData_calls l = 0%nat.
Proof.
  unfold freePyData_calls. induction 1 as [|e l He _ IH]; [reflexivity|].
  destruct e; simpl in He; try tauto; exact IH.
Qed.

Lemma freePyData_calls_releases l : Forall is_release l -> freePyData_calls l = 0%nat.
Proof.
  unfold freePyData_calls. induction 1 as [|e l He _ IH]; [reflexivity|].
  destruct e; simpl in He; try tauto; exact IH.
Qed.

(** ** The shape of every run of [csolve] *)

Lemma bind_assoc {A B C} (r : Res A) (f : A -> Res B) (g : B -> Res C) :
  bind (bind r f) g = bind r (fun x => bind (f x) g).
Proof.
  destruct r as [a l1|]; simpl; [|reflexivity].
  destruct (f a) as [b l2|]; simpl; [|reflexivity].
  destruct (g b) as [c l3|]; simpl; [|reflexivity].
  rewrite app_assoc. reflexivity.
Qed.

Lemma bind_ret_l {A B} (a : A) (f : A -> Res B) : bind (ret a) f = f a.
Proof. simpl. destruct (f a); reflexivity. Qed.

(** Projections of the structures out of the setters applied to them. *)
Ltac fields :=
  cbn [ps_Ax ps_Ai ps_Ap ps_b ps_c ps_x0 ps_y0 ps_s0 ps_NULL
       d_m d_n d_A d_b d_c WARM_START
       set_m set_n set_A set_b set_c set_WARM_START Data_zero
       k_q k_qsize k_s k_ssize set_f set_l set_q set_s set_ep set_ed Cone_zero] in *.

Section Shape.
Context {B : Build}.
Variable scs : Data -> Cone -> Sol -> Sol * Info.

Lemma shaped_tail a res tl : csolve_tail scs a res tl -> shaped scs a res tl.
Proof. intros H. exists [], tl. auto with scs. Qed.

Lemma shaped_app a res l log :
  parse_only l -> shaped scs a res log -> shaped scs a res (l ++ log).
Proof.
  intros Hl (pre & tl & Hpre & -> & Ht).
  exists (l ++ pre), tl. rewrite app_assoc. auto with scs.
Qed.

Lemma wp_bind_shaped {A} a (r : Res A) (f : A -> Res (option PyObject)) :
  wp r (fun _ l => parse_only l) ->
  (forall x l, r = Done x l -> wp (f x) (shaped scs a)) ->
  wp (bind r f) (shaped scs a).
Proof.
  intros Hr Hf. apply wp_bind. destruct r as [x l|]; simpl in *; [|exact I].
  eapply wp_mono; [apply (Hf x l eq_refl)|].
  intros res log. apply shaped_app. exact Hr.
Qed.

Lemma parses_parseOpts d opts : parses (parseOpts d opts).
Proof.
  unfold parseOpts.
  repeat (apply parses_bind;
          [first [apply parses_getPosIntParam | apply parses_getOptFloatParam]|];
          intros [? ?]; cbv zeta;
          match goal with |- parses (if ?c then _ else _) => destruct c end;
          [apply parses_ret|]).
  apply parses_ret.
Qed.

Lemma wp_getWarmStart key px0 l warm :
  wp (getWarmStart key px0 l warm) (fun _ log => parse_only log).
Proof.
  unfold getWarmStart. destruct (warm !! key) as [[]|]; try exact I.
  - destruct (_ || _); simpl; auto with scs.
    apply parse_only_one. exact I.
  - simpl. auto with scs.
Qed.

Lemma getWarmStart_px0 key px0 l warm r x p log :
  getWarmStart key px0 l warm = Done (r, x, p) log ->
  getWarmStart_flag key l warm = Some r.
Proof.
  unfold getWarmStart_flag, getWarmStart.
  destruct (warm !! key) as [[]|]; try discriminate.
  - destruct (_ || _); simpl; intros [= <- _ _ _]; reflexivity.
  - simpl. intros [= <- _ _ _]. reflexivity.
Qed.

Lemma parseOpts_frame d opts r d' l :
  parseOpts d opts = Done (r, d') l -> d_m d' = d_m d /\ d_n d' = d_n d.
Proof.
  unfold parseOpts. intros H.
  repeat (apply bind_Done_inv in H; destruct H as ([? ?] & ? & ? & _ & H & _);
          cbv zeta in H;
          match type of H with
          | (if ?c then _ else _) = _ => destruct c
          end; [injection H as _ <- _; split; reflexivity|]).
  injection H as _ <- _; split; reflexivity.
Qed.

Ltac shape_leaf :=
  first [ apply total_wp; first [ apply parses_getPosIntParam
                                | apply parses_getConeArrDim
                                | apply parses_parseOpts ]
        | apply wp_getWarmStart ].

Ltac shape_finish :=
  rewrite finishWithErr_eq; apply shaped_tail; apply tail_finishWithErr;
  unfold finish_messages; simpl; tauto.

Ltac shape_step :=
  lazymatch goal with
  | |- wp (finishWithErr _ _ _ _) _ => shape_finish
  | |- wp (if ?c then _ else _) _ => destruct c eqn:?
  | |- wp (bind (bind _ _) _) _ => rewrite bind_assoc
  | |- wp (bind (ret _) _) _ => rewrite bind_ret_l
  | |- wp (bind _ _) _ =>
      apply wp_bind_shaped;
      [ shape_leaf
      | intros ? ? ?;
        repeat match goal with p : (_ * _)%type |- _ => destruct p end;
        cbv beta iota zeta; fields ]
  | |- wp (let x := _ in _) _ => cbv zeta
  | |- wp (match ?p with (_, _) => _ end) _ => cbv beta iota zeta
  end.

Lemma csolve_shaped a : wp (csolve scs a) (shaped scs a).
Proof.
  unfold csolve. cbv zeta. fields.
  destruct (arg_m a <? 0) eqn:Hm.
  { apply shaped_tail. apply tail_shape; [lia|simpl; tauto]. }
  destruct (arg_n a <? 0) eqn:Hn.
  { apply shaped_tail. apply tail_shape; [lia|simpl; tauto]. }
  repeat shape_step.
  destruct (readable (local_opts a)) as [opts|] eqn:Hopts; [|exact I].
  apply wp_bind_shaped; [shape_leaf|]. intros [r d] lo Hp. cbv beta iota zeta.
  destruct (parseOpts_frame _ _ _ _ _ Hp) as [Hdm Hdn]. fields.
  destruct (r <? 0); [shape_finish|].
  destruct (arg_warm a) as [warm|] eqn:Hwarm.
  - repeat shape_step.
    match goal with |- context [scs ?d ?k ?s] => destruct (scs d k s) as [sol' info] eqn:Hscs end.
    rewrite freePyData_eq. cbn [bind emit ret app wp]. rewrite app_nil_r.
    apply shaped_tail. eapply tail_solved; eauto.
    unfold warm_flag. rewrite Hwarm.
    rewrite Hdm, Hdn in *.
    repeat match goal with
           | H : getWarmStart _ _ _ _ = Done _ _ |- _ => apply getWarmStart_px0 in H
           end.
    eauto 10.
  - rewrite bind_ret_l.
    match goal with |- context [scs ?d ?k ?s] => destruct (scs d k s) as [sol' info] eqn:Hscs end.
    rewrite freePyData_eq. cbn [bind emit ret app wp]. rewrite app_nil_r.
    apply shaped_tail. eapply tail_solved; eauto.
    unfold warm_flag. rewrite Hwarm. reflexivity.
Qed.

End Shape.

(** ** Releasing resources *)

Lemma In_opt_event {A} (p : option A) e e' :
  In e' (opt_event p e) <-> is_Some p /\ e' = e.
Proof.
  destruct p; simpl; split.
  - intros [<-|[]]. eauto.
  - intros [_ ->]. auto.
  - tauto.
  - intros [[x Hx] _]. discriminate.
Qed.

Lemma sublist_opt_event {A} (p : option A) e l1 l2 :
  sublist l1 l2 -> sublist (opt_event p e ++ l1) (e :: l2).
Proof. destruct p; simpl; [apply sublist_skip|apply sublist_cons]. Qed.

Lemma released_sublist d k ps : sublist (released d k ps) all_releases.
Proof.
  unfold released, all_releases.
  repeat apply sublist_opt_event.
  destruct k as [k|], d as [d|]; rewrite <- ?app_assoc; simpl;
    repeat first [ apply sublist_opt_event | apply sublist_skip | apply sublist_cons
                 | apply sublist_nil_l ].
Qed.

Lemma NoDup_all_releases : NoDup all_releases.
Proof.
  unfold all_releases.
  repeat (apply NoDup_cons; split;
          [rewrite ?elem_of_cons, elem_of_nil; intros H; intuition discriminate|]).
  apply NoDup_nil_2.
Qed.

Lemma NoDup_released d k ps : NoDup (released d k ps).
Proof.
  eapply sublist_NoDup; [apply NoDup_all_releases|apply released_sublist].
Qed.

(** C9. [freePyData] on any state, each of [ps]'s eight fields, the cone
    structure with its [q] and [s] arrays and the data structure with its [A]
    wrapper being set or not: the call is defined (it does not crash), it
    releases a field or block exactly when it is set, and nothing twice. *)
Theorem freePyData_releases_what_is_set (d : option Data) (k : option Cone)
    (ps : ScsPyData) :
  exists log,
    freePyData d k ps = Done tt (Enter_freePyData :: log) /\
    NoDup log /\
    Forall is_release log /\
    (forall f, In (Py_DECREF f) log <-> is_Some (ps_field f ps)) /\
    (forall p, In (scs_free p) log <-> block_set p d k).
Proof.
  exists (released d k ps). split; [apply freePyData_eq|].
  split; [apply NoDup_released|].
  split; [apply released_is_release|].
  split.
  - intros f. unfold released.
    destruct k as [k|], d as [d|]; simpl;
      rewrite ?in_app_iff, ?In_opt_event; simpl;
      destruct f; simpl; intuition (discriminate || congruence).
  - intros p. unfold released.
    destruct k as [k|], d as [d|]; simpl;
      rewrite ?in_app_iff, ?In_opt_event; simpl;
      destruct p; simpl; split; intros H;
      repeat match goal with
             | H : _ \/ _ |- _ => destruct H
             | H : _ /\ _ |- _ => destruct H
             | H : exists _, _ |- _ => destruct H
             | H : False |- _ => destruct H
             | H : Some _ = Some _ |- _ => injection H as ->
             | H : Py_DECREF _ = _ |- _ => discriminate H
             | H : scs_free _ = _ |- _ => discriminate H
             | H : _ = scs_free _ |- _ => discriminate H
             | H : None = Some _ |- _ => discriminate H
             | H : is_Some None |- _ => destruct H; discriminate
             end; eauto 10;
      match goal with
      | |- context [?e = ?e] => assert (e = e) by reflexivity; tauto
      end.
Qed.

(** ** Errors of [csolve] *)

Lemma PyErr_Occurred_after_free exc msg d k ps :
  PyErr_Occurred (SetErr exc msg :: Enter_freePyData :: released d k ps) = Some (exc, msg).
Proof.
  cbn [PyErr_Occurred].
  rewrite (PyErr_Occurred_releases _ (released_is_release d k ps)). reflexivity.
Qed.

Lemma not_In_parse_only e l : parse_only l -> ~ is_parse_event e -> ~ In e l.
Proof.
  intros Hl He Hin. unfold parse_only in Hl. rewrite Forall_forall in Hl.
  apply He, Hl. apply list_elem_of_In. exact Hin.
Qed.

Lemma not_In_released e d k ps : ~ is_release e -> ~ In e (released d k ps).
Proof.
  intros He Hin. pose proof (released_is_release d k ps) as Hl.
  rewrite Forall_forall in Hl. apply He, Hl. apply list_elem_of_In. exact Hin.
Qed.

Section Entry.
Context {B : Build}.
Variable scs : Data -> Cone -> Sol -> Sol * Info.

(** C10. Whenever [csolve], past argument unpacking, returns [NULL], the
    exception pending at that point is ValueError, and it carries one of the
    messages of the source, whichever check or parser failed. *)
Theorem csolve_raises_ValueError (a : Args) (log : list Event) :
  csolve scs a = Done None log ->
  exists msg,
    PyErr_Occurred log = Some (PyExc_ValueError, msg) /\
    In msg (shape_messages ++ finish_messages).
Proof.
  intros H.
  destruct (wp_inv _ _ _ _ (csolve_shaped scs a) H) as (pre & tl & Hpre & -> & Ht).
  inversion Ht; subst; exists msg; rewrite PyErr_Occurred_app.
  - split; [reflexivity|]. apply in_or_app. auto.
  - rewrite PyErr_Occurred_after_free. split; [reflexivity|]. apply in_or_app. auto.
Qed.

(** On the paths through [finishWithErr] the cleanup does run, once, after
    the exception is set: every abort with [m] and [n] nonnegative. *)
Lemma csolve_finishWithErr_frees_once (a : Args) (log : list Event) :
  csolve scs a = Done None log ->
  0 <= arg_m a -> 0 <= arg_n a ->
  freePyData_calls log = 1%nat /\
  exists pre msg d k ps,
    log = pre ++ SetErr PyExc_ValueError msg :: Enter_freePyData :: released d k ps.
Proof.
  intros H Hm Hn.
  destruct (wp_inv _ _ _ _ (csolve_shaped scs a) H) as (pre & tl & Hpre & -> & Ht).
  inversion Ht; subst; [lia|].
  split; [|eauto 10].
  rewrite freePyData_calls_app, (freePyData_calls_parse _ Hpre).
  change (SetErr PyExc_ValueError msg :: Enter_freePyData :: released (Some d) (Some k) ps)
    with ([SetErr PyExc_ValueError msg; Enter_freePyData] ++ released (Some d) (Some k) ps).
  rewrite freePyData_calls_app, (freePyData_calls_releases _ (released_is_release _ _ _)).
  reflexivity.
Qed.

(** X15. A negative [m] or [n] leaves [csolve] before any cleanup: the run
    raises ValueError with one of the two shape messages and does nothing
    else, whatever the other arguments are. *)
Lemma csolve_negative_shape (a : Args) :
  arg_m a < 0 \/ arg_n a < 0 ->
  exists msg, csolve scs a = Done None [SetErr PyExc_ValueError msg] /\
              In msg shape_messages.
Proof.
  intros H. unfold csolve. cbv zeta. fields.
  destruct (arg_m a <? 0) eqn:Hm; [eexists; split; [reflexivity|simpl; tauto]|].
  destruct (arg_n a <? 0) eqn:Hn; [eexists; split; [reflexivity|simpl; tauto]|].
  lia.
Qed.

Lemma getWarmStart_flag_bool key l warm r :
  getWarmStart_flag key l warm = Some r -> exists b : bool, r = Z.b2z b.
Proof.
  unfold getWarmStart_flag, getWarmStart.
  destruct (warm !! key) as [[]|]; try discriminate.
  - destruct (_ || _); simpl; intros [= <-]; [exists false|exists true]; reflexivity.
  - simpl. intros [= <-]. exists false. reflexivity.
Qed.

(** C7. The [WARM_START] field of the data handed to the solver: 0 when no
    warm mapping is passed; otherwise the three calls of [getWarmStart] (keys
    x, y, s with lengths n, m, m) each return 0 or 1, and the field is their
    bitwise, hence logical, OR. *)
Theorem csolve_WARM_START (a : Args) (res : option PyObject) (log : list Event)
    (d : Data) (k : Cone) (sol : Sol) :
  csolve scs a = Done res log ->
  In (Call_scs d k sol) log ->
  match arg_warm a with
  | None => WARM_START d = 0
  | Some warm =>
      exists px py ps : bool,
        getWarmStart_flag "x" (arg_n a) warm = Some (Z.b2z px) /\
        getWarmStart_flag "y" (arg_m a) warm = Some (Z.b2z py) /\
        getWarmStart_flag "s" (arg_m a) warm = Some (Z.b2z ps) /\
        WARM_START d = Z.lor (Z.lor (Z.b2z px) (Z.b2z py)) (Z.b2z ps) /\
        WARM_START d = Z.b2z (px || py || ps)
  end.
Proof.
  intros H Hin.
  destruct (wp_inv _ _ _ _ (csolve_shaped scs a) H) as (pre & tl & Hpre & -> & Ht).
  apply in_app_or in Hin. destruct Hin as [Hin|Hin].
  { exfalso. revert Hin. apply not_In_parse_only; auto. }
  inversion Ht; subst.
  - destruct Hin as [Hin|[]]. discriminate.
  - destruct Hin as [Hin|[Hin|Hin]]; try discriminate.
    exfalso. revert Hin. apply not_In_released. auto.
  - destruct Hin as [Hin|[Hin|Hin]]; try discriminate.
    2:{ exfalso. revert Hin. apply not_In_released. auto. }
    injection Hin as <- <- <-.
    match goal with Hf : warm_flag _ _ |- _ => unfold warm_flag in Hf; rename Hf into Hflag end.
    destruct (arg_warm a) as [warm|]; [|exact Hflag].
    destruct Hflag as (rx & ry & rs & Hx & Hy & Hs & Hw).
    destruct (getWarmStart_flag_bool _ _ _ _ Hx) as [px ->].
    destruct (getWarmStart_flag_bool _ _ _ _ Hy) as [py ->].
    destruct (getWarmStart_flag_bool _ _ _ _ Hs) as [ps' ->].
    exists px, py, ps'. repeat split; auto.
    rewrite Hw. destruct px, py, ps'; reflexivity.
Qed.

(** The solver is called on every run that returns a result. *)
Lemma csolve_calls_scs (a : Args) (ret : PyObject) (log : list Event) :
  csolve scs a = Done (Some ret) log ->
  exists d k sol, In (Call_scs d k sol) log.
Proof.
  intros H.
  destruct (wp_inv _ _ _ _ (csolve_shaped scs a) H) as (pre & tl & Hpre & -> & Ht).
  inversion Ht; subst. do 3 eexists. apply in_or_app. right. left. reflexivity.
Qed.

End Entry.

(** ** The packaged result *)

Lemma build_infoDict_solveTime {B : Build} (info : Info) :
  build_infoDict info !! "solveTime" = Some (PyFloat (solveTime info / 1000)%float).
Proof. unfold build_infoDict. rewrite !lookup_insert. reflexivity. Qed.

Lemma build_infoDict_setupTime {B : Build} (info : Info) :
  build_infoDict info !! "setupTime" = Some (PyFloat (setupTime info / 1000)%float).
Proof. unfold build_infoDict. rewrite !lookup_insert. reflexivity. Qed.

Section Result.
Context {B : Build}.
Variable scs : Data -> Cone -> Sol -> Sol * Info.

(** C8. In the dictionary a successful [csolve] returns, [info['solveTime']]
    and [info['setupTime']] are the values the solver left in its [info]
    structure (milliseconds) divided by 1000; a [solveTime] of 1500 is
    reported as 1.5. *)
Theorem csolve_times_in_seconds (a : Args) (ret : PyObject) (log : list Event) :
  csolve scs a = Done (Some ret) log ->
  exists d k sol (returnDict infoDict : gmap string PyObject),
    In (Call_scs d k sol) log /\
    ret = PyDict returnDict /\
    returnDict !! "info" = Some (PyDict infoDict) /\
    infoDict !! "solveTime" =
      Some (PyFloat (solveTime (snd (scs d k sol)) / 1000)%float) /\
    infoDict !! "setupTime" =
      Some (PyFloat (setupTime (snd (scs d k sol)) / 1000)%float) /\
    (solveTime (snd (scs d k sol)) = 1500%float ->
     infoDict !! "solveTime" = Some (PyFloat 1.5%float)).
Proof.
  intros H.
  destruct (wp_inv _ _ _ _ (csolve_shaped scs a) H) as (pre & tl & Hpre & -> & Ht).
  inversion Ht; subst.
  match goal with Hs : scs _ _ _ = _ |- _ => rename Hs into Hscs end.
  exists d, k, sol. eexists. exists (build_infoDict info).
  rewrite Hscs. cbn [snd].
  split; [apply in_or_app; right; left; reflexivity|].
  split; [reflexivity|].
  split; [unfold build_returnDict; rewrite !lookup_insert; reflexivity|].
  split; [apply build_infoDict_solveTime|].
  split; [apply build_infoDict_setupTime|].
  intros Hms. rewrite build_infoDict_solveTime, Hms. reflexivity.
Qed.

End Result.

(** ** Cone arrays *)

Lemma pow2_double w : 0 < w -> 2 ^ w = 2 * 2 ^ (w - 1).
Proof.
  intros Hw. replace w with (Z.succ (w - 1)) at 1 by lia.
  rewrite Z.pow_succ_r by lia. reflexivity.
Qed.

Lemma pow2_pos w : 0 < w -> 0 < 2 ^ (w - 1).
Proof. intros Hw. apply Z.pow_pos_nonneg; lia. Qed.

Lemma wrap_small w z :
  0 < w -> - 2 ^ (w - 1) <= z < 2 ^ (w - 1) -> wrap w z = z.
Proof.
  intros Hw Hz. unfold wrap. rewrite (pow2_double w Hw).
  rewrite Z.mod_small by lia. lia.
Qed.

Lemma fits_spec w z : fits w z = true <-> - 2 ^ (w - 1) <= z < 2 ^ (w - 1).
Proof. unfold fits. rewrite andb_true_iff, Z.leb_le, Z.ltb_lt. tauto. Qed.

Section ConeArrays.
Context {B : Build}.

Lemma to_idxint_minus_one : to_idxint (-1) = -1.
Proof.
  unfold to_idxint. apply wrap_small; [apply IDXINT_BITS_pos|].
  pose proof (pow2_pos _ IDXINT_BITS_pos). lia.
Qed.

Lemma nonneg_int_into_value z v :
  idxint_value z -> nonneg_int_into (PyInt z) v = Done (true, z) [].
Proof.
  intros [Hz Hl]. unfold nonneg_int_into, check_and_store, PyInt_Check, PyInt_AsLong.
  cbn [PyLong_Check PyLong_AsLong].
  assert (Hf : fits LONG_BITS z = true).
  { apply fits_spec. pose proof (pow2_pos _ LONG_BITS_pos). lia. }
  rewrite Hf. cbn [bind ret app].
  assert (Hw : to_idxint z = z).
  { unfold to_idxint. apply wrap_small; [apply IDXINT_BITS_pos|lia]. }
  rewrite Hw. assert (Hp : (0 <=? z) = true) by (apply Z.leb_le; lia).
  rewrite Hp. reflexivity.
Qed.

Lemma nonneg_int_into_other o v :
  PyLong_Check o = false -> nonneg_int_into o v = Done (false, v) [].
Proof.
  intros Ho. unfold nonneg_int_into, check_and_store, PyInt_Check. rewrite Ho.
  reflexivity.
Qed.

Lemma check_and_store_PyInt z v :
  exists l,
    check_and_store PyLong_Check PyLong_AsLong (PyInt z) v =
    Done (0 <=? to_idxint (if fits LONG_BITS z then z else -1),
          to_idxint (if fits LONG_BITS z then z else -1)) l.
Proof.
  unfold check_and_store. cbn [PyLong_Check PyLong_AsLong].
  destruct (fits LONG_BITS z); cbn [bind ret emit app]; eauto.
Qed.

(** When the test passes, the object is an integer whose conversion, first
    to [long] and then to [idxint], is not negative. *)
Lemma nonneg_int_into_true o v v' l :
  nonneg_int_into o v = Done (true, v') l ->
  exists z, o = PyInt z /\
            v' = to_idxint (if fits LONG_BITS z then z else -1) /\ 0 <= v'.
Proof.
  destruct o; try (rewrite nonneg_int_into_other by reflexivity; discriminate).
  unfold nonneg_int_into, PyInt_Check, PyInt_AsLong.
  destruct (check_and_store_PyInt z v) as [l1 ->]. cbn [bind].
  destruct (0 <=? _) eqn:E.
  - cbn [ret app]. intros [= <- _]. exists z. apply Z.leb_le in E. auto.
  - destruct (check_and_store_PyInt z (to_idxint (if fits LONG_BITS z then z else -1)))
      as [l2 ->].
    rewrite E. discriminate.
Qed.

Lemma getConeArrDim_loop_values key zs : forall i pre post,
  Forall idxint_value zs ->
  length pre = i -> length post = length zs ->
  getConeArrDim_loop key (map PyInt zs) i (pre ++ post) = Done (None, pre ++ zs) [].
Proof.
  induction zs as [|z zs IH]; intros i pre post Hzs Hpre Hpost.
  - destruct post; [reflexivity|discriminate].
  - destruct post as [|p post]; [discriminate|].
    apply Forall_cons in Hzs. destruct Hzs as [Hz Hzs].
    cbn [map getConeArrDim_loop].
    rewrite (nonneg_int_into_value z _ Hz). cbn [bind negb].
    replace (<[i:=z]> (pre ++ p :: post)) with ((pre ++ [z]) ++ post).
    2:{ subst i. rewrite insert_app_r_alt by lia. rewrite Nat.sub_diag.
        rewrite <- app_assoc. reflexivity. }
    rewrite (IH (S i) (pre ++ [z]) post Hzs).
    + rewrite <- app_assoc. reflexivity.
    + rewrite length_app. simpl. lia.
    + simpl in Hpost. lia.
Qed.

Lemma getConeArrDim_loop_exit key items : forall i q r q' l,
  getConeArrDim_loop key items i q = Done (Some r, q') l ->
  r = -1 /\ exists pre, l = pre ++ [Stderr ("error parsing '" ++ key ++ "'")%string].
Proof.
  induction items as [|qi rest IH]; intros i q r q' l H; [discriminate|].
  cbn [getConeArrDim_loop] in H.
  apply bind_Done_inv in H. destruct H as ([t v] & l1 & l2 & E & H & ->).
  destruct t; cbn [negb] in H.
  - destruct (IH _ _ _ _ _ H) as [-> [pre ->]]. split; [reflexivity|].
    exists (l1 ++ pre). rewrite app_assoc. reflexivity.
  - unfold printErr, emit in H. cbn [bind ret app] in H. injection H as <- _ <-.
    split; [reflexivity|]. exists l1. reflexivity.
Qed.

(** A failing [getConeArrDim] returns -1 after naming the key on stderr, and
    leaves the caller's array and size as they were. *)
Lemma getConeArrDim_failure key varr vsize cone r q n l :
  getConeArrDim key varr vsize cone = Done (r, q, n) l ->
  r <> 0 ->
  r = -1 /\ q = varr /\ n = vsize /\
  exists pre, l = pre ++ [Stderr ("error parsing '" ++ key ++ "'")%string].
Proof.
  unfold getConeArrDim. intros H Hr.
  destruct (cone !! key) as [obj|]; [|injection H as <-; congruence].
  destruct (PyList_Check obj).
  { apply bind_Done_inv in H. destruct H as ([[r'|] q'] & l1 & l2 & E & H & ->).
    - injection H as <- <- <- <-. destruct (getConeArrDim_loop_exit _ _ _ _ _ _ _ E) as [-> [pre ->]].
      rewrite app_nil_r. eauto.
    - injection H as <-. congruence. }
  destruct (_ || _).
  { apply bind_Done_inv in H. destruct H as ([t v] & l1 & l2 & E & H & ->).
    destruct t; cbn [negb] in H; [injection H as <-; congruence|].
    unfold printErr, emit in H. cbn [bind ret app] in H. injection H as <- <- <- <-.
    eauto. }
  unfold printErr, emit in H. cbn [bind ret app] in H. injection H as <- <- <- <-.
  repeat split; auto. exists []. reflexivity.
Qed.

End ConeArrays.

(** C3 (amended). [getConeArrDim] on any cone mapping: an absent key gives the
    [NULL] array and size 0; a list whose elements are all nonnegative
    integers that a C [long] and an [idxint] hold gives an array of those
    values and the list's length; one such integer gives a one-element array;
    a value that is neither a list nor an integer fails: -1 is returned, the
    key is named on stderr, and the caller's array and size are untouched. *)
Theorem getConeArrDim_cases {B : Build} (key : string) (varr : option (list Z))
    (vsize : Z) (cone : gmap string PyObject) :
  (cone !! key = None ->
   getConeArrDim key varr vsize cone = Done (0, None, 0) []) /\
  (forall zs, cone !! key = Some (PyList (map PyInt zs)) ->
     Forall idxint_value zs ->
     getConeArrDim key varr vsize cone =
     Done (0, Some zs, Z.of_nat (length zs)) []) /\
  (forall z, cone !! key = Some (PyInt z) -> idxint_value z ->
     getConeArrDim key varr vsize cone = Done (0, Some [z], 1) []) /\
  (forall obj, cone !! key = Some obj ->
     PyList_Check obj = false -> PyLong_Check obj = false ->
     getConeArrDim key varr vsize cone =
     Done (-1, varr, vsize) [Stderr ("error parsing '" ++ key ++ "'")%string]).
Proof.
  unfold getConeArrDim. repeat split.
  - intros ->. reflexivity.
  - intros zs -> Hzs. cbn [PyList_Check PyList_items].
    rewrite length_map. unfold scs_calloc_idxint. rewrite Nat2Z.id.
    pose proof (getConeArrDim_loop_values key zs 0%nat [] (repeat 0 (length zs)) Hzs
                  eq_refl (repeat_length _ _)) as E.
    cbn [app] in E. rewrite E. reflexivity.
  - intros z -> Hz. cbn [PyList_Check PyInt_Check PyLong_Check orb].
    rewrite (nonneg_int_into_value z 0 Hz). reflexivity.
  - intros obj -> Hl Hi. unfold PyInt_Check. rewrite Hl, Hi. reflexivity.
Qed.

Lemma getConeArrDim_cases_witness :
  let cone : gmap string PyObject := {[ "q" := PyList (map PyInt [3; 4]) ]} in
  cone !! "q" = Some (PyList (map PyInt [3; 4])) /\
  Forall (@idxint_value build_int) [3; 4] /\
  @getConeArrDim build_int "q" None 0 cone = Done (0, Some [3; 4], 2) [].
Proof.
  assert (Hk : ({[ "q" := PyList (map PyInt [3; 4]) ]} : gmap string PyObject) !! "q"
               = Some (PyList (map PyInt [3; 4]))) by reflexivity.
  assert (Hv : Forall (@idxint_value build_int) [3; 4]).
  { repeat constructor; cbn; lia. }
  split; [exact Hk|]. split; [exact Hv|].
  exact (proj1 (proj2 (@getConeArrDim_cases build_int "q" None 0 _)) [3; 4] Hk Hv).
Defined.

(** C3 as stated fails: 2^63 is a nonnegative integer, and a list holding it
    is rejected (here in the [DLONG] build, where [idxint] is [long]). *)
Lemma getConeArrDim_rejects_2_63 :
  let cone : gmap string PyObject := {[ "q" := PyList [PyInt (2 ^ 63)] ]} in
  cone !! "q" = Some (PyList [PyInt (2 ^ 63)]) /\
  0 <= 2 ^ 63 /\
  returned (@getConeArrDim build_DLONG "q" None 0 cone) = Some (-1, None, 0).
Proof. split; [reflexivity|]. split; [lia|]. vm_compute. reflexivity. Qed.

(** C2. The claim fails on the code in the default build ([idxint] is a
    32-bit [int], [long] has 64 bits): the negative element -2^32 fits a
    [long], the cast to [idxint] turns it into 0, the test [>= 0] passes, and
    the list is accepted with that 0 stored. *)
Theorem getConeArrDim_accepts_truncated_negative :
  @getConeArrDim build_int "q" None 0 {[ "q" := PyList [PyInt (-4294967296)] ]}
  = Done (0, Some [0], 1) [].
Proof. vm_compute. reflexivity. Qed.

(** C1. The claim fails on the code for a negative [m] (and likewise [n]):
    [csolve] sets ValueError and returns without entering [freePyData], so
    the structures [d] and [k] it allocated are not released. *)
Theorem csolve_negative_m_skips_freePyData :
  @csolve build_int sample_scs (with_shape (-1) 2 sample_args)
  = Done None [SetErr PyExc_ValueError "m must be a positive integer"] /\
  @csolve build_int sample_scs (with_shape 3 (-1) sample_args)
  = Done None [SetErr PyExc_ValueError "n must be a positive integer"] /\
  freePyData_calls [SetErr PyExc_ValueError "m must be a positive integer"] = 0%nat.
Proof. repeat split; vm_compute; reflexivity. Qed.

(** ** Options *)

Section Options.
Context {B : Build}.





End Options.



(** ** The order of the validation checks *)

Lemma len_one_dimensional x :
  PyArray_NDIM x = 1 -> len x = Some (PyArray_DIM x 0).
Proof.
  unfold PyArray_NDIM, PyArray_DIM, len. destruct (dimensions x) as [|n [|]]; simpl; intros H;
    try lia. reflexivity.
Qed.

Ltac names_only :=
  let ch' := fresh in
  intros ch'; destruct ch'; split; intros ?; try reflexivity; discriminate.

Ltac check_fails Hff :=
  injection Hff as <-;
  eexists; eexists;
  split; [first [reflexivity | apply finishWithErr_eq]|];
  split; [first [apply PyErr_Occurred_after_free | reflexivity]|];
  names_only.

Section Checks.
Context {B : Build}.
Variable scs : Data -> Cone -> Sol -> Sol * Info.

(** C5. The checks run in the order m, n, Ax, Ai, Ap, c, b: the first one
    that fails makes [csolve] return [NULL] with ValueError and a message
    that names that check's argument and no other; in particular a [c] whose
    length is not [n], once the checks before it have passed, makes the call
    fail with a message naming [c]. *)
Theorem csolve_first_failing_check (a : Args) :
  (forall ch, first_failing a = Some ch ->
     exists msg log,
       csolve scs a = Done None log /\
       PyErr_Occurred log = Some (PyExc_ValueError, msg) /\
       forall ch', names (argument_of ch') msg = true <-> ch' = ch) /\
  (passes a chk_m = true -> passes a chk_n = true -> passes a chk_Ax = true ->
   passes a chk_Ai = true -> passes a chk_Ap = true ->
   len (arg_c a) <> Some (arg_n a) ->
   exists msg log,
     csolve scs a = Done None log /\
     PyErr_Occurred log = Some (PyExc_ValueError, msg) /\
     names "c" msg = true).
Proof.
  assert (Hfirst : forall ch, first_failing a = Some ch ->
     exists msg log,
       csolve scs a = Done None log /\
       PyErr_Occurred log = Some (PyExc_ValueError, msg) /\
       forall ch', names (argument_of ch') msg = true <-> ch' = ch).
  { intros ch Hff. unfold first_failing, checks_in_order, passes in Hff.
    unfold csolve. cbv zeta. fields. rewrite !Z.ltb_antisym.
    cbn [List.find] in Hff.
    destruct (0 <=? arg_m a); cbn [negb] in *; [|check_fails Hff].
    destruct (0 <=? arg_n a); cbn [negb] in *; [|check_fails Hff].
    destruct (PyArray_ISFLOAT (arg_Ax a)); cbn [negb andb orb] in *; [|check_fails Hff].
    destruct (PyArray_NDIM (arg_Ax a) =? 1); cbn [negb andb orb] in *; [|check_fails Hff].
    destruct (PyArray_ISINTEGER (arg_Ai a)); cbn [negb andb orb] in *; [|check_fails Hff].
    destruct (PyArray_NDIM (arg_Ai a) =? 1); cbn [negb andb orb] in *; [|check_fails Hff].
    destruct (PyArray_ISINTEGER (arg_Ap a)); cbn [negb andb orb] in *; [|check_fails Hff].
    destruct (PyArray_NDIM (arg_Ap a) =? 1); cbn [negb andb orb] in *; [|check_fails Hff].
    destruct (PyArray_ISFLOAT (arg_c a)); cbn [negb andb orb] in *; [|check_fails Hff].
    destruct (PyArray_NDIM (arg_c a) =? 1); cbn [negb andb orb] in *; [|check_fails Hff].
    destruct (PyArray_DIM (arg_c a) 0 =? arg_n a); cbn [negb andb orb] in *; [|check_fails Hff].
    destruct (PyArray_ISFLOAT (arg_b a)); cbn [negb andb orb] in *; [|check_fails Hff].
    destruct (PyArray_NDIM (arg_b a) =? 1); cbn [negb andb orb] in *; [|check_fails Hff].
    destruct (PyArray_DIM (arg_b a) 0 =? arg_m a); cbn [negb andb orb] in *; [|check_fails Hff].
    discriminate Hff. }
  split; [exact Hfirst|].
  intros Hm Hn HAx HAi HAp Hc.
  assert (Hff : first_failing a = Some chk_c).
  { unfold first_failing, checks_in_order. cbn [List.find].
    rewrite Hm, Hn, HAx, HAi, HAp. cbn [negb].
    assert (Hpc : passes a chk_c = false); [|rewrite Hpc; reflexivity].
    cbn [passes]. destruct (PyArray_ISFLOAT (arg_c a)); [|reflexivity].
    destruct (PyArray_NDIM (arg_c a) =? 1) eqn:E; [|reflexivity].
    apply Z.eqb_eq, len_one_dimensional in E. cbn [andb].
    apply Z.eqb_neq. congruence. }
  destruct (Hfirst _ Hff) as (msg & log & Hrun & Herr & Hnames).
  exists msg, log. repeat split; auto. apply (Hnames chk_c). reflexivity.
Qed.

End Checks.

Lemma csolve_first_failing_check_witness :
  let a := with_c (mkArray [3] (NpyFloats [1; 1; 1]%float)) sample_args in
  first_failing a = Some chk_c /\
  exists msg log,
    @csolve build_int sample_scs a = Done None log /\
    PyErr_Occurred log = Some (PyExc_ValueError, msg) /\
    forall ch', names (argument_of ch') msg = true <-> ch' = chk_c.
Proof.
  split; [reflexivity|].
  exact (proj1 (@csolve_first_failing_check build_int sample_scs
                  (with_c (mkArray [3] (NpyFloats [1; 1; 1]%float)) sample_args))
               chk_c eq_refl).
Defined.

(** ** Warm start *)

Lemma succeeds_bind_Done {A} (x : A) l (f : A -> Res (option PyObject)) :
  succeeds (f x) -> succeeds (bind (Done x l) f).
Proof. intros (ret & log & E). simpl. rewrite E. unfold succeeds. eauto. Qed.

Lemma succeeds_bind_sync {A} (r : Res A) (f g : A -> Res (option PyObject)) :
  (forall x, succeeds (f x) -> succeeds (g x)) ->
  succeeds (bind r f) -> succeeds (bind r g).
Proof.
  intros H (ret & log & E). apply bind_Done_inv in E.
  destruct E as (x & l1 & l2 & -> & E & _).
  apply succeeds_bind_Done. apply H. unfold succeeds. eauto.
Qed.

Lemma not_succeeds_finishWithErr d k ps str : ~ succeeds (finishWithErr d k ps str).
Proof. rewrite finishWithErr_eq. intros (ret & log & E). discriminate E. Qed.

Section WarmStart.
Context {B : Build}.
Variable scs : Data -> Cone -> Sol -> Sol * Info.

Lemma getWarmStart_defined key px0 l warm :
  array_or_absent (warm !! key) ->
  exists r x p log, getWarmStart key px0 l warm = Done (r, x, p) log.
Proof.
  unfold array_or_absent, getWarmStart.
  destruct (warm !! key) as [[]|]; try contradiction; intros _.
  - destruct (_ || _); cbn; eauto 6.
  - cbn. eauto 6.
Qed.

Ltac sync_step :=
  lazymatch goal with
  | |- succeeds (if ?c then _ else _) -> _ =>
      destruct c; [intros H; exfalso; revert H; apply not_succeeds_finishWithErr|]
  | |- succeeds (bind ?r _) -> succeeds (bind ?r _) =>
      apply succeeds_bind_sync; intros ?;
      repeat match goal with p : (_ * _)%type |- _ => destruct p end;
      cbv beta iota zeta; fields
  end.

(** What [getWarmStart] does handle. For a warm-start mapping whose value
    under a key is a numpy array that is not a one-dimensional floating-point
    array of the expected length, it writes a diagnostic, returns 0 and
    supplies a zero-filled buffer of the expected length, leaving [*px0]
    alone; and a warm-start mapping whose x, y and s are numpy arrays or
    absent never turns a call that returns a result into one that does
    not. *)
Theorem getWarmStart_malformed_array :
  (forall key px0 l warm x0,
     warm !! key = Some (PyArray x0) -> fits_warm_start x0 l = false -> 0 <= l ->
     getWarmStart key px0 l warm =
       Done (0, Some (repeat 0%float (Z.to_nat l)), px0)
            [Stderr ("Error parsing warm-start input" ++ newline)%string] /\
     Z.of_nat (length (repeat 0%float (Z.to_nat l))) = l) /\
  (forall a warm,
     (forall key, In key ["x"; "y"; "s"] -> array_or_absent (warm !! key)) ->
     succeeds (csolve scs (with_warm None a)) ->
     succeeds (csolve scs (with_warm (Some warm) a))).
Proof.
  split.
  - intros key px0 l warm x0 Hkey Hfit Hl. split.
    + unfold getWarmStart, scs_calloc_pfloat. rewrite Hkey. unfold fits_warm_start in Hfit.
      rewrite <- !negb_andb, Hfit. rewrite (proj2 (Z.ltb_ge l 0) Hl). reflexivity.
    + rewrite repeat_length. lia.
  - intros a warm Hwarm.
    unfold csolve. cbv zeta.
    unfold local_opts.
    cbn [arg_m arg_n arg_Ax arg_Ai arg_Ap arg_b arg_c arg_cone arg_opts arg_warm
         opts_uninitialised with_warm].
    fields.
    destruct (arg_m a <? 0); [intros (? & ? & E); discriminate E|].
    destruct (arg_n a <? 0); [intros (? & ? & E); discriminate E|].
    repeat sync_step.
    destruct (readable _) as [opts|]; [|intros (? & ? & E); discriminate E].
    repeat sync_step.
    intros _. rewrite !bind_assoc.
    destruct (getWarmStart_defined "x" None (d_n d) warm) as (rx & x & px & lx & ->);
      [apply Hwarm; simpl; tauto|].
    apply succeeds_bind_Done. cbv beta iota zeta. fields. rewrite !bind_assoc.
    destruct (getWarmStart_defined "y" None (d_m d) warm) as (ry & y & py & ly & ->);
      [apply Hwarm; simpl; tauto|].
    apply succeeds_bind_Done. cbv beta iota zeta. fields. rewrite !bind_assoc.
    destruct (getWarmStart_defined "s" None (d_m d) warm) as (rs & s & ps' & ls & ->);
      [apply Hwarm; simpl; tauto|].
    apply succeeds_bind_Done. cbv beta iota zeta. rewrite bind_ret_l.
    match goal with |- context [scs ?d ?k ?s] => destruct (scs d k s) as [sol' info] end.
    rewrite freePyData_eq. cbn [bind emit ret app]. unfold succeeds. eauto.
Qed.

End WarmStart.

Lemma getWarmStart_malformed_array_witness :
  warm_x_too_long !! "x" = Some (PyArray (mkArray [3] (NpyFloats [1; 2; 3]%float))) /\
  fits_warm_start (mkArray [3] (NpyFloats [1; 2; 3]%float)) 2 = false /\
  0 <= 2 /\
  getWarmStart "x" None 2 warm_x_too_long =
    Done (0, Some (repeat 0%float (Z.to_nat 2)), None)
         [Stderr ("Error parsing warm-start input" ++ newline)%string].
Proof.
  assert (Hk : warm_x_too_long !! "x"
               = Some (PyArray (mkArray [3] (NpyFloats [1; 2; 3]%float)))) by reflexivity.
  assert (Hf : fits_warm_start (mkArray [3] (NpyFloats [1; 2; 3]%float)) 2 = false)
    by reflexivity.
  assert (Hl : 0 <= 2) by lia.
  split; [exact Hk|]. split; [exact Hf|]. split; [exact Hl|].
  exact (proj1 ((proj1 (@getWarmStart_malformed_array build_int sample_scs))
                  "x" None 2 warm_x_too_long _ Hk Hf Hl)).
Defined.

(** C6. The claim fails on the code for a value that is no numpy array at
    all, such as the list [[1.0, 2.0, 3.0]] under [x]: [getWarmStart] tests
    the dtype, the rank and the length of the value but never that it is an
    array, and reads the list through [PyArrayObject *]; its behaviour, and
    with it that of the whole call, is undefined where the claim has it
    return 0 with a zero-filled buffer and the solve proceed. *)
Theorem getWarmStart_list_is_undefined :
  let warm : gmap string PyObject :=
    {[ "x" := PyList [PyFloat 1%float; PyFloat 2%float; PyFloat 3%float] ]} in
  getWarmStart "x" None 2 warm = Undefined /\
  @csolve build_int sample_scs (with_warm (Some warm) sample_args) = Undefined.
Proof. split; vm_compute; reflexivity. Qed.

(** ** Concrete runs *)

Lemma csolve_raises_ValueError_witness :
  let cone : gmap string PyObject := {[ "q" := PyList [PyInt 3; PyInt (-1)] ]} in
  exists log,
    @csolve build_int sample_scs (with_cone cone sample_args) = Done None log /\
    exists msg,
      PyErr_Occurred log = Some (PyExc_ValueError, msg) /\
      In msg (shape_messages ++ finish_messages).
Proof.
  eexists. split; [vm_compute; reflexivity|].
  apply (@csolve_raises_ValueError build_int sample_scs
           (with_cone {[ "q" := PyList [PyInt 3; PyInt (-1)] ]} sample_args)).
  vm_compute. reflexivity.
Defined.

Lemma csolve_WARM_START_witness :
  exists res log d k sol,
    @csolve build_int sample_scs (with_warm (Some warm_x_only) sample_args)
      = Done res log /\
    In (Call_scs d k sol) log /\
    exists px py ps : bool,
      getWarmStart_flag "x" 2 warm_x_only = Some (Z.b2z px) /\
      getWarmStart_flag "y" 3 warm_x_only = Some (Z.b2z py) /\
      getWarmStart_flag "s" 3 warm_x_only = Some (Z.b2z ps) /\
      WARM_START d = Z.lor (Z.lor (Z.b2z px) (Z.b2z py)) (Z.b2z ps) /\
      WARM_START d = Z.b2z (px || py || ps).
Proof.
  do 5 eexists.
  split; [vm_compute; reflexivity|].
  split; [left; reflexivity|].
  refine (@csolve_WARM_START build_int sample_scs
            (with_warm (Some warm_x_only) sample_args) _ _ _ _ _ _ _);
    [vm_compute; reflexivity|left; reflexivity].
Defined.

Lemma csolve_times_in_seconds_witness :
  exists ret log,
    @csolve build_int sample_scs sample_args = Done (Some ret) log /\
    exists d k sol (returnDict infoDict : gmap string PyObject),
      In (Call_scs d k sol) log /\
      ret = PyDict returnDict /\
      returnDict !! "info" = Some (PyDict infoDict) /\
      infoDict !! "solveTime" =
        Some (PyFloat (solveTime (snd (sample_scs d k sol)) / 1000)%float) /\
      infoDict !! "setupTime" =
        Some (PyFloat (setupTime (snd (sample_scs d k sol)) / 1000)%float) /\
      (solveTime (snd (sample_scs d k sol)) = 1500%float ->
       infoDict !! "solveTime" = Some (PyFloat 1.5%float)).
Proof.
  do 2 eexists. split; [vm_compute; reflexivity|].
  apply (@csolve_times_in_seconds build_int sample_scs sample_args).
  vm_compute. reflexivity.
Defined.

(** * Further properties of the module *)

(** ** The scalar parsers *)

Lemma leb_zero_not_ltb (f : float) : (0 <=? f)%float = true -> (f <? 0)%float = false.
Proof.
  rewrite leb_spec, ltb_spec. unfold SFleb, SFltb.
  change (Prim2SF 0) with (S754_zero false).
  destruct (Prim2SF f) as [s|s| |s m e]; simpl; try destruct s; simpl; congruence.
Qed.

Section ScalarParsers.
Context {B : Build}.

Lemma nonneg_int_into_PyInt z v :
  nonneg_int_into (PyInt z) v =
  if fits LONG_BITS z then
    if 0 <=? to_idxint z then Done (true, to_idxint z) []
    else Done (false, to_idxint z) []
  else Done (false, -1)
         [SetErr PyExc_OverflowError "Python int too large to convert to C long";
          SetErr PyExc_OverflowError "Python int too large to convert to C long"].
Proof.
  unfold nonneg_int_into, check_and_store, PyInt_Check, PyInt_AsLong.
  cbn [PyLong_Check PyLong_AsLong].
  destruct (fits LONG_BITS z); cbn [bind ret emit app].
  - destruct (0 <=? to_idxint z) eqn:E; cbn [bind ret app]; reflexivity.
  - rewrite to_idxint_minus_one. reflexivity.
Qed.

(** The test passes silently, on an integer that fits [long] and whose
    [idxint] conversion is not negative; it fails without touching stderr. *)
Lemma nonneg_int_into_result o v t v' l :
  nonneg_int_into o v = Done (t, v') l ->
  stderr_text l = [] /\
  (t = true ->
   l = [] /\ 0 <= v' /\
   exists z, o = PyInt z /\ fits LONG_BITS z = true /\ v' = to_idxint z).
Proof.
  destruct o; try (rewrite nonneg_int_into_other by reflexivity;
                   intros [= <- <- <-]; split; [reflexivity|discriminate]).
  rewrite nonneg_int_into_PyInt.
  destruct (fits LONG_BITS z) eqn:Hf.
  - destruct (0 <=? to_idxint z) eqn:E; intros [= <- <- <-];
      (split; [reflexivity|]); [|discriminate].
    intros _. apply Z.leb_le in E. eauto 6.
  - intros [= <- <- <-]. split; [reflexivity|discriminate].
Qed.

(** Every outcome of [getPosIntParam]. *)
Lemma getPosIntParam_outcome (key : string) (defVal : Z)
    (opts : option (gmap string PyObject)) (r v : Z) (l : list Event) :
  getPosIntParam key defVal opts = Done (r, v) l ->
  (r = 0 /\ l = [] /\
   ((missing key opts /\ v = defVal) \/
    (0 <= v /\ exists o z, opts = Some o /\ o !! key = Some (PyInt z) /\
                           fits LONG_BITS z = true /\ v = to_idxint z))) \/
  (r = -1 /\ stderr_text l = [error_parsing key] /\ ~ missing key opts).
Proof.
  unfold getPosIntParam, missing.
  destruct opts as [o|]; [|intros [= <- <- <-]; left; auto].
  destruct (o !! key) as [obj|] eqn:Hk; [|intros [= <- <- <-]; left; auto].
  intros H. apply bind_Done_inv in H. destruct H as ([t v'] & l1 & l2 & E & H & ->).
  destruct (nonneg_int_into_result _ _ _ _ _ E) as [Hq Ht].
  destruct t; cbn [negb] in H.
  - injection H as <- <- <-. destruct (Ht eq_refl) as (-> & Hv & z & -> & Hf & ->).
    left. repeat split; auto. right. split; [exact Hv|]. eauto 6.
  - unfold printErr, emit in H. cbn [bind ret app] in H. injection H as <- <- <-.
    right. split; [reflexivity|]. split; [|congruence].
    clear - Hq. induction l1 as [|e l1 IH]; [reflexivity|].
    destruct e; simpl in *; auto; discriminate.
Qed.

(** X1. [getPosIntParam] returns 0 or -1. It returns 0 without writing or
    raising anything, and then the value is the default (key missing) or the
    nonnegative [idxint] the integer under the key converts to; it returns -1
    after one line on stderr that names the key, and only for a key that is
    present. *)
Theorem getPosIntParam_result (key : string) (defVal : Z)
    (opts : option (gmap string PyObject)) (r v : Z) (l : list Event) :
  getPosIntParam key defVal opts = Done (r, v) l ->
  (r = 0 /\ l = [] /\
   ((missing key opts /\ v = defVal) \/
    (0 <= v /\ exists o z, opts = Some o /\ o !! key = Some (PyInt z) /\
                           fits LONG_BITS z = true /\ v = to_idxint z))) \/
  (r = -1 /\ stderr_text l = [error_parsing key] /\ ~ missing key opts).
Proof. exact (getPosIntParam_outcome key defVal opts r v l). Qed.

(** Every outcome of [getOptFloatParam]. *)
Lemma getOptFloatParam_outcome (key : string) (defVal : pfloat)
    (opts : option (gmap string PyObject)) (r : Z) (v : pfloat) (l : list Event) :
  getOptFloatParam key defVal opts = Done (r, v) l ->
  (r = 0 /\ l = [] /\
   ((missing key opts /\ v = defVal) \/
    ((v <? 0)%float = false /\
     exists o, opts = Some o /\
       (o !! key = Some (PyFloat v) /\ (0 <=? v)%float = true \/
        exists z, o !! key = Some (PyInt z) /\ fits LONG_BITS z = true /\
                  v = Z2pfloat z)))) \/
  (r = -1 /\
   stderr_text l =
     [("ERROR: '" ++ key ++ "' ought to be a nonnegative float" ++ newline)%string] /\
   ~ missing key opts).
Proof.
  unfold getOptFloatParam, missing, ought_to_be_nonnegative.
  destruct opts as [o|]; [|intros [= <- <- <-]; left; auto].
  destruct (o !! key) as [obj|] eqn:Hk; [|intros [= <- <- <-]; left; auto].
  destruct obj; cbn [PyInt_Check PyLong_Check PyFloat_Check negb PyFloat_AsDouble];
    try (unfold emit; cbn [bind ret app]; intros [= <- <- <-]; right;
         split; [reflexivity|]; split; [reflexivity|congruence]).
  - (* an integer *)
    unfold PyInt_AsLong. cbn [PyLong_AsLong].
    destruct (fits LONG_BITS z) eqn:Hf; unfold emit; cbn [bind ret app].
    + destruct (Z2pfloat z <? 0)%float eqn:E; cbn [bind ret app];
        intros [= <- <- <-].
      * right. split; [reflexivity|]. split; [reflexivity|congruence].
      * left. repeat split; auto. right. split; [exact E|]. eauto 8.
    + change (Z2pfloat (-1) <? 0)%float with true. cbn [bind ret app].
      intros [= <- <- <-]. right. split; [reflexivity|]. split; [reflexivity|congruence].
  - (* a float *)
    destruct (0 <=? f)%float eqn:E; cbn [negb bind ret app]; intros [= <- <- <-].
    + left. repeat split; auto. right. split; [apply leb_zero_not_ltb; exact E|].
      eauto 8.
    + right. split; [reflexivity|]. split; [reflexivity|congruence].
Qed.

(** X2. [getOptFloatParam] returns 0 or -1. It returns 0 without writing or
    raising anything, with the default (key missing) or with a value that is
    not below zero: the float under the key when [0 <= ] holds of it (so never
    NaN), or the integer under the key converted to [pfloat]; it returns -1
    after one line on stderr that names the key, and only for a key that is
    present. *)
Theorem getOptFloatParam_result (key : string) (defVal : pfloat)
    (opts : option (gmap string PyObject)) (r : Z) (v : pfloat) (l : list Event) :
  getOptFloatParam key defVal opts = Done (r, v) l ->
  (r = 0 /\ l = [] /\
   ((missing key opts /\ v = defVal) \/
    ((v <? 0)%float = false /\
     exists o, opts = Some o /\
       (o !! key = Some (PyFloat v) /\ (0 <=? v)%float = true \/
        exists z, o !! key = Some (PyInt z) /\ fits LONG_BITS z = true /\
                  v = Z2pfloat z)))) \/
  (r = -1 /\
   stderr_text l =
     [("ERROR: '" ++ key ++ "' ought to be a nonnegative float" ++ newline)%string] /\
   ~ missing key opts).
Proof. exact (getOptFloatParam_outcome key defVal opts r v l). Qed.

End ScalarParsers.

(** ** Cone arrays, options and warm start: every outcome *)

Lemma stderr_text_app l1 l2 : stderr_text (l1 ++ l2) = stderr_text l1 ++ stderr_text l2.
Proof.
  induction l1 as [|e l1 IH]; [reflexivity|].
  destruct e; simpl; rewrite ?IH; reflexivity.
Qed.

Section Outcomes.
Context {B : Build}.

Lemma getConeArrDim_loop_done key items : forall i pre post q' l,
  length pre = i -> length post = length items ->
  getConeArrDim_loop key items i (pre ++ post) = Done (None, q') l ->
  l = [] /\ exists zs, q' = pre ++ zs /\ Forall2 stored_as items zs.
Proof.
  induction items as [|o rest IH]; intros i pre post q' l Hpre Hpost H.
  - destruct post; [|discriminate]. injection H as <- <-.
    split; [reflexivity|]. exists []. split; [reflexivity|constructor].
  - destruct post as [|p post]; [discriminate|].
    cbn [getConeArrDim_loop] in H.
    apply bind_Done_inv in H. destruct H as ([t v] & l1 & l2 & E & H & ->).
    destruct (nonneg_int_into_result _ _ _ _ _ E) as [_ Ht].
    destruct t; cbn [negb] in H.
    2:{ unfold printErr, emit in H. cbn [bind ret app] in H. discriminate H. }
    destruct (Ht eq_refl) as (-> & Hv & z & -> & Hf & ->).
    replace (<[i:=to_idxint z]> (pre ++ p :: post)) with ((pre ++ [to_idxint z]) ++ post) in H.
    2:{ subst i. rewrite insert_app_r_alt by lia. rewrite Nat.sub_diag.
        rewrite <- app_assoc. reflexivity. }
    apply IH in H; [|rewrite length_app; simpl; lia|simpl in Hpost; lia].
    destruct H as (-> & zs & -> & Hzs). split; [reflexivity|].
    exists (to_idxint z :: zs). split; [rewrite <- app_assoc; reflexivity|].
    constructor; [|exact Hzs]. exists z. auto.
Qed.

Lemma getConeArrDim_loop_exit_text key items : forall i q r q' l,
  getConeArrDim_loop key items i q = Done (Some r, q') l ->
  r = -1 /\ stderr_text l = [error_parsing key].
Proof.
  induction items as [|qi rest IH]; intros i q r q' l H; [discriminate|].
  cbn [getConeArrDim_loop] in H.
  apply bind_Done_inv in H. destruct H as ([t v] & l1 & l2 & E & H & ->).
  destruct (nonneg_int_into_result _ _ _ _ _ E) as [Hq _].
  rewrite stderr_text_app, Hq.
  destruct t; cbn [negb] in H.
  - apply IH in H. exact H.
  - unfold printErr, emit in H. cbn [bind ret app] in H. injection H as <- _ <-.
    split; reflexivity.
Qed.

Lemma stored_as_nonneg items zs :
  Forall2 stored_as items zs -> Forall (fun z => 0 <= z) zs.
Proof.
  induction 1 as [|o z items zs (zz & _ & _ & _ & Hz) _ IH]; constructor; auto.
Qed.

(** Every outcome of [getConeArrDim]. *)
Lemma getConeArrDim_outcome (key : string) (varr : option (list Z)) (vsize : Z)
    (cone : gmap string PyObject) (r : Z) (q : option (list Z)) (n : Z)
    (l : list Event) :
  getConeArrDim key varr vsize cone = Done (r, q, n) l ->
  (r = 0 /\ l = [] /\ cone_array_ok q n /\
   ((cone !! key = None /\ q = None) \/
    (exists items zs, cone !! key = Some (PyList items) /\ q = Some zs /\
                      Forall2 stored_as items zs) \/
    (exists o z, cone !! key = Some o /\ PyList_Check o = false /\
                 q = Some [z] /\ stored_as o z))) \/
  (r = -1 /\ q = varr /\ n = vsize /\ stderr_text l = [error_parsing key] /\
   cone !! key <> None).
Proof.
  unfold getConeArrDim. intros H.
  destruct (cone !! key) as [obj|] eqn:Hk.
  2:{ injection H as <- <- <- <-. left. repeat split; auto. }
  destruct (PyList_Check obj) eqn:Hlist.
  { destruct obj; try discriminate Hlist. cbn [PyList_items] in H.
    apply bind_Done_inv in H. destruct H as ([[r'|] q'] & l1 & l2 & E & H & ->).
    - injection H as <- <- <- <-.
      destruct (getConeArrDim_loop_exit_text _ _ _ _ _ _ _ E) as [-> Ht].
      right. rewrite app_nil_r. repeat split; auto.
    - injection H as <- <- <- <-.
      apply (getConeArrDim_loop_done key l0 0%nat [] _ q' l1 eq_refl) in E.
      2:{ unfold scs_calloc_idxint. rewrite repeat_length, Nat2Z.id. reflexivity. }
      destruct E as (-> & zs & -> & Hzs). cbn [app].
      left. split; [reflexivity|]. split; [reflexivity|]. split.
      + split; [|eapply stored_as_nonneg; exact Hzs].
        rewrite (Forall2_length _ _ _ Hzs). reflexivity.
      + right. left. eauto. }
  destruct (PyInt_Check obj || PyLong_Check obj) eqn:Hint.
  { apply bind_Done_inv in H. destruct H as ([t v] & l1 & l2 & E & H & ->).
    destruct (nonneg_int_into_result _ _ _ _ _ E) as [Hq Ht].
    destruct t; cbn [negb] in H.
    - injection H as <- <- <- <-. destruct (Ht eq_refl) as (-> & Hv & z & -> & Hf & ->).
      left. split; [reflexivity|]. split; [reflexivity|]. split.
      + split; [reflexivity|]. repeat constructor. exact Hv.
      + right. right. exists (PyInt z), (to_idxint z).
        repeat split; auto. exists z. auto.
    - unfold printErr, emit in H. cbn [bind ret app] in H. injection H as <- <- <- <-.
      right. rewrite stderr_text_app, Hq. repeat split; auto. }
  unfold printErr, emit in H. cbn [bind ret app] in H. injection H as <- <- <- <-.
  right. repeat split; auto.
Qed.

(** X3. [getConeArrDim] returns 0 or -1. It returns 0 without writing or
    raising anything: with the [NULL] array and size 0 for an absent key;
    with, for a list, an array as long as the list whose entries are the
    list's integers converted to [idxint], each fitting [long] and not
    negative after conversion; with a one-entry array for a single such
    integer. It returns -1 after exactly one line on stderr, which names the
    key, and leaves the caller's array and size as they were. *)
Theorem getConeArrDim_result (key : string) (varr : option (list Z)) (vsize : Z)
    (cone : gmap string PyObject) (r : Z) (q : option (list Z)) (n : Z)
    (l : list Event) :
  getConeArrDim key varr vsize cone = Done (r, q, n) l ->
  (r = 0 /\ l = [] /\ cone_array_ok q n /\
   ((cone !! key = None /\ q = None) \/
    (exists items zs, cone !! key = Some (PyList items) /\ q = Some zs /\
                      Forall2 stored_as items zs) \/
    (exists o z, cone !! key = Some o /\ PyList_Check o = false /\
                 q = Some [z] /\ stored_as o z))) \/
  (r = -1 /\ q = varr /\ n = vsize /\ stderr_text l = [error_parsing key] /\
   cone !! key <> None).
Proof. exact (getConeArrDim_outcome key varr vsize cone r q n l). Qed.

Ltac opts_step H :=
  apply bind_Done_inv in H;
  let E := fresh "E" in
  destruct H as ([? ?] & ? & ? & E & H & ->); cbv zeta in H;
  first [ apply getPosIntParam_outcome in E | apply getOptFloatParam_outcome in E ];
  destruct E as [(-> & -> & E)|(-> & E & _)];
  [ cbn [Z.ltb Z.eqb Z.compare negb app] in H
  | injection H as <- <- <-; split;
    [ repeat split; reflexivity
    | right; split; [reflexivity|]; rewrite app_nil_r; eauto ] ].

(** [parseOpts] leaves the problem data alone; it succeeds silently with no
    negative option, or fails after one line on stderr. *)
Lemma parseOpts_outcome (d : Data) (opts : option (gmap string PyObject))
    (r : Z) (d' : Data) (l : list Event) :
  parseOpts d opts = Done (r, d') l ->
  same_problem d d' /\
  ((r = 0 /\ l = [] /\ options_ok d') \/
   (r = -1 /\ exists line, stderr_text l = [line])).
Proof.
  unfold parseOpts. intros H.
  do 8 opts_step H.
  injection H as <- <- <-. split; [repeat split; reflexivity|].
  left. split; [reflexivity|]. split; [reflexivity|].
  unfold options_ok.
  cbn [MAX_ITERS VERBOSE NORMALIZE SCALE EPS CG_RATE ALPHA RHO_X
       set_MAX_ITERS set_VERBOSE set_NORMALIZE set_SCALE set_EPS set_CG_RATE
       set_ALPHA set_RHO_X].
  repeat match goal with
         | H : (_ /\ _ = _) \/ _ |- _ => destruct H as [[_ ->]|[? _]]
         end;
    repeat split; first [lia | assumption | reflexivity].
Qed.

Ltac passed :=
  match goal with
  | Hc : opt_code _ ?o = Some _ |- opt_fails _ ?o = _ =>
      unfold opt_fails; rewrite Hc; reflexivity
  end.

Ltac option_step H o before :=
  apply bind_Done_inv in H;
  let E := fresh "E" in
  let Hc := fresh "Hc" in
  let r := fresh "r" in let v := fresh "v" in
  destruct H as ([r v] & ? & ? & E & H & ->); cbv zeta in H;
  assert (Hc : opt_code _ o = Some r)
    by (unfold opt_code; rewrite E; reflexivity);
  first [ apply getPosIntParam_outcome in E | apply getOptFloatParam_outcome in E ];
  destruct E as [(-> & -> & _)|(-> & E & _)];
  [ cbn [Z.ltb Z.eqb Z.compare negb app] in H
  | injection H as <- <- <-;
    right; split; [reflexivity|];
    exists o, before; eexists;
    split; [reflexivity|];
    split; [repeat constructor; passed|];
    split; [passed|];
    split; [rewrite app_nil_r; exact E|];
    repeat constructor ].

(** X4. [parseOpts] returns 0 or -1 and never touches [m], [n], [A], [b], [c]
    or [WARM_START]. It returns 0 when no option's parser fails, and then it
    has written and raised nothing and none of the eight options is
    negative. It returns -1 at the first option, in the order of the source,
    whose parser fails: the one line on stderr is that parser's, and the
    options after it keep the values the structure came with. *)
Theorem parseOpts_result (d : Data) (opts : option (gmap string PyObject))
    (r : Z) (d' : Data) (l : list Event) :
  parseOpts d opts = Done (r, d') l ->
  same_problem d d' /\
  ((r = 0 /\ l = [] /\ options_ok d' /\
    Forall (fun o => opt_fails opts o = false) options_in_order) \/
   (r = -1 /\ exists o before after,
      options_in_order = before ++ o :: after /\
      Forall (fun o' => opt_fails opts o' = false) before /\
      opt_fails opts o = true /\
      stderr_text l = [opt_line o] /\
      Forall (fun o' => opt_field o' d' = opt_field o' d) after)).
Proof.
  intros H. pose proof (parseOpts_outcome _ _ _ _ _ H) as [Hsame Hout].
  split; [exact Hsame|]. clear Hsame.
  unfold parseOpts in H.
  option_step H opt_MAX_ITERS (@nil Opt).
  option_step H opt_VERBOSE [opt_MAX_ITERS].
  option_step H opt_NORMALIZE [opt_MAX_ITERS; opt_VERBOSE].
  option_step H opt_SCALE [opt_MAX_ITERS; opt_VERBOSE; opt_NORMALIZE].
  option_step H opt_EPS [opt_MAX_ITERS; opt_VERBOSE; opt_NORMALIZE; opt_SCALE].
  option_step H opt_CG_RATE [opt_MAX_ITERS; opt_VERBOSE; opt_NORMALIZE; opt_SCALE; opt_EPS].
  option_step H opt_ALPHA
    [opt_MAX_ITERS; opt_VERBOSE; opt_NORMALIZE; opt_SCALE; opt_EPS; opt_CG_RATE].
  option_step H opt_RHO_X
    [opt_MAX_ITERS; opt_VERBOSE; opt_NORMALIZE; opt_SCALE; opt_EPS; opt_CG_RATE; opt_ALPHA].
  injection H as <- <- <-.
  destruct Hout as [(_ & _ & Hok)|(Hr & _)]; [|discriminate Hr].
  left. split; [reflexivity|]. split; [reflexivity|]. split; [exact Hok|].
  repeat constructor; passed.
Qed.

End Outcomes.

(** ** Cone lists where [idxint] is [long] *)

Section ExactLists.
Context {B : Build}.

Lemma nonneg_long_idxint_value z :
  IDXINT_BITS = LONG_BITS -> 0 <= z -> fits LONG_BITS z = true -> idxint_value z.
Proof.
  intros Hbits Hz Hf. apply fits_spec in Hf. unfold idxint_value. rewrite Hbits. lia.
Qed.

Lemma Forall_nonneg_long items :
  IDXINT_BITS = LONG_BITS -> Forall nonneg_long items ->
  exists zs, items = map PyInt zs /\ Forall idxint_value zs.
Proof.
  intros Hbits. induction 1 as [|o items (z & -> & Hz & Hf) _ (zs & -> & Hzs)].
  - exists []. split; [reflexivity|constructor].
  - exists (z :: zs). split; [reflexivity|]. constructor; [|exact Hzs].
    apply nonneg_long_idxint_value; assumption.
Qed.

Lemma Exists_not_nonneg_long key items :
  IDXINT_BITS = LONG_BITS ->
  Exists (fun o => ~ nonneg_long o) items ->
  forall i q, exists q' l, getConeArrDim_loop key items i q = Done (Some (-1), q') l.
Proof.
  intros Hbits. induction 1 as [o rest Ho|o rest _ IH]; intros i q.
  - cbn [getConeArrDim_loop].
    destruct (nonneg_int_into o (nth i q 0)) as [[t v] l1|] eqn:E.
    2:{ destruct (total_inv _ _ (parses_nonneg_int_into o (nth i q 0)))
          as (? & ? & E' & _). congruence. }
    destruct t; [|cbn; eauto].
    exfalso. apply Ho.
    destruct (proj2 (nonneg_int_into_result _ _ _ _ _ E) eq_refl)
      as (_ & Hv & z & -> & Hf & ->).
    exists z. split; [reflexivity|]. split; [|exact Hf].
    unfold to_idxint in Hv. rewrite Hbits in Hv.
    rewrite wrap_small in Hv; [exact Hv|apply LONG_BITS_pos|apply fits_spec, Hf].
  - cbn [getConeArrDim_loop].
    destruct (total_inv _ _ (parses_nonneg_int_into o (nth i q 0)))
      as ([t v] & l1 & -> & _).
    destruct t; cbn [bind negb].
    + destruct (IH (S i) (<[i:=v]> q)) as (q' & l & ->). eauto.
    + cbn. eauto.
Qed.

(** X14. Where [idxint] is as wide as [long] (the [DLONG] build),
    [getConeArrDim] accepts a list exactly when every element is a Python
    integer that is not negative and fits a [long]. It then hands out those
    integers, unchanged, and the length of the list, and writes nothing.
    Any other list makes it return -1, leave the caller's array and size
    alone and write the one line that names the key. *)
Theorem getConeArrDim_list_where_idxint_is_long (key : string)
    (varr : option (list Z)) (vsize : Z) (cone : gmap string PyObject)
    (items : list PyObject) :
  IDXINT_BITS = LONG_BITS ->
  cone !! key = Some (PyList items) ->
  (Forall nonneg_long items ->
   exists zs, items = map PyInt zs /\
     getConeArrDim key varr vsize cone = Done (0, Some zs, Z.of_nat (length items)) []) /\
  (Exists (fun o => ~ nonneg_long o) items ->
   exists l, getConeArrDim key varr vsize cone = Done (-1, varr, vsize) l /\
             stderr_text l = [error_parsing key]).
Proof.
  intros Hbits Hkey. split.
  - intros Hall. destruct (Forall_nonneg_long _ Hbits Hall) as (zs & -> & Hzs).
    exists zs. split; [reflexivity|].
    unfold getConeArrDim. rewrite Hkey. cbn [PyList_Check PyList_items].
    rewrite length_map. unfold scs_calloc_idxint. rewrite Nat2Z.id.
    pose proof (getConeArrDim_loop_values key zs 0%nat [] (repeat 0 (length zs)) Hzs
                  eq_refl (repeat_length _ _)) as E.
    cbn [app] in E. rewrite E. reflexivity.
  - intros Hbad.
    destruct (total_inv _ _ (parses_getConeArrDim key varr vsize cone))
      as ([[r q] n] & l & E & _).
    assert (Hr : r = -1).
    { revert E. unfold getConeArrDim. rewrite Hkey. cbn [PyList_Check PyList_items].
      destruct (Exists_not_nonneg_long key items Hbits Hbad 0
                  (scs_calloc_idxint (Z.of_nat (length items)))) as (q' & l' & ->).
      cbn. congruence. }
    subst r. exists l.
    destruct (getConeArrDim_outcome _ _ _ _ _ _ _ _ E)
      as [(Hr & _)|(_ & -> & -> & Ht & _)]; [discriminate Hr|].
    split; [exact E|exact Ht].
Qed.

End ExactLists.

(** Every outcome of [getWarmStart] that is defined. *)
Lemma getWarmStart_outcome (key : string) (px0 : option PyArrayObject) (l : Z)
    (warm : gmap string PyObject) (r : Z) (x : option (list pfloat))
    (p : option PyArrayObject) (log : list Event) :
  getWarmStart key px0 l warm = Done (r, x, p) log ->
  PyErr_Occurred log = None /\
  ((r = 1 /\ log = [] /\
    exists x0, warm !! key = Some (PyArray x0) /\ fits_warm_start x0 l = true /\
               p = Some (getContiguous x0 getDoubleType) /\
               x = Some (PyArray_DATA_pfloat (getContiguous x0 getDoubleType))) \/
   (r = 0 /\ p = px0 /\
    (0 <= l -> x = Some (repeat 0%float (Z.to_nat l))) /\ (l < 0 -> x = None) /\
    ((warm !! key = None /\ log = []) \/
     (exists x0, warm !! key = Some (PyArray x0) /\ fits_warm_start x0 l = false /\
                 stderr_text log = [("Error parsing warm-start input" ++ newline)%string])))).
Proof.
  assert (Hc : (0 <= l -> scs_calloc_pfloat l = Some (repeat 0%float (Z.to_nat l))) /\
               (l < 0 -> scs_calloc_pfloat l = None)).
  { unfold scs_calloc_pfloat. destruct (l <? 0) eqn:E; split; intros ?; try reflexivity; lia. }
  destruct Hc as [Hpos Hneg].
  unfold getWarmStart, fits_warm_start.
  destruct (warm !! key) as [[]|]; try discriminate.
  - rewrite <- !negb_andb.
    destruct (PyArray_ISFLOAT a && (PyArray_NDIM a =? 1) && (PyArray_DIM a 0 =? l)) eqn:E;
      cbn [negb]; unfold emit; cbn [bind ret app]; intros [= <- <- <- <-];
      (split; [reflexivity|]).
    + left. split; [reflexivity|]. split; [reflexivity|]. eauto 6.
    + right. split; [reflexivity|]. split; [reflexivity|]. split; [exact Hpos|].
      split; [exact Hneg|]. right. eauto 6.
  - intros [= <- <- <- <-]. split; [reflexivity|]. right.
    split; [reflexivity|]. split; [reflexivity|]. split; [exact Hpos|].
    split; [exact Hneg|]. left. split; reflexivity.
Qed.

(** X5. [getWarmStart], whenever it is defined, raises nothing and returns 0
    or 1. It returns 1 only for a key holding a one-dimensional float array
    of length [l]: then it writes nothing, [*px0] is the new owner
    [getContiguous] made and [*x] points into it. Otherwise it returns 0,
    leaves [*px0] alone and hands out what [scs_calloc] gave, [l] zeros, or
    [NULL] for a negative [l]; it writes its diagnostic exactly when the key
    is present. *)
Theorem getWarmStart_result (key : string) (px0 : option PyArrayObject) (l : Z)
    (warm : gmap string PyObject) (r : Z) (x : option (list pfloat))
    (p : option PyArrayObject) (log : list Event) :
  getWarmStart key px0 l warm = Done (r, x, p) log ->
  PyErr_Occurred log = None /\
  ((r = 1 /\ log = [] /\
    exists x0, warm !! key = Some (PyArray x0) /\ fits_warm_start x0 l = true /\
               p = Some (getContiguous x0 getDoubleType) /\
               x = Some (PyArray_DATA_pfloat (getContiguous x0 getDoubleType))) \/
   (r = 0 /\ p = px0 /\
    (0 <= l -> x = Some (repeat 0%float (Z.to_nat l))) /\ (l < 0 -> x = None) /\
    ((warm !! key = None /\ log = []) \/
     (exists x0, warm !! key = Some (PyArray x0) /\ fits_warm_start x0 l = false /\
                 stderr_text log = [("Error parsing warm-start input" ++ newline)%string])))).
Proof. exact (getWarmStart_outcome key px0 l warm r x p log). Qed.

(** ** Runs of [csolve] that return a result *)

Lemma warm_diagnostics_getWarmStart key px0 l warm v log :
  getWarmStart key px0 l warm = Done v log -> warm_diagnostics log.
Proof.
  unfold getWarmStart. destruct (warm !! key) as [[]|]; try discriminate.
  - destruct (_ || _); unfold emit; cbn [bind ret app]; intros [= <- <-];
      repeat constructor.
  - intros [= <- <-]. constructor.
Qed.

Lemma warm_diagnostics_app l1 l2 :
  warm_diagnostics l1 -> warm_diagnostics l2 -> warm_diagnostics (l1 ++ l2).
Proof. intros. apply Forall_app. auto. Qed.

Lemma warm_diagnostics_stderr_only l : warm_diagnostics l -> stderr_only l.
Proof. induction 1 as [|e l <- _ IH]; constructor; eauto. Qed.

Lemma warm_diagnostics_text l :
  warm_diagnostics l -> Forall (eq warm_start_diagnostic) (stderr_text l).
Proof. induction 1 as [|e l <- _ IH]; simpl; constructor; auto. Qed.

Lemma PyErr_Occurred_stderr_only l : stderr_only l -> PyErr_Occurred l = None.
Proof.
  induction 1 as [|e l [t ->] _ IH]; [reflexivity|]. simpl. rewrite IH. reflexivity.
Qed.

Lemma first_failing_None a :
  (arg_m a <? 0) = false -> (arg_n a <? 0) = false ->
  negb (PyArray_ISFLOAT (arg_Ax a)) || negb (PyArray_NDIM (arg_Ax a) =? 1) = false ->
  negb (PyArray_ISINTEGER (arg_Ai a)) || negb (PyArray_NDIM (arg_Ai a) =? 1) = false ->
  negb (PyArray_ISINTEGER (arg_Ap a)) || negb (PyArray_NDIM (arg_Ap a) =? 1) = false ->
  negb (PyArray_ISFLOAT (arg_c a)) || negb (PyArray_NDIM (arg_c a) =? 1) = false ->
  negb (PyArray_DIM (arg_c a) 0 =? arg_n a) = false ->
  negb (PyArray_ISFLOAT (arg_b a)) || negb (PyArray_NDIM (arg_b a) =? 1) = false ->
  negb (PyArray_DIM (arg_b a) 0 =? arg_m a) = false ->
  first_failing a = None.
Proof.
  unfold first_failing, checks_in_order, passes. cbn [List.find].
  rewrite !Z.ltb_antisym, !orb_false_iff, !negb_false_iff.
  intros -> -> [-> ->] [-> ->] [-> ->] [-> ->] -> [-> ->] ->. reflexivity.
Qed.

Section SolvedRuns.
Context {B : Build}.
Variable scs : Data -> Cone -> Sol -> Sol * Info.

Ltac quit := first [ exact I | rewrite finishWithErr_eq; exact I ].

Ltac scalar_field :=
  apply wp_bind;
  match goal with
  | |- wp ?leaf _ =>
      let E := fresh "E" in
      let Hr := fresh "Hr" in
      destruct leaf as [[? ?] ?|] eqn:E; [|exact I]; cbn [wp];
      cbv beta iota zeta; fields;
      match goal with |- wp (if ?c then _ else _) _ => destruct c eqn:Hr; [quit|] end;
      apply getPosIntParam_outcome in E;
      destruct E as [(-> & -> & E)|(-> & _)]; [|discriminate Hr]; cbn [app];
      match type of E with
      | (_ /\ ?z = 0) \/ _ =>
          assert (0 <= z) by (destruct E as [[_ ->]|[? _]]; [lia|assumption])
      end;
      clear E Hr
  end.

Ltac array_field :=
  apply wp_bind;
  match goal with
  | |- wp ?leaf _ =>
      let E := fresh "E" in
      let Hr := fresh "Hr" in
      destruct leaf as [[[? ?] ?] ?|] eqn:E; [|exact I]; cbn [wp];
      cbv beta iota zeta; fields;
      match goal with |- wp (if ?c then _ else _) _ => destruct c eqn:Hr; [quit|] end;
      apply getConeArrDim_outcome in E;
      destruct E as [(-> & -> & E & _)|(-> & _)]; [|discriminate Hr]; cbn [app];
      clear Hr
  end.

Lemma csolve_solved a : wp (csolve scs a) (solved scs a).
Proof.
  unfold csolve. cbv zeta. fields.
  destruct (arg_m a <? 0) eqn:Hm; [exact I|].
  destruct (arg_n a <? 0) eqn:Hn; [exact I|].
  repeat match goal with
         | |- wp (if ?c then _ else _) _ => destruct c eqn:?; [quit|]
         end.
  scalar_field. scalar_field. array_field. array_field. scalar_field. scalar_field.
  destruct (readable (local_opts a)) as [opts|] eqn:Hopts; [|exact I].
  apply wp_bind.
  destruct (parseOpts _ opts) as [[r d] lo|] eqn:Ep; [|exact I]. cbn [wp].
  cbv beta iota zeta.
  destruct (r <? 0) eqn:Hr; [quit|].
  pose proof Ep as Ep0. apply parseOpts_outcome in Ep.
  destruct Ep as [(Hdm & Hdn & HdA & Hdb & Hdc & _) [(-> & -> & Hopt)|(-> & _)]];
    [|discriminate Hr].

  fields. cbn [app].
  assert (Hff : first_failing a = None) by (apply first_failing_None; assumption).
  destruct (arg_warm a) as [warm|] eqn:Hwarm.
  - rewrite !bind_assoc. apply wp_bind.
    destruct (getWarmStart "x" None (d_n d) warm) as [[[rx x] px] lx|] eqn:Ex; [|exact I].
    cbn [wp]. cbv beta iota zeta. fields. rewrite !bind_assoc. apply wp_bind.
    destruct (getWarmStart "y" None (d_m d) warm) as [[[ry y] py] ly|] eqn:Ey; [|exact I].
    cbn [wp]. cbv beta iota zeta. fields. rewrite !bind_assoc. apply wp_bind.
    destruct (getWarmStart "s" None (d_m d) warm) as [[[rs s] ps'] ls|] eqn:Es; [|exact I].
    cbn [wp]. cbv beta iota zeta. rewrite bind_ret_l.
    match goal with |- context [scs ?d ?k ?s] =>
      destruct (scs d k s) as [sol' info] eqn:Hscs end.
    rewrite freePyData_eq. cbn [bind emit ret app wp]. rewrite app_nil_r.
    exists (lx ++ ly ++ ls). eexists.
    split; [repeat apply warm_diagnostics_app;
            eapply warm_diagnostics_getWarmStart; eassumption|].
    split; [intros Hx; congruence|].
    split; [rewrite <- !app_assoc; reflexivity|].
    do 6 eexists. split; [reflexivity|]. split; [exact Hscs|].
    fields. rewrite Hdm, Hdn in *.
    split; [reflexivity|]. split; [exact Hff|]. split; [do 3 eexists; split; [exact Hopts|]; split; [exact Ep0|];
            unfold same_options; cbn; auto 10|].
    split; [unfold marshalled; fields; rewrite HdA, Hdb, Hdc; repeat split; auto|].
    split; [revert Hopt; unfold options_ok; cbn; tauto|].
    split; [unfold cone_ok; fields; cbn; auto 10|].
    split; [unfold coerced; cbn; auto 10|].
    unfold warm_loaded. rewrite Hwarm.
    cbn [sol_x sol_y sol_s sol_x_at sol_y_at sol_s_at ps_x0 ps_y0 ps_s0].
    exists rx, ry, rs. rewrite Ex, Ey, Es. auto 10.
  - rewrite bind_ret_l.
    match goal with |- context [scs ?d ?k ?s] =>
      destruct (scs d k s) as [sol' info] eqn:Hscs end.
    rewrite freePyData_eq. cbn [bind emit ret app wp]. rewrite app_nil_r.
    exists []. eexists. split; [constructor|]. split; [reflexivity|].
    split; [reflexivity|].
    do 6 eexists. split; [reflexivity|]. split; [exact Hscs|].
    fields. rewrite Hdm, Hdn in *.
    split; [reflexivity|]. split; [exact Hff|]. split; [do 3 eexists; split; [exact Hopts|]; split; [exact Ep0|];
            unfold same_options; cbn; auto 10|].
    split; [unfold marshalled; fields; rewrite HdA, Hdb, Hdc; repeat split; auto|].
    split; [revert Hopt; unfold options_ok; cbn; tauto|].
    split; [unfold cone_ok; fields; cbn; auto 10|].
    split; [unfold coerced; cbn; auto 10|].
    unfold warm_loaded. rewrite Hwarm. auto.
Qed.

End SolvedRuns.

Lemma not_In_stderr_only e l : stderr_only l -> (forall t, e <> Stderr t) -> ~ In e l.
Proof.
  intros Hl He Hin. unfold stderr_only in Hl. rewrite Forall_forall in Hl.
  destruct (Hl e) as [t ->]; [apply list_elem_of_In; exact Hin|]. exact (He t eq_refl).
Qed.

Lemma stderr_text_released d k ps : stderr_text (released d k ps) = [].
Proof.
  pose proof (released_is_release d k ps) as H.
  induction H as [|e l He _ IH]; [reflexivity|].
  destruct e; simpl in He; try contradiction; exact IH.
Qed.

Lemma stderr_only_text_nil l : stderr_only l -> stderr_text l = [] -> l = [].
Proof. intros H. destruct H as [|e l [t ->] _]; [reflexivity|discriminate]. Qed.

Section SolverCalls.
Context {B : Build}.
Variable scs : Data -> Cone -> Sol -> Sol * Info.

Lemma csolve_solved_inv a ret log :
  csolve scs a = Done (Some ret) log ->
  exists pre tl,
    warm_diagnostics pre /\ (arg_warm a = None -> pre = []) /\
    log = pre ++ tl /\ solved_tail scs a ret tl.
Proof. intros H. exact (wp_inv _ _ _ _ (csolve_solved scs a) H). Qed.

(** X6. The solver is only ever called on a validated problem: in every
    defined run of [csolve], a call of [scs] happens only if all seven
    validation checks pass, and then [d] holds [m], [n] and the data of the
    coerced arrays (none of [A], [b], [c] is NULL), no option is negative,
    and in the cone every scalar field is nonnegative and each array has its
    recorded size and only nonnegative entries. *)
Theorem csolve_calls_scs_on_valid_input (a : Args) (res : option PyObject)
    (log : list Event) (d : Data) (k : Cone) (sol : Sol) :
  csolve scs a = Done res log ->
  In (Call_scs d k sol) log ->
  first_failing a = None /\ marshalled a d /\ options_ok d /\ cone_ok k.
Proof.
  intros H Hin. destruct res as [ret|].
  - destruct (csolve_solved_inv _ _ _ H) as (pre & tl & Hpre & _ & -> & Ht).
    destruct Ht as (d' & k' & sol0 & ps & sol' & info & -> & _ & _ & Hff & _ & Hm & Hop & Hk & _).
    apply in_app_or in Hin. destruct Hin as [Hin|Hin].
    { exfalso. revert Hin.
      apply not_In_stderr_only; [apply warm_diagnostics_stderr_only; exact Hpre|discriminate]. }
    destruct Hin as [Hin|[Hin|Hin]]; try discriminate.
    + injection Hin as <- <- <-. auto.
    + exfalso. revert Hin. apply not_In_released. auto.
  - exfalso.
    destruct (wp_inv _ _ _ _ (csolve_shaped scs a) H) as (pre & tl & Hpre & -> & Ht).
    apply in_app_or in Hin. destruct Hin as [Hin|Hin].
    { revert Hin. apply not_In_parse_only; auto. }
    inversion Ht; subst.
    + destruct Hin as [Hin|[]]. discriminate.
    + destruct Hin as [Hin|[Hin|Hin]]; try discriminate.
      revert Hin. apply not_In_released. auto.
Qed.

(** X7. A run of [csolve] that returns a result leaves no exception pending,
    has written to stderr nothing but warm-start diagnostics (nothing at all
    without a warm mapping), has called the solver exactly once and has
    entered [freePyData] exactly once, after the solver returned. *)
Theorem csolve_success_is_clean (a : Args) (ret : PyObject) (log : list Event) :
  csolve scs a = Done (Some ret) log ->
  PyErr_Occurred log = None /\
  Forall (eq warm_start_diagnostic) (stderr_text log) /\
  (arg_warm a = None -> stderr_text log = []) /\
  freePyData_calls log = 1%nat /\
  exists pre d k sol rel,
    log = pre ++ Call_scs d k sol :: Enter_freePyData :: rel /\
    stderr_only pre /\ Forall is_release rel.
Proof.
  intros H.
  destruct (csolve_solved_inv _ _ _ H) as (pre & tl & Hpre & Hnil & -> & Ht).
  destruct Ht as (d & k & sol & ps & sol' & info & -> & _).
  pose proof (released_is_release (Some d) (Some k) ps) as Hrel.
  pose proof (warm_diagnostics_stderr_only _ Hpre) as Hso.
  split.
  { rewrite PyErr_Occurred_app. cbn [PyErr_Occurred].
    rewrite (PyErr_Occurred_releases _ Hrel). apply PyErr_Occurred_stderr_only. exact Hso. }
  rewrite stderr_text_app. cbn [stderr_text]. rewrite stderr_text_released, app_nil_r.
  split; [apply warm_diagnostics_text; exact Hpre|].
  split; [intros Hw; rewrite (Hnil Hw); reflexivity|].
  split; [|eauto 10].
  rewrite freePyData_calls_app.
  change (Call_scs d k sol :: Enter_freePyData :: released (Some d) (Some k) ps)
    with ([Call_scs d k sol; Enter_freePyData] ++ released (Some d) (Some k) ps).
  rewrite freePyData_calls_app, (freePyData_calls_releases _ Hrel).
  assert (Hp : freePyData_calls pre = 0%nat); [|rewrite Hp; reflexivity].
  clear - Hpre. unfold freePyData_calls.
  induction Hpre as [|e l <- _ IH]; [reflexivity|exact IH].
Qed.

End SolverCalls.

(** ** What a run releases *)

Lemma getWarmStart_owner key l warm r x p :
  returned (getWarmStart key None l warm) = Some (r, x, p) ->
  getWarmStart_flag key l warm = Some r /\ (is_Some p <-> r = 1).
Proof.
  unfold returned, getWarmStart_flag.
  destruct (getWarmStart key None l warm) as [[[r' x'] p'] log|] eqn:E; [|discriminate].
  intros [= -> -> ->]. split; [reflexivity|].
  apply getWarmStart_outcome in E.
  destruct E as [_ [(-> & _ & x0 & _ & _ & -> & _)|(-> & -> & _)]].
  - split; eauto.
  - split; [intros [? ?]; discriminate|discriminate].
Qed.

Section Releases.
Context {B : Build}.
Variable scs : Data -> Cone -> Sol -> Sol * Info.

(** X8. A run of [csolve] that returns a result releases, after the solver
    call and each exactly once: the five coerced arrays, the warm-start
    owners that were acquired and no other, the cone structure with those of
    its arrays that are set, the matrix wrapper and the data structure. *)
Theorem csolve_success_releases (a : Args) (ret : PyObject) (log : list Event) :
  csolve scs a = Done (Some ret) log ->
  exists pre d k sol rel,
    log = pre ++ Call_scs d k sol :: Enter_freePyData :: rel /\
    stderr_only pre /\ NoDup rel /\
    (forall f, In (Py_DECREF f) rel <->
               In f [Ax_; Ai_; Ap_; b_; c_] \/ warm_owner a f) /\
    (forall p, In (scs_free p) rel <->
               p = blk_k \/ p = blk_d_A \/ p = blk_d \/
               (p = blk_k_q /\ is_Some (k_q k)) \/ (p = blk_k_s /\ is_Some (k_s k))).
Proof.
  intros H.
  destruct (csolve_solved_inv scs _ _ _ H) as (pre & tl & Hpre & _ & -> & Ht).
  destruct Ht as (d & k & sol & ps & sol' & info & -> & _ & _ & _ & _ & Hm & _ & _ & Hc & Hw).
  exists pre, d, k, sol, (released (Some d) (Some k) ps).
  split; [reflexivity|]. split; [apply warm_diagnostics_stderr_only; exact Hpre|].
  split; [apply NoDup_released|].
  destruct Hc as (HAx & HAi & HAp & Hb & Hcc).
  destruct Hm as (_ & _ & HdA & _).
  assert (Hown : forall f, In f [x0_; y0_; s0_] ->
                           (is_Some (ps_field f ps) <-> warm_owner a f)).
  { unfold warm_loaded, warm_owner in *. intros f Hf.
    destruct (arg_warm a) as [warm|].
    - destruct Hw as (rx & ry & rs & Hx & Hy & Hs & _).
      apply getWarmStart_owner in Hx, Hy, Hs.
      destruct Hx as [Fx Ox], Hy as [Fy Oy], Hs as [Fs Os].
      destruct Hf as [<-|[<-|[<-|[]]]]; cbn [ps_field]; split.
      + intros Hp. exists warm. split; [reflexivity|]. left. split; [reflexivity|].
        rewrite Fx. f_equal. apply Ox, Hp.
      + intros (w & [= <-] & [[_ F]|[[? _]|[? _]]]); try discriminate.
        rewrite Fx in F. injection F as ->. apply Ox. reflexivity.
      + intros Hp. exists warm. split; [reflexivity|]. right. left. split; [reflexivity|].
        rewrite Fy. f_equal. apply Oy, Hp.
      + intros (w & [= <-] & [[? _]|[[_ F]|[? _]]]); try discriminate.
        rewrite Fy in F. injection F as ->. apply Oy. reflexivity.
      + intros Hp. exists warm. split; [reflexivity|]. right. right. split; [reflexivity|].
        rewrite Fs. f_equal. apply Os, Hp.
      + intros (w & [= <-] & [[? _]|[[? _]|[_ F]]]); try discriminate.
        rewrite Fs in F. injection F as ->. apply Os. reflexivity.
    - destruct Hw as (_ & Hx & Hy & Hs).
      destruct Hf as [<-|[<-|[<-|[]]]]; cbn [ps_field]; rewrite ?Hx, ?Hy, ?Hs; split;
        try (intros [? ?]; discriminate); intros (w & ? & _); discriminate.
  }
  split.
  - intros f. unfold released. rewrite HAx, HAi, HAp, Hb, Hcc, HdA.
    cbn [opt_event app In]. rewrite !in_app_iff, !In_opt_event. cbn [In].
    rewrite (Hown x0_), (Hown y0_), (Hown s0_) by (simpl; tauto).
    assert (Hno : forall g, In g [Ax_; Ai_; Ap_; b_; c_] -> ~ warm_owner a g).
    { intros g Hg (w & _ & [[-> _]|[[-> _]|[-> _]]]); simpl in Hg; intuition discriminate. }
    pose proof (Hno Ax_ ltac:(simpl; tauto)). pose proof (Hno Ai_ ltac:(simpl; tauto)).
    pose proof (Hno Ap_ ltac:(simpl; tauto)). pose proof (Hno b_ ltac:(simpl; tauto)).
    pose proof (Hno c_ ltac:(simpl; tauto)). clear Hno Hown.
    destruct f;
      match goal with |- context [Py_DECREF ?g = Py_DECREF ?g] =>
        pose proof (eq_refl (Py_DECREF g)); pose proof (eq_refl g) end;
      split; intros Hf; intuition (try discriminate; try congruence).
  - intros p. unfold released. rewrite HAx, HAi, HAp, Hb, Hcc, HdA.
    cbn [opt_event app In]. rewrite !in_app_iff, !In_opt_event. cbn [In].
    destruct p;
      match goal with |- context [scs_free ?g = scs_free ?g] =>
        pose proof (eq_refl (scs_free g)); pose proof (eq_refl g) end;
      split; intros Hf; intuition (try discriminate; try congruence).
Qed.

End Releases.

Lemma In_released_k d k ps : In (scs_free blk_k) (released d (Some k) ps).
Proof.
  unfold released. do 8 (apply in_or_app; right).
  apply in_or_app. left. do 2 (apply in_or_app; right). left. reflexivity.
Qed.

Lemma In_released_d d k ps : In (scs_free blk_d) (released (Some d) k ps).
Proof.
  unfold released. do 10 (apply in_or_app; right). left. reflexivity.
Qed.

Lemma bind_ext {A C} (r : Res A) (f g : A -> Res C) :
  (forall x, f x = g x) -> bind r f = bind r g.
Proof. intros H. destruct r as [x l|]; simpl; [rewrite H|]; reflexivity. Qed.

Lemma parseOpts_NULL_empty {B : Build} d : parseOpts d None = parseOpts d (Some ∅).
Proof.
  unfold parseOpts, getPosIntParam, getOptFloatParam. rewrite !lookup_empty. reflexivity.
Qed.

Lemma parseOpts_NULL {B : Build} d r d' l :
  parseOpts d None = Done (r, d') l -> default_options d'.
Proof.
  unfold parseOpts, getPosIntParam, getOptFloatParam. cbn [bind ret Z.ltb Z.eqb Z.compare negb].
  intros [= <- <- <-]. unfold default_options. cbn. repeat split; reflexivity.
Qed.

(** A warm start that [getWarmStart] accepts leaves a buffer and an owner. *)
Lemma getWarmStart_accepted key l warm x p :
  returned (getWarmStart key None l warm) = Some (1, x, p) ->
  is_Some x /\ is_Some p.
Proof.
  unfold returned.
  destruct (getWarmStart key None l warm) as [[[r' x'] p'] log|] eqn:E; [|discriminate].
  intros [= -> -> ->]. apply getWarmStart_outcome in E.
  destruct E as [_ [(_ & _ & x0 & _ & _ & -> & ->)|(Hr & _)]]; [|discriminate Hr].
  split; eauto.
Qed.

Lemma In_released_owner f d k ps :
  In f [x0_; y0_; s0_] -> is_Some (ps_field f ps) -> In (Py_DECREF f) (released d k ps).
Proof.
  intros Hf [p Hp]. unfold released.
  destruct Hf as [<-|[<-|[<-|[]]]]; cbn [ps_field] in Hp; rewrite Hp; cbn [opt_event];
    rewrite !in_app_iff; cbn [In]; tauto.
Qed.

Section EveryRun.
Context {B : Build}.
Variable scs : Data -> Cone -> Sol -> Sol * Info.

(** X9. Every defined run of [csolve] with [m] and [n] nonnegative enters
    [freePyData] exactly once, as the last thing it does and right after
    either setting ValueError (the run returns NULL) or calling the solver
    (the run returns a result); the releases that follow are all distinct and
    include the cone structure and the data structure. *)
Theorem csolve_frees_once (a : Args) (res : option PyObject) (log : list Event) :
  csolve scs a = Done res log ->
  0 <= arg_m a -> 0 <= arg_n a ->
  freePyData_calls log = 1%nat /\
  exists pre e rel,
    log = pre ++ e :: Enter_freePyData :: rel /\
    parse_only pre /\
    (match res with
     | None => exists msg, e = SetErr PyExc_ValueError msg
     | Some _ => exists d k sol, e = Call_scs d k sol
     end) /\
    Forall is_release rel /\ NoDup rel /\
    In (scs_free blk_k) rel /\ In (scs_free blk_d) rel.
Proof.
  intros H Hm Hn.
  destruct (wp_inv _ _ _ _ (csolve_shaped scs a) H) as (pre & tl & Hpre & -> & Ht).
  inversion Ht; subst; [lia| |].
  - split.
    + rewrite freePyData_calls_app, (freePyData_calls_parse _ Hpre).
      change (SetErr PyExc_ValueError msg :: Enter_freePyData :: released (Some d) (Some k) ps)
        with ([SetErr PyExc_ValueError msg; Enter_freePyData] ++ released (Some d) (Some k) ps).
      rewrite freePyData_calls_app, (freePyData_calls_releases _ (released_is_release _ _ _)).
      reflexivity.
    + do 3 eexists. split; [reflexivity|]. split; [exact Hpre|]. split; [eauto|].
      split; [apply released_is_release|]. split; [apply NoDup_released|].
      split; [apply In_released_k|apply In_released_d].
  - split.
    + rewrite freePyData_calls_app, (freePyData_calls_parse _ Hpre).
      change (Call_scs d k sol :: Enter_freePyData :: released (Some d) (Some k) ps)
        with ([Call_scs d k sol; Enter_freePyData] ++ released (Some d) (Some k) ps).
      rewrite freePyData_calls_app, (freePyData_calls_releases _ (released_is_release _ _ _)).
      reflexivity.
    + do 3 eexists. split; [reflexivity|]. split; [exact Hpre|]. split; [eauto|].
      split; [apply released_is_release|]. split; [apply NoDup_released|].
      split; [apply In_released_k|apply In_released_d].
Qed.

(** *** Without [opts] *)

(** The options of a call of the solver in the log are those [parseOpts]
    made of the variable [opts]. *)
Lemma csolve_call_options a res log d k sol :
  csolve scs a = Done res log ->
  In (Call_scs d k sol) log ->
  exists opts d0 d1,
    readable (local_opts a) = Some opts /\
    parseOpts d0 opts = Done (0, d1) [] /\ same_options d1 d.
Proof.
  intros H Hin. destruct res as [ret|].
  - destruct (csolve_solved_inv scs _ _ _ H) as (pre & tl & Hpre & _ & -> & Ht).
    destruct Ht as (d' & k' & sol0 & ps & sol' & info & -> & _ & _ & _ & Ho & _).
    apply in_app_or in Hin. destruct Hin as [Hin|Hin].
    { exfalso. revert Hin.
      apply not_In_stderr_only; [apply warm_diagnostics_stderr_only; exact Hpre|discriminate]. }
    destruct Hin as [Hin|[Hin|Hin]]; try discriminate.
    + injection Hin as <- <- <-. exact Ho.
    + exfalso. revert Hin. apply not_In_released. auto.
  - exfalso.
    destruct (wp_inv _ _ _ _ (csolve_shaped scs a) H) as (pre & tl & Hpre & -> & Ht).
    apply in_app_or in Hin. destruct Hin as [Hin|Hin].
    { revert Hin. apply not_In_parse_only; auto. }
    inversion Ht; subst.
    + destruct Hin as [Hin|[]]. discriminate.
    + destruct Hin as [Hin|[Hin|Hin]]; try discriminate.
      revert Hin. apply not_In_released. auto.
Qed.

(** X10. [opts] has no initialiser in [csolve]. When the caller passes no
    [opts] and the variable happens to hold [NULL], the call runs exactly as
    it does with an empty dictionary for [opts], and a solver that is called
    receives the eight defaults. *)
Theorem csolve_without_opts (a : Args) :
  arg_opts a = None ->
  opts_uninitialised a = holds_NULL ->
  csolve scs a = csolve scs (with_opts (Some ∅) a) /\
  forall res log d k sol,
    csolve scs a = Done res log -> In (Call_scs d k sol) log -> default_options d.
Proof.
  intros Ho Hu. split.
  - unfold csolve, local_opts. cbv zeta.
    cbn [arg_m arg_n arg_Ax arg_Ai arg_Ap arg_b arg_c arg_cone arg_opts arg_warm
         opts_uninitialised with_opts].
    rewrite Ho, Hu. cbn [readable]. fields.
    destruct (arg_m a <? 0); [reflexivity|].
    destruct (arg_n a <? 0); [reflexivity|].
    repeat match goal with
           | |- (if ?c then _ else _) = (if ?c then _ else _) => destruct c; [reflexivity|]
           | |- bind ?r _ = bind ?r _ =>
               apply bind_ext; intros ?;
               repeat match goal with p : (_ * _)%type |- _ => destruct p end;
               cbv beta iota zeta; fields
           end.
    rewrite parseOpts_NULL_empty. reflexivity.
  - intros res log d k sol H Hin.
    destruct (csolve_call_options _ _ _ _ _ _ H Hin) as (opts & d0 & d1 & Hr & Hp & Hs).
    unfold local_opts in Hr. rewrite Ho, Hu in Hr. injection Hr as <-.
    apply parseOpts_NULL in Hp. unfold default_options, same_options in *.
    destruct Hp as (H1 & H2 & H3 & H4 & H5 & H6 & H7 & H8).
    destruct Hs as (G1 & G2 & G3 & G4 & G5 & G6 & G7 & G8).
    repeat split; congruence.
Qed.

(** *** The packaged result *)

(** X11. The dictionary a successful [csolve] returns. Under [x], [y] and [s]
    it holds vectors of length [n], [m] and [m]: each is an array over the
    buffer the solver left in [sol], which it borrows and does not copy.
    Under [info] it holds the solver's objectives, residuals, gap and status
    text unchanged, and the status code and the iteration count as the
    format [l] reads them back: unchanged where [idxint] is [long]. *)
Theorem csolve_result_contents (a : Args) (ret : PyObject) (log : list Event) :
  csolve scs a = Done (Some ret) log ->
  exists d k sol (returnDict infoDict : gmap string PyObject),
    In (Call_scs d k sol) log /\
    ret = PyDict returnDict /\
    (forall v xs,
       vec_values v (fst (scs d k sol)) = Some xs ->
       returnDict !! vec_key v =
         Some (PyArray (mkArrayOver [vec_len a v] (NpyFloats xs)
                          (borrows (vec_place v (fst (scs d k sol))))))) /\
    returnDict !! "info" = Some (PyDict infoDict) /\
    infoDict !! "statusVal" =
      Some (PyInt (va_arg_long (to_idxint (statusVal (snd (scs d k sol)))))) /\
    infoDict !! "iter" =
      Some (PyInt (va_arg_long (to_idxint (iter (snd (scs d k sol)))))) /\
    (IDXINT_BITS = LONG_BITS ->
     infoDict !! "statusVal" = Some (PyInt (to_idxint (statusVal (snd (scs d k sol))))) /\
     infoDict !! "iter" = Some (PyInt (to_idxint (iter (snd (scs d k sol)))))) /\
    infoDict !! "pobj" = Some (PyFloat (pobj (snd (scs d k sol)))) /\
    infoDict !! "dobj" = Some (PyFloat (dobj (snd (scs d k sol)))) /\
    infoDict !! "resPri" = Some (PyFloat (resPri (snd (scs d k sol)))) /\
    infoDict !! "resDual" = Some (PyFloat (resDual (snd (scs d k sol)))) /\
    infoDict !! "relGap" = Some (PyFloat (relGap (snd (scs d k sol)))) /\
    infoDict !! "status" = Some (PyString (status (snd (scs d k sol)))).
Proof.
  intros H.
  destruct (csolve_solved_inv scs _ _ _ H) as (pre & tl & _ & _ & -> & Ht).
  destruct Ht as (d & k & sol & ps & sol' & info & -> & Hscs & -> & _).
  exists d, k, sol. eexists. exists (build_infoDict info).
  rewrite Hscs. cbn [fst snd].
  split; [apply in_or_app; right; left; reflexivity|].
  split; [reflexivity|].
  split.
  { intros v xs Hv. unfold build_returnDict, PyArray_SimpleNewFromData.
    destruct v; cbn [vec_values vec_key vec_len vec_place] in *;
      rewrite !lookup_insert, Hv; reflexivity. }
  unfold build_returnDict, build_infoDict.
  repeat split; try (rewrite !lookup_insert; reflexivity);
    rewrite !lookup_insert; rewrite !va_arg_long_same by assumption; reflexivity.
Qed.

(** X16. The vectors of the result are not copies. When the warm start of a
    vector was accepted and the solver writes that vector into the buffer it
    is handed, the array returned under the vector's key borrows the data of
    the array that [getContiguous] made for the warm start, and the run has
    released that array, after the solver's call, before it returns. *)
Theorem csolve_result_borrows_released_warm_start (a : Args) (ret : PyObject)
    (log : list Event) (v : Vector) (warm : gmap string PyObject) :
  csolve scs a = Done (Some ret) log ->
  arg_warm a = Some warm ->
  getWarmStart_flag (vec_key v) (vec_len a v) warm = Some 1 ->
  fills_in_place scs v ->
  exists (returnDict : gmap string PyObject) arr pre d k sol rel,
    ret = PyDict returnDict /\
    returnDict !! vec_key v = Some (PyArray arr) /\
    base arr = borrows (in_data_of (vec_owner v)) /\
    log = pre ++ Call_scs d k sol :: Enter_freePyData :: rel /\
    In (Py_DECREF (vec_owner v)) rel.
Proof.
  intros H Hw Hflag Hfill.
  destruct (csolve_solved_inv scs _ _ _ H) as (pre & tl & _ & _ & -> & Ht).
  destruct Ht as (d & k & sol & ps & sol' & info & -> & Hscs & -> & _ & _ & _ & _ & _ & _ & Hl).
  unfold warm_loaded in Hl. rewrite Hw in Hl.
  destruct Hl as (rx & ry & rs & Hx & Hy & Hs & Px & Py & Ps).
  assert (Hv : is_Some (vec_values v sol) /\ is_Some (ps_field (vec_owner v) ps) /\
               vec_place v sol = in_data_of (vec_owner v)).
  { destruct v; cbn [vec_key vec_len vec_values vec_owner vec_place ps_field] in *.
    - destruct (getWarmStart_owner _ _ _ _ _ _ Hx) as [F _].
      rewrite F in Hflag. injection Hflag as ->.
      destruct (getWarmStart_accepted _ _ _ _ _ Hx). rewrite Px. auto.
    - destruct (getWarmStart_owner _ _ _ _ _ _ Hy) as [F _].
      rewrite F in Hflag. injection Hflag as ->.
      destruct (getWarmStart_accepted _ _ _ _ _ Hy). rewrite Py. auto.
    - destruct (getWarmStart_owner _ _ _ _ _ _ Hs) as [F _].
      rewrite F in Hflag. injection Hflag as ->.
      destruct (getWarmStart_accepted _ _ _ _ _ Hs). rewrite Ps. auto. }
  destruct Hv as (Hsome & Hown & Hplace).
  destruct (Hfill d k sol Hsome) as [[xs Hxs] Hkeep].
  rewrite Hscs in Hxs, Hkeep. cbn [fst] in Hxs, Hkeep.
  eexists. exists (mkArrayOver [vec_len a v] (NpyFloats xs) (borrows (vec_place v sol'))).
  exists pre, d, k, sol, (released (Some d) (Some k) ps).
  split; [reflexivity|].
  split.
  { unfold build_returnDict, PyArray_SimpleNewFromData.
    destruct v; cbn [vec_values vec_key vec_len vec_place] in *;
      rewrite !lookup_insert, Hxs; reflexivity. }
  split; [cbn [base]; rewrite Hkeep, Hplace; reflexivity|].
  split; [reflexivity|].
  apply In_released_owner; [destruct v; cbn; tauto|exact Hown].
Qed.

End EveryRun.

(** ** The integer type asked of numpy *)

Lemma fits_wrap w z : 0 < w -> fits w (wrap w z) = true.
Proof.
  intros Hw. apply fits_spec. unfold wrap.
  pose proof (pow2_pos w Hw) as Hp. rewrite (pow2_double w Hw).
  pose proof (Z.mod_pos_bound (z + 2 ^ (w - 1)) (2 * 2 ^ (w - 1)) ltac:(lia)). lia.
Qed.

Lemma map_wrap_fits w zs :
  0 < w -> Forall (fun z => fits w z = true) zs -> map (wrap w) zs = zs.
Proof.
  intros Hw. induction 1 as [|z zs Hz _ IH]; [reflexivity|].
  cbn [map]. rewrite IH. f_equal. apply wrap_small; [exact Hw|]. apply fits_spec, Hz.
Qed.

(** X12. For an [idxint] of 1, 2, 4 or 8 bytes, [getContiguous] with the type
    that [getIntType] names turns an integer array into an array of
    [idxint]: the shape is kept, every entry is the caller's entry converted
    to [idxint] and so fits one, and entries that fit already are
    unchanged. *)
Theorem getIntType_coerces_to_idxint {B : Build} (a : PyArrayObject) (zs : list Z) :
  In IDXINT_BITS [8; 16; 32; 64] ->
  elements a = NpyInts zs ->
  getContiguous a getIntType = mkArray (dimensions a) (NpyInts (map to_idxint zs)) /\
  Forall (fun z => fits IDXINT_BITS z = true)
    (PyArray_DATA_idxint (getContiguous a getIntType)) /\
  (Forall (fun z => fits IDXINT_BITS z = true) zs ->
   PyArray_DATA_idxint (getContiguous a getIntType) = zs).
Proof.
  intros Hw He.
  assert (E : getContiguous a getIntType
              = mkArray (dimensions a) (NpyInts (map to_idxint zs))).
  { unfold getContiguous, PyArray_Cast, getIntType, to_idxint. rewrite He.
    destruct Hw as [Hw|[Hw|[Hw|[Hw|[]]]]]; rewrite <- Hw; reflexivity. }
  rewrite E. cbn [PyArray_DATA_idxint elements]. split; [reflexivity|]. split.
  - clear. induction zs as [|z zs IH]; cbn [map]; constructor; [|exact IH].
    apply fits_wrap, IDXINT_BITS_pos.
  - intros Hf. apply map_wrap_fits; [apply IDXINT_BITS_pos|exact Hf].
Qed.

(** ** The order of the parsing stages *)

Lemma bind_Done_nil {A B} (x : A) (f : A -> Res B) : bind (Done x []) f = f x.
Proof. exact (bind_ret_l x f). Qed.

Lemma first_failing_None_inv a :
  first_failing a = None ->
  (arg_m a <? 0) = false /\ (arg_n a <? 0) = false /\
  negb (PyArray_ISFLOAT (arg_Ax a)) || negb (PyArray_NDIM (arg_Ax a) =? 1) = false /\
  negb (PyArray_ISINTEGER (arg_Ai a)) || negb (PyArray_NDIM (arg_Ai a) =? 1) = false /\
  negb (PyArray_ISINTEGER (arg_Ap a)) || negb (PyArray_NDIM (arg_Ap a) =? 1) = false /\
  negb (PyArray_ISFLOAT (arg_c a)) || negb (PyArray_NDIM (arg_c a) =? 1) = false /\
  negb (PyArray_DIM (arg_c a) 0 =? arg_n a) = false /\
  negb (PyArray_ISFLOAT (arg_b a)) || negb (PyArray_NDIM (arg_b a) =? 1) = false /\
  negb (PyArray_DIM (arg_b a) 0 =? arg_m a) = false.
Proof.
  unfold first_failing, checks_in_order, passes. cbn [List.find].
  rewrite !Z.ltb_antisym.
  destruct (0 <=? arg_m a); [|discriminate].
  destruct (0 <=? arg_n a); [|discriminate].
  destruct (PyArray_ISFLOAT (arg_Ax a)); [|discriminate].
  destruct (PyArray_NDIM (arg_Ax a) =? 1); [|discriminate].
  destruct (PyArray_ISINTEGER (arg_Ai a)); [|discriminate].
  destruct (PyArray_NDIM (arg_Ai a) =? 1); [|discriminate].
  destruct (PyArray_ISINTEGER (arg_Ap a)); [|discriminate].
  destruct (PyArray_NDIM (arg_Ap a) =? 1); [|discriminate].
  destruct (PyArray_ISFLOAT (arg_c a)); [|discriminate].
  destruct (PyArray_NDIM (arg_c a) =? 1); [|discriminate].
  destruct (PyArray_DIM (arg_c a) 0 =? arg_n a); [|discriminate].
  destruct (PyArray_ISFLOAT (arg_b a)); [|discriminate].
  destruct (PyArray_NDIM (arg_b a) =? 1); [|discriminate].
  destruct (PyArray_DIM (arg_b a) 0 =? arg_m a); [|discriminate].
  intros _. repeat split; reflexivity.
Qed.

Section Stages.
Context {B : Build}.
Variable scs : Data -> Cone -> Sol -> Sol * Info.

(** The return value and the log of [parseOpts] do not depend on the
    structure it fills. *)
Lemma parseOpts_independent d1 d2 opts r d1' l :
  parseOpts d1 opts = Done (r, d1') l ->
  exists d2', parseOpts d2 opts = Done (r, d2') l.
Proof.
  unfold parseOpts. intros H.
  repeat (apply bind_Done_inv in H;
          let E := fresh "E" in
          destruct H as ([? ?] & ? & ? & E & H & ->);
          rewrite E; cbn [bind]; cbv zeta in H |- *;
          match type of H with
          | (if ?c then _ else _) = _ =>
              destruct c;
              [injection H as <- _ <-; eexists; reflexivity|]
          end;
          match goal with
          | |- exists d2', match ?p with _ => _ end = Done (?r, d2') (?l1 ++ ?l2) =>
              cut (exists d2', p = Done (r, d2') l2);
              [intros [d2' ->]; eexists; reflexivity|]
          end).
  injection H as <- _ <-. eexists. reflexivity.
Qed.

Lemma aborts_with_finish msg line l d k ps text :
  parse_only l -> stderr_text l = [text] -> line text ->
  aborts_with msg line
    (Done None (l ++ SetErr PyExc_ValueError msg :: Enter_freePyData :: released d k ps)).
Proof.
  intros Hl Ht Hline. eexists. split; [reflexivity|].
  split; [rewrite PyErr_Occurred_app, PyErr_Occurred_after_free; reflexivity|].
  split.
  - exists text. split; [|exact Hline].
    rewrite stderr_text_app, Ht. cbn [stderr_text]. rewrite stderr_text_released. reflexivity.
  - rewrite freePyData_calls_app, (freePyData_calls_parse _ Hl).
    change (SetErr PyExc_ValueError msg :: Enter_freePyData :: released d k ps)
      with ([SetErr PyExc_ValueError msg; Enter_freePyData] ++ released d k ps).
    rewrite freePyData_calls_app, (freePyData_calls_releases _ (released_is_release _ _ _)).
    reflexivity.
Qed.

End Stages.

Section StageOrder.
Context {B : Build}.
Variable scs : Data -> Cone -> Sol -> Sol * Info.

Ltac scalar_stage a key Hfind :=
  let r := fresh "r" in let v := fresh "v" in let l := fresh "l" in
  let E := fresh "E" in let Hl := fresh "Hl" in let Hr := fresh "Hr" in
  destruct (total_inv _ _ (parses_getPosIntParam key 0 (Some (arg_cone a))))
    as ([r v] & l & E & Hl);
  cbn [List.find] in Hfind; unfold stage_fails at 1 in Hfind;
  cbn [stage_code] in Hfind; rewrite E in Hfind; cbn [returned fmap option_fmap option_map fst] in Hfind;
  rewrite E;
  destruct (r <? 0) eqn:Hr;
  [ injection Hfind as <-;
    apply getPosIntParam_outcome in E;
    destruct E as [(-> & _)|(-> & E & _)]; [discriminate Hr|];
    cbn [bind]; cbv beta iota zeta; cbn [Z.ltb Z.compare];
    rewrite finishWithErr_eq;
    apply aborts_with_finish with (text := error_parsing key);
    [exact Hl|exact E|intros k' [= <-]; reflexivity]
  | apply getPosIntParam_outcome in E;
    destruct E as [(-> & -> & _)|(-> & _)]; [|discriminate Hr];
    rewrite bind_Done_nil; cbv beta iota zeta; cbn [Z.ltb Z.compare]; fields;
    clear Hl Hr ].

Ltac array_stage a key Hfind :=
  let r := fresh "r" in let q := fresh "q" in let n := fresh "n" in
  let l := fresh "l" in
  let E := fresh "E" in let Hl := fresh "Hl" in let Hr := fresh "Hr" in
  destruct (total_inv _ _ (parses_getConeArrDim key None 0 (arg_cone a)))
    as ([[r q] n] & l & E & Hl);
  cbn [List.find] in Hfind; unfold stage_fails at 1 in Hfind;
  cbn [stage_code] in Hfind; rewrite E in Hfind; cbn [returned fmap option_fmap option_map fst] in Hfind;
  rewrite E;
  destruct (r <? 0) eqn:Hr;
  [ injection Hfind as <-;
    apply getConeArrDim_outcome in E;
    destruct E as [(-> & _)|(-> & _ & _ & E & _)]; [discriminate Hr|];
    cbn [bind]; cbv beta iota zeta; cbn [Z.ltb Z.compare];
    rewrite finishWithErr_eq;
    apply aborts_with_finish with (text := error_parsing key);
    [exact Hl|exact E|intros k' [= <-]; reflexivity]
  | apply getConeArrDim_outcome in E;
    destruct E as [(-> & -> & _)|(-> & _)]; [|discriminate Hr];
    rewrite bind_Done_nil; cbv beta iota zeta; cbn [Z.ltb Z.compare]; fields;
    clear Hl Hr ].

(** X13. After validation has passed, [csolve] parses the cone fields f, l, q,
    s, ep, ed and then the options, in this order, and stops at the first
    stage whose parser returns a negative value: it returns NULL with
    ValueError carrying that stage's message, after exactly one line on
    stderr (for a cone field, the line naming the field) and exactly one
    call of [freePyData]. *)
Theorem csolve_first_failing_stage (a : Args) (st : Stage) :
  first_failing a = None ->
  first_failing_stage a = Some st ->
  aborts_with (stage_message st)
    (fun text => forall key, stage_key st = Some key -> text = error_parsing key)
    (csolve scs a).
Proof.
  intros Hff Hfind.
  apply first_failing_None_inv in Hff.
  destruct Hff as (Hm & Hn & HAx & HAi & HAp & Hc1 & Hc2 & Hb1 & Hb2).
  unfold csolve. cbv zeta. fields.
  rewrite Hm, Hn, HAx, HAi, HAp, Hc1, Hc2, Hb1, Hb2.
  unfold first_failing_stage, stages_in_order in Hfind.
  scalar_stage a "f" Hfind. scalar_stage a "l" Hfind.
  array_stage a "q" Hfind. array_stage a "s" Hfind.
  scalar_stage a "ep" Hfind. scalar_stage a "ed" Hfind.
  cbn [List.find] in Hfind. unfold stage_fails in Hfind. cbn [stage_code] in Hfind.
  destruct (readable (local_opts a)) as [opts|]; [|discriminate Hfind].
  destruct (total_inv _ _ (parses_parseOpts Data_zero opts))
    as ([r0 d0] & l0 & E0 & Hl).
  rewrite E0 in Hfind. cbn [returned fmap option_fmap option_map fst] in Hfind.
  destruct (r0 <? 0) eqn:Hr; [|discriminate Hfind]. injection Hfind as <-.
  match goal with |- context [parseOpts ?d opts] =>
    destruct (parseOpts_independent Data_zero d _ _ _ _ E0) as [d' E] end.
  rewrite E. cbn [bind]. cbv beta iota zeta. rewrite Hr.
  apply parseOpts_outcome in E.
  destruct E as [_ [(-> & _)|(-> & line & E)]]; [discriminate Hr|].
  rewrite finishWithErr_eq.
  apply aborts_with_finish with (text := line); [exact Hl|exact E|discriminate].
Qed.

End StageOrder.

(** ** Concrete runs of the further properties *)

Lemma getPosIntParam_result_witness :
  @getPosIntParam build_int "l" 0 (Some cone_negative_l)
    = Done (-1, -3) [Stderr (error_parsing "l")] /\
  ((-1 = 0 /\ [Stderr (error_parsing "l")] = [] /\
    ((missing "l" (Some cone_negative_l) /\ -3 = 0) \/
     (0 <= -3 /\ exists o z, Some cone_negative_l = Some o /\ o !! "l" = Some (PyInt z) /\
                             fits (@LONG_BITS build_int) z = true /\
                             -3 = @to_idxint build_int z))) \/
   (-1 = -1 /\ stderr_text [Stderr (error_parsing "l")] = [error_parsing "l"] /\
    ~ missing "l" (Some cone_negative_l))).
Proof.
  assert (H : @getPosIntParam build_int "l" 0 (Some cone_negative_l)
              = Done (-1, -3) [Stderr (error_parsing "l")]) by (vm_compute; reflexivity).
  split; [exact H|].
  exact (@getPosIntParam_result build_int "l" 0 (Some cone_negative_l) _ _ _ H).
Defined.

Lemma getOptFloatParam_result_witness :
  exists l,
    @getOptFloatParam build_int "EPS" 1e-3%float (Some opts_nan_eps) = Done (-1, nan) l /\
    stderr_text l =
      [("ERROR: '" ++ "EPS" ++ "' ought to be a nonnegative float" ++ newline)%string].
Proof.
  eexists.
  assert (H : @getOptFloatParam build_int "EPS" 1e-3%float (Some opts_nan_eps)
              = Done (-1, nan) [ought_to_be_nonnegative "EPS"]) by (vm_compute; reflexivity).
  split; [exact H|].
  destruct (@getOptFloatParam_result build_int "EPS" 1e-3%float (Some opts_nan_eps) _ _ _ H)
    as [(Hr & _)|(_ & Ht & _)]; [discriminate Hr|exact Ht].
Defined.

Lemma getConeArrDim_result_witness :
  let cone : gmap string PyObject := {[ "q" := PyList [PyInt 3; PyInt 4] ]} in
  @getConeArrDim build_int "q" None 0 cone = Done (0, Some [3; 4], 2) [] /\
  cone_array_ok (Some [3; 4]) 2.
Proof.
  assert (H : @getConeArrDim build_int "q" None 0 {[ "q" := PyList [PyInt 3; PyInt 4] ]}
              = Done (0, Some [3; 4], 2) []) by (vm_compute; reflexivity).
  split; [exact H|].
  destruct (@getConeArrDim_result build_int "q" None 0 _ _ _ _ _ H)
    as [(_ & _ & Hok & _)|(Hr & _)]; [exact Hok|discriminate Hr].
Defined.

Lemma getConeArrDim_list_where_idxint_is_long_witness :
  let cone : gmap string PyObject := {[ "q" := PyList [PyInt 3; PyInt (2 ^ 63)] ]} in
  @IDXINT_BITS build_DLONG = @LONG_BITS build_DLONG /\
  cone !! "q" = Some (PyList [PyInt 3; PyInt (2 ^ 63)]) /\
  Exists (fun o => ~ @nonneg_long build_DLONG o) [PyInt 3; PyInt (2 ^ 63)] /\
  exists l, @getConeArrDim build_DLONG "q" None 0 cone = Done (-1, None, 0) l /\
            stderr_text l = [error_parsing "q"].
Proof.
  assert (Hb : @IDXINT_BITS build_DLONG = @LONG_BITS build_DLONG) by reflexivity.
  assert (Hk : ({[ "q" := PyList [PyInt 3; PyInt (2 ^ 63)] ]} : gmap string PyObject) !! "q"
               = Some (PyList [PyInt 3; PyInt (2 ^ 63)])) by reflexivity.
  assert (He : Exists (fun o => ~ @nonneg_long build_DLONG o) [PyInt 3; PyInt (2 ^ 63)]).
  { apply Exists_cons_tl, Exists_cons_hd. intros (z & [= <-] & _ & Hf). discriminate Hf. }
  split; [exact Hb|]. split; [exact Hk|]. split; [exact He|].
  exact (proj2 (@getConeArrDim_list_where_idxint_is_long build_DLONG "q" None 0 _ _ Hb Hk) He).
Defined.

Lemma parseOpts_result_witness :
  exists d' l,
    @parseOpts build_int Data_zero (Some opts_nan_eps) = Done (-1, d') l /\
    same_problem Data_zero d' /\
    exists o before after,
      options_in_order = before ++ o :: after /\
      Forall (fun o' => @opt_fails build_int (Some opts_nan_eps) o' = false) before /\
      @opt_fails build_int (Some opts_nan_eps) o = true /\
      stderr_text l = [opt_line o] /\
      Forall (fun o' => opt_field o' d' = opt_field o' Data_zero) after.
Proof.
  do 2 eexists.
  assert (H : @parseOpts build_int Data_zero (Some opts_nan_eps)
              = Done (-1, set_EPS nan (set_SCALE 5%float (set_NORMALIZE 1
                         (set_VERBOSE 1 (set_MAX_ITERS 2500 Data_zero)))))
                     [ought_to_be_nonnegative "EPS"]) by (vm_compute; reflexivity).
  split; [exact H|].
  destruct (@parseOpts_result build_int _ _ _ _ _ H) as [Hs [(Hr & _)|(_ & Hl)]];
    [discriminate Hr|]. split; [exact Hs|exact Hl].
Defined.

Lemma getWarmStart_result_witness :
  getWarmStart "x" None 2 warm_x_only
    = Done (1, Some [1; 2]%float, Some (mkArray [2] (NpyFloats [1; 2]%float))) [] /\
  exists x0, warm_x_only !! "x" = Some (PyArray x0) /\ fits_warm_start x0 2 = true.
Proof.
  assert (H : getWarmStart "x" None 2 warm_x_only
              = Done (1, Some [1; 2]%float, Some (mkArray [2] (NpyFloats [1; 2]%float))) [])
    by (vm_compute; reflexivity).
  split; [exact H|].
  destruct (getWarmStart_result _ _ _ _ _ _ _ _ H)
    as [_ [(_ & _ & x0 & Hk & Hf & _)|(Hr & _)]]; [eauto|discriminate Hr].
Defined.

Lemma csolve_calls_scs_on_valid_input_witness :
  exists res log d k sol,
    @csolve build_int sample_scs sample_args = Done res log /\
    In (Call_scs d k sol) log /\
    first_failing sample_args = None /\
    @marshalled build_int sample_args d /\ options_ok d /\ cone_ok k.
Proof.
  do 5 eexists. split; [vm_compute; reflexivity|]. split; [left; reflexivity|].
  refine (@csolve_calls_scs_on_valid_input build_int sample_scs sample_args _ _ _ _ _ _ _);
    [vm_compute; reflexivity|left; reflexivity].
Defined.

Lemma csolve_success_is_clean_witness :
  exists ret log,
    @csolve build_int sample_scs (with_warm (Some warm_x_good_y_short) sample_args)
      = Done (Some ret) log /\
    PyErr_Occurred log = None /\ freePyData_calls log = 1%nat /\
    Forall (eq warm_start_diagnostic) (stderr_text log).
Proof.
  do 2 eexists. split; [vm_compute; reflexivity|].
  destruct (@csolve_success_is_clean build_int sample_scs
              (with_warm (Some warm_x_good_y_short) sample_args) _ _
              ltac:(vm_compute; reflexivity)) as (He & Ht & _ & Hc & _).
  auto.
Defined.

Lemma csolve_success_releases_witness :
  exists ret log pre d k sol rel,
    @csolve build_int sample_scs (with_warm (Some warm_x_good_y_short) sample_args)
      = Done (Some ret) log /\
    log = pre ++ Call_scs d k sol :: Enter_freePyData :: rel /\
    (In (Py_DECREF x0_) rel <->
     In x0_ [Ax_; Ai_; Ap_; b_; c_] \/
     warm_owner (with_warm (Some warm_x_good_y_short) sample_args) x0_).
Proof.
  eassert (H : @csolve build_int sample_scs
                 (with_warm (Some warm_x_good_y_short) sample_args) = Done (Some _) _)
    by (vm_compute; reflexivity).
  destruct (@csolve_success_releases build_int sample_scs _ _ _ H)
    as (pre & d & k & sol & rel & Hlog & _ & _ & Hf & _).
  do 2 eexists. exists pre, d, k, sol, rel.
  split; [exact H|]. split; [exact Hlog|apply Hf].
Defined.

Lemma csolve_frees_once_witness :
  exists log,
    @csolve build_int sample_scs (with_cone cone_negative_l sample_args) = Done None log /\
    0 <= arg_m (with_cone cone_negative_l sample_args) /\
    0 <= arg_n (with_cone cone_negative_l sample_args) /\
    freePyData_calls log = 1%nat.
Proof.
  eexists.
  assert (Hm : 0 <= arg_m (with_cone cone_negative_l sample_args)) by (simpl; lia).
  assert (Hn : 0 <= arg_n (with_cone cone_negative_l sample_args)) by (simpl; lia).
  split; [vm_compute; reflexivity|]. split; [exact Hm|]. split; [exact Hn|].
  exact (proj1 (@csolve_frees_once build_int sample_scs
                  (with_cone cone_negative_l sample_args) _ _
                  ltac:(vm_compute; reflexivity) Hm Hn)).
Defined.

Lemma csolve_negative_shape_witness :
  (arg_m (with_shape (-1) 2 sample_args) < 0 \/
   arg_n (with_shape (-1) 2 sample_args) < 0) /\
  exists msg,
    @csolve build_int sample_scs (with_shape (-1) 2 sample_args)
      = Done None [SetErr PyExc_ValueError msg] /\
    In msg shape_messages.
Proof.
  assert (H : arg_m (with_shape (-1) 2 sample_args) < 0 \/
              arg_n (with_shape (-1) 2 sample_args) < 0) by (left; simpl; lia).
  split; [exact H|].
  exact (@csolve_negative_shape build_int sample_scs (with_shape (-1) 2 sample_args) H).
Defined.

Lemma csolve_without_opts_witness :
  arg_opts (without_opts holds_NULL sample_args) = None /\
  opts_uninitialised (without_opts holds_NULL sample_args) = holds_NULL /\
  @csolve build_int sample_scs (without_opts holds_NULL sample_args)
    = @csolve build_int sample_scs sample_args /\
  exists ret log d k sol,
    @csolve build_int sample_scs (without_opts holds_NULL sample_args)
      = Done (Some ret) log /\
    In (Call_scs d k sol) log /\ default_options d.
Proof.
  assert (Ho : arg_opts (without_opts holds_NULL sample_args) = None) by reflexivity.
  assert (Hu : opts_uninitialised (without_opts holds_NULL sample_args) = holds_NULL)
    by reflexivity.
  destruct (@csolve_without_opts build_int sample_scs _ Ho Hu) as [Heq Hdef].
  split; [exact Ho|]. split; [exact Hu|]. split; [exact Heq|].
  eassert (H : @csolve build_int sample_scs (without_opts holds_NULL sample_args)
               = Done (Some _) (Call_scs _ _ _ :: _)) by (vm_compute; reflexivity).
  do 5 eexists. split; [exact H|]. split; [left; reflexivity|].
  exact (Hdef _ _ _ _ _ H (or_introl eq_refl)).
Defined.

Lemma csolve_result_contents_witness :
  exists ret log (returnDict infoDict : gmap string PyObject),
    @csolve build_int (scs_in_place Info_failed)
      (with_warm (Some warm_x_only) sample_args) = Done (Some ret) log /\
    ret = PyDict returnDict /\
    returnDict !! "x" =
      Some (PyArray (mkArrayOver [2] (NpyFloats [1; 2]%float) (borrows (in_data_of x0_)))) /\
    returnDict !! "info" = Some (PyDict infoDict) /\
    infoDict !! "statusVal" = Some (PyInt 4294967294) /\
    infoDict !! "status" = Some (PyString "Failure").
Proof.
  eassert (H : @csolve build_int (scs_in_place Info_failed)
                 (with_warm (Some warm_x_only) sample_args)
               = Done (Some _) (Call_scs _ _ _ :: _)) by (vm_compute; reflexivity).
  destruct (@csolve_result_contents build_int (scs_in_place Info_failed) _ _ _ H)
    as (d & k & sol & returnDict & infoDict & Hin & Hret & Hvec & Hi & Hst & _ & _ & _ & _
        & _ & _ & _ & Htx).
  do 2 eexists. exists returnDict, infoDict.
  split; [exact H|]. split; [exact Hret|].
  destruct Hin as [Hin|Hin].
  - injection Hin as <- <- <-.
    split; [exact (Hvec vec_x _ eq_refl)|]. split; [exact Hi|].
    split; [exact Hst|exact Htx].
  - exfalso. repeat (destruct Hin as [Hin|Hin]; [discriminate Hin|]). destruct Hin.
Defined.

Lemma csolve_first_failing_stage_witness :
  first_failing (with_cone cone_negative_l sample_args) = None /\
  @first_failing_stage build_int (with_cone cone_negative_l sample_args) = Some st_l /\
  aborts_with (stage_message st_l)
    (fun text => forall key, stage_key st_l = Some key -> text = error_parsing key)
    (@csolve build_int sample_scs (with_cone cone_negative_l sample_args)).
Proof.
  assert (Hv : first_failing (with_cone cone_negative_l sample_args) = None)
    by (vm_compute; reflexivity).
  assert (Hs : @first_failing_stage build_int (with_cone cone_negative_l sample_args)
               = Some st_l) by (vm_compute; reflexivity).
  split; [exact Hv|]. split; [exact Hs|].
  exact (@csolve_first_failing_stage build_int sample_scs _ _ Hv Hs).
Defined.

Lemma getIntType_coerces_to_idxint_witness :
  let a := mkArray [3] (NpyInts [0; 2 ^ 31; -1]) in
  In (@IDXINT_BITS build_int) [8; 16; 32; 64] /\
  elements a = NpyInts [0; 2 ^ 31; -1] /\
  @getContiguous a (@getIntType build_int) = mkArray [3] (NpyInts [0; - 2 ^ 31; -1]).
Proof.
  assert (Hw : In (@IDXINT_BITS build_int) [8; 16; 32; 64])
    by (right; right; left; reflexivity).
  assert (He : elements (mkArray [3] (NpyInts [0; 2 ^ 31; -1])) = NpyInts [0; 2 ^ 31; -1])
    by reflexivity.
  split; [exact Hw|]. split; [exact He|].
  exact (proj1 (@getIntType_coerces_to_idxint build_int _ _ Hw He)).
Defined.

Lemma csolve_result_borrows_released_warm_start_witness :
  arg_warm (with_warm (Some warm_x_only) sample_args) = Some warm_x_only /\
  getWarmStart_flag (vec_key vec_x)
    (vec_len (with_warm (Some warm_x_only) sample_args) vec_x) warm_x_only = Some 1 /\
  fills_in_place (scs_in_place Info_failed) vec_x /\
  exists ret log (returnDict : gmap string PyObject) arr pre d k sol rel,
    @csolve build_int (scs_in_place Info_failed)
      (with_warm (Some warm_x_only) sample_args) = Done (Some ret) log /\
    ret = PyDict returnDict /\
    returnDict !! "x" = Some (PyArray arr) /\
    base arr = borrows (in_data_of x0_) /\
    log = pre ++ Call_scs d k sol :: Enter_freePyData :: rel /\
    In (Py_DECREF x0_) rel.
Proof.
  assert (Hw : arg_warm (with_warm (Some warm_x_only) sample_args) = Some warm_x_only)
    by reflexivity.
  assert (Hf : getWarmStart_flag (vec_key vec_x)
                 (vec_len (with_warm (Some warm_x_only) sample_args) vec_x) warm_x_only
               = Some 1) by (vm_compute; reflexivity).
  assert (Hs : fills_in_place (scs_in_place Info_failed) vec_x)
    by (intros d k sol Hx; split; [exact Hx|reflexivity]).
  split; [exact Hw|]. split; [exact Hf|]. split; [exact Hs|].
  eassert (H : @csolve build_int (scs_in_place Info_failed)
                 (with_warm (Some warm_x_only) sample_args) = Done (Some _) _)
    by (vm_compute; reflexivity).
  destruct (@csolve_result_borrows_released_warm_start build_int (scs_in_place Info_failed)
              _ _ _ vec_x _ H Hw Hf Hs)
    as (returnDict & arr & pre & d & k & sol & rel & Hret & Hx & Hb & Hlog & Hin).
  do 2 eexists. exists returnDict, arr, pre, d, k, sol, rel.
  split; [exact H|]. auto 10.
Defined.
